(** * deepgram-demo: the confidence renderer, the exports and the transcribe flow

    A shallow embedding of [src/demo.py] (direct HTTP version) and
    [src/demo2.py] (SDK version) and the properties their specification
    states about them.

    Layout: the Python runtime the two scripts rely on (exceptions, binary64
    floats, numbers, strings, JSON values), the Streamlit page and the
    process state, the two scripts, the specification's data model, the
    pages and values the further properties are stated with, and then the
    lemmas, the specification's claims and the further properties.

    What is modelled, and how:
    - a Python [float] is a binary64 value of [SpecFloat], with its correctly
      rounded operations; [int()] and the [.2f] format are exact on it;
    - a decoded response is a JSON value, and subscripts, iteration and
      arithmetic on it raise the exceptions Python raises;
    - a statement is a function on the state (page, files, number of provider
      calls) that returns a value or an exception;
    - the provider, the SDK, [json.loads] and [str()] of values that are not
      strings are given from outside: the theorems hold for all of them;
    - writing the upload to the temporary file succeeds, and only
      exceptions derived from [Exception] occur. *)

From Stdlib Require Import ZArith QArith Qround String Ascii List Lia Bool.
From Stdlib Require Import DecimalString Qabs.
From Stdlib Require Import Floats.SpecFloat.
From stdpp Require Import gmap strings list fin_maps.

Local Open Scope string_scope.
Local Open Scope Z_scope.

(* ===================================================================== *)
(** * The Python runtime *)
(* ===================================================================== *)

Module Py.

(** ** Exceptions *)

(** The classes of [Exception] the two scripts can meet.  [str(e)] is kept
    as the exception's text; the wording of the interpreter's own messages
    follows CPython 3.12. *)
Inductive exn_class :=
| KeyError | IndexError | TypeError | ValueError | OverflowError
| AttributeError | OSError | JSONDecodeError | Exception_.

Record exn := Exn { exn_cls : exn_class; exn_str : string }.

Inductive result (A : Type) :=
| Ok (a : A)
| Raise (e : exn).
Arguments Ok {A} a.
Arguments Raise {A} e.

Definition rbind {A B} (m : result A) (k : A -> result B) : result B :=
  match m with
  | Ok a => k a
  | Raise e => Raise e
  end.

Notation "'let!' x ':=' m 'in' k" := (rbind m (fun x => k))
  (at level 10, x pattern, m at level 100, k at level 200).

(** ** binary64 floats

    Python's [float] is IEEE 754 binary64; its operations are the
    correctly rounded ones (round to nearest, ties to even), given here by
    the executable specification of [SpecFloat] at precision 53. *)

Definition prec : Z := 53.
Definition emax : Z := 1024.

Definition fmul : spec_float -> spec_float -> spec_float := SFmul prec emax.
Definition fsub : spec_float -> spec_float -> spec_float := SFsub prec emax.
Definition fdiv : spec_float -> spec_float -> spec_float := SFdiv prec emax.
Definition flt : spec_float -> spec_float -> bool := SFltb.
Definition fle : spec_float -> spec_float -> bool := SFleb.

(** [float(z)] for an integer that converts without overflow; the literals
    [1], [255] and [0.5] of the scripts. *)
Definition float_of_Z (z : Z) : spec_float := binary_normalize prec emax z 0 false.

Definition f0 : spec_float := S754_zero false.
Definition f1 : spec_float := S754_finite false 4503599627370496 (-52).
Definition f255 : spec_float := S754_finite false 8972014882652160 (-45).
Definition f0_5 : spec_float := S754_finite false 4503599627370496 (-53).

(** The double a decimal literal [n/d] denotes (the double nearest to the
    quotient), for [n] and [d] below [2^53]: how the JSON decoder reads
    [0.92] as [decimal 92 100]. *)
Definition decimal (n d : Z) : spec_float := fdiv (float_of_Z n) (float_of_Z d).

(** A zero, or a finite double of sign [s] whose leading bit is at most at
    position [K]: far from overflow when [K] is small. *)
Definition small (s : bool) (K : Z) (f : spec_float) : Prop :=
  match f with
  | S754_zero _ => True
  | S754_finite s' m e => s' = s /\ Zpos (digits2_pos m) + e <= K
  | _ => False
  end.

(** A zero, or a positive finite double of value at most the integer [N]. *)
Definition at_most (N : Z) (f : spec_float) : Prop :=
  match f with
  | S754_zero _ => True
  | S754_finite s m e => s = false /\ e <= 0 /\ Zpos m <= N * 2 ^ (- e)
  | _ => False
  end.

(** The round and sticky bits of a shifted mantissa: something was lost. *)
Definition inexact (mrs : shr_record) : bool := shr_r mrs || shr_s mrs.

(** [int(x)] of a float: truncation toward zero; NaN and the infinities
    raise. *)
Definition int_of_float (f : spec_float) : result Z :=
  match f with
  | S754_zero _ => Ok 0
  | S754_finite s m e => Ok (cond_Zopp s (Z.shiftl (Zpos m) e))
  | S754_infinity _ =>
      Raise (Exn OverflowError "cannot convert float infinity to integer")
  | S754_nan => Raise (Exn ValueError "cannot convert float NaN to integer")
  end.

(** [str(n)] of an integer. *)
Definition str_of_Z (z : Z) : string := NilZero.string_of_int (Z.to_int z).

(** ** The [.2f] format

    [format(x, '.2f')] prints the decimal with two fractional digits that
    is nearest to the exact binary value of [x], ties going to the even
    last digit. *)

Definition round_half_even (num den : Z) : Z :=
  let q := num / den in
  match (2 * (num mod den)) ?= den with
  | Lt => q
  | Gt => q + 1
  | Eq => if Z.even q then q else q + 1
  end.

(** [|x| * 100], rounded to an integer. *)
Definition hundredths (m : positive) (e : Z) : Z :=
  match e with
  | Zneg p => round_half_even (Zpos m * 100) (2 ^ Zpos p)
  | _ => Zpos m * 2 ^ e * 100
  end.

Definition two_digits (n : Z) : string :=
  if n <? 10 then "0" +:+ str_of_Z n else str_of_Z n.

Definition sign_str (s : bool) : string := if s then "-" else "".

Definition format_2f (f : spec_float) : string :=
  match f with
  | S754_nan => "nan"
  | S754_infinity s => sign_str s +:+ "inf"
  | S754_zero s => sign_str s +:+ "0.00"
  | S754_finite s m e =>
      let h := hundredths m e in
      sign_str s +:+ str_of_Z (h / 100) +:+ "." +:+ two_digits (h mod 100)
  end.

(** ** Strings

    A Python [str] is kept as its UTF-8 bytes; the two separators the
    scripts split on (space and dot) are single bytes that occur in no
    multi-byte sequence, so splitting and joining agree with Python's. *)

(** [sep.join(items)] on strings. *)
Fixpoint str_join (sep : string) (items : list string) : string :=
  match items with
  | [] => ""
  | [x] => x
  | x :: rest => x +:+ sep +:+ str_join sep rest
  end.

(** The concatenation of the pieces, in order. *)
Fixpoint str_concat (pieces : list string) : string :=
  match pieces with
  | [] => ""
  | x :: rest => x +:+ str_concat rest
  end.

(** [s.split(sep)] for a one-character separator: never an empty list. *)
Fixpoint str_split (sep : ascii) (s : string) : list string :=
  match s with
  | EmptyString => [""]
  | String c rest =>
      if Ascii.eqb c sep then "" :: str_split sep rest
      else match str_split sep rest with
           | [] => [String c ""]
           | w :: ws => String c w :: ws
           end
  end.

(** The double quote, for the HTML attributes. *)
Definition dq : string := String (ascii_of_nat 34) "".

(** A newline. *)
Definition nl : string := String (ascii_of_nat 10) "".

Definition bytes : Type := list Byte.byte.

(** ** JSON values, as [json.loads] returns them

    [None], [bool], [int], [float], [str], [list] and [dict] (string keys). *)
#[warnings="-register-all"]
Inductive json :=
| JNull
| JBool (b : bool)
| JInt (z : Z)
| JFloat (f : spec_float)
| JStr (s : string)
| JArr (l : list json)
| JObj (o : gmap string json).

Definition type_name (v : json) : string :=
  match v with
  | JNull => "NoneType"
  | JBool _ => "bool"
  | JInt _ => "int"
  | JFloat _ => "float"
  | JStr _ => "str"
  | JArr _ => "list"
  | JObj _ => "dict"
  end.

Definition not_subscriptable {A} (v : json) : result A :=
  Raise (Exn TypeError ("'" +:+ type_name v +:+ "' object is not subscriptable")).

(** [v[key]] with a string key. *)
Definition getitem (v : json) (key : string) : result json :=
  match v with
  | JObj o =>
      match o !! key with
      | Some x => Ok x
      | None => Raise (Exn KeyError ("'" +:+ key +:+ "'"))
      end
  | JArr _ =>
      Raise (Exn TypeError "list indices must be integers or slices, not str")
  | JStr _ => Raise (Exn TypeError "string indices must be integers, not 'str'")
  | _ => not_subscriptable v
  end.

(** [v[0]]. A [dict] decoded from JSON has string keys only, so [0] is never
    one of them. *)
Definition getitem0 (v : json) : result json :=
  match v with
  | JArr (x :: _) => Ok x
  | JArr [] => Raise (Exn IndexError "list index out of range")
  | JStr (String c _) => Ok (JStr (String c ""))
  | JStr EmptyString => Raise (Exn IndexError "string index out of range")
  | JObj _ => Raise (Exn KeyError "0")
  | _ => not_subscriptable v
  end.

Fixpoint chars (s : string) : list json :=
  match s with
  | EmptyString => []
  | String c rest => JStr (String c "") :: chars rest
  end.

(** The items [for x in v] runs over: the elements of a list, the characters
    of a string, the keys of a dict. *)
Definition iter (v : json) : result (list json) :=
  match v with
  | JArr l => Ok l
  | JStr s => Ok (chars s)
  | JObj o => Ok (JStr <$> (map_to_list o).*1)
  | _ => Raise (Exn TypeError ("'" +:+ type_name v +:+ "' object is not iterable"))
  end.

(** ** Numbers: [int] (with [bool]) and [float] *)

Inductive number :=
| PInt (z : Z)
| PFloat (f : spec_float).

Definition as_number (v : json) : option number :=
  match v with
  | JBool b => Some (PInt (if b then 1 else 0))
  | JInt z => Some (PInt z)
  | JFloat f => Some (PFloat f)
  | _ => None
  end.

Definition unsupported {A} (op : string) (v : json) : result A :=
  Raise (Exn TypeError ("unsupported operand type(s) for " +:+ op +:+
                        ": 'int' and '" +:+ type_name v +:+ "'")).

(** [1 - x]: exact on integers, the [1] converted first against a float. *)
Definition one_minus (x : number) : number :=
  match x with
  | PInt z => PInt (1 - z)
  | PFloat f => PFloat (fsub f1 f)
  end.

(** [255 * x] on a number. *)
Definition times_255 (x : number) : number :=
  match x with
  | PInt z => PInt (255 * z)
  | PFloat f => PFloat (fmul f255 f)
  end.

(** [int(x)]. *)
Definition int (x : number) : result Z :=
  match x with
  | PInt z => Ok z
  | PFloat f => int_of_float f
  end.

(** [float(z)], which overflows past the largest double. *)
Definition float_of_int (z : Z) : result spec_float :=
  match float_of_Z z with
  | S754_infinity _ => Raise (Exn OverflowError "int too large to convert to float")
  | f => Ok f
  end.

(** [x < 0.5]: a float against the literal, an integer compared exactly
    (an integer is below one half exactly when it is at most zero). *)
Definition lt_half (x : number) : bool :=
  match x with
  | PInt z => z <=? 0
  | PFloat f => flt f f0_5
  end.

(** [f"{x:.2f}"]. *)
Definition fmt_2f (x : number) : result string :=
  match x with
  | PFloat f => Ok (format_2f f)
  | PInt z => let! f := float_of_int z in Ok (format_2f f)
  end.

(** The operand of a subtraction from an [int]: a number, or a [TypeError]. *)
Definition operand (v : json) : result number :=
  match as_number v with
  | Some x => Ok x
  | None => unsupported "-" v
  end.

(** [format(v, '.2f')] on any value. *)
Definition format_spec_2f (v : json) : result string :=
  match as_number v with
  | Some x => fmt_2f x
  | None =>
      match v with
      | JStr _ => Raise (Exn ValueError "Unknown format code 'f' for object of type 'str'")
      | _ => Raise (Exn TypeError ("unsupported format string passed to " +:+
                                   type_name v +:+ ".__format__"))
      end
  end.

(** A list comprehension [[f x for x in items]]. *)
Fixpoint comprehension {A B} (f : A -> result B) (items : list A) : result (list B) :=
  match items with
  | [] => Ok []
  | x :: rest =>
      let! y := f x in
      let! ys := comprehension f rest in
      Ok (y :: ys)
  end.

(** ** What the interpreter provides and this development leaves open

    [py_repr v] is [str(v)] for a JSON value that is not a string (the
    shortest round-trip decimal of a float, the nested [repr] of lists and
    dicts); [json_loads] is [json.loads] on a response body. *)
Record runtime := {
  py_repr : json -> string;
  json_loads : bytes -> result json;
}.

(** [str(v)], as an f-string field formats it. *)
Definition str (rt : runtime) (v : json) : string :=
  match v with
  | JStr s => s
  | _ => py_repr rt v
  end.

(** [sep.join(items)] on values: every item has to be a [str]. *)
Fixpoint join_items (i : nat) (items : list json) : result (list string) :=
  match items with
  | [] => Ok []
  | JStr s :: rest => let! l := join_items (S i) rest in Ok (s :: l)
  | v :: _ =>
      Raise (Exn TypeError ("sequence item " +:+ str_of_Z (Z.of_nat i) +:+
                            ": expected str instance, " +:+ type_name v +:+ " found"))
  end.

Definition join (sep : string) (items : list json) : result string :=
  let! l := join_items 0 items in Ok (str_join sep l).

End Py.

(* ===================================================================== *)
(** * The page and the process state *)
(* ===================================================================== *)

Module St.
Import Py.

(** What a Streamlit call puts on the page. *)
Inductive element :=
| Markdown (body : string) (unsafe_allow_html : bool)
| DownloadButton (label data file_name mime : string)
| Error (body : string)
| Warning (body : string)
| Info (body : string)
| Json (payload : json)
| Button (label : string)
| Spinner (text : string)
| Expander (label : string).

(** The state a script run acts on: the page so far, the files on disk and
    the number of calls made to the transcription provider. *)
Record world := World {
  page : list element;
  files : gmap string bytes;
  provider_calls : nat;
}.

(** A statement: it ends normally or raises, and it changes the state
    either way. *)
Definition M (A : Type) : Type := world -> result A * world.

Definition ret {A} (a : A) : M A := fun w => (Ok a, w).

Definition bind {A B} (m : M A) (k : A -> M B) : M B :=
  fun w => match m w with
           | (Ok a, w') => k a w'
           | (Raise e, w') => (Raise e, w')
           end.

Definition raise {A} (e : exn) : M A := fun w => (Raise e, w).

(** An expression evaluated inside a statement. *)
Definition lift {A} (r : result A) : M A := fun w => (r, w).

Notation "'let*' x ':=' m 'in' k" := (bind m (fun x => k))
  (at level 10, x pattern, m at level 100, k at level 200).
Notation "m ';;' k" := (bind m (fun _ => k))
  (at level 100, k at level 200, right associativity).

(** [try: body  except cls as e: handler e], where [catches e] says whether
    [e] is an instance of [cls]. *)
Definition try_except {A} (body : M A) (catches : exn -> bool) (handler : exn -> M A) : M A :=
  fun w => match body w with
           | (Raise e, w') => if catches e then handler e w' else (Raise e, w')
           | ok => ok
           end.

(** [try: body  finally: cleanup]. *)
Definition try_finally {A} (body : M A) (cleanup : M unit) : M A :=
  fun w => match body w with
           | (r, w') =>
               match cleanup w' with
               | (Ok _, w'') => (r, w'')
               | (Raise e, w'') => (Raise e, w'')
               end
           end.

(** [except KeyError] and [except Exception]. *)
Definition is_KeyError (e : exn) : bool :=
  match exn_cls e with KeyError => true | _ => false end.
Definition is_Exception (e : exn) : bool := true.

(** The state with more elements on the page. *)
Definition shown (els : list element) (w : world) : world :=
  World (page w ++ els) (files w) (provider_calls w).

Definition emit (x : element) : M unit :=
  fun w => (Ok tt, World (page w ++ [x]) (files w) (provider_calls w)).

Definition markdown (body : string) (unsafe_allow_html : bool) : M unit :=
  emit (Markdown body unsafe_allow_html).
Definition download_button (label data file_name mime : string) : M unit :=
  emit (DownloadButton label data file_name mime).
Definition error (body : string) : M unit := emit (Error body).
Definition warning (body : string) : M unit := emit (Warning body).
Definition info (body : string) : M unit := emit (Info body).
Definition json_ (payload : json) : M unit := emit (Json payload).
Definition spinner (text : string) : M unit := emit (Spinner text).
Definition expander (label : string) : M unit := emit (Expander label).

(** [st.button(label)]: drawn, and true in the run its click triggers. *)
Definition button (label : string) (clicked : bool) : M bool :=
  emit (Button label) ;; ret clicked.

(** ** Files *)

(** [tempfile.NamedTemporaryFile(delete=False, suffix=...)]: a new, empty
    file whose name ends in the suffix.  [stem] is the directory and the
    random name the system picks; a name that is taken is an error (as it
    is for [tempfile] once its candidates are used up). *)
Definition NamedTemporaryFile (stem suffix : string) : M string :=
  fun w =>
    let name := stem +:+ suffix in
    match files w !! name with
    | Some _ => (Raise (Exn OSError "No usable temporary file name found"), w)
    | None => (Ok name, World (page w) (<[name := []]> (files w)) (provider_calls w))
    end.

Definition no_such_file {A} (path : string) : result A :=
  Raise (Exn OSError ("[Errno 2] No such file or directory: '" +:+ path +:+ "'")).

(** [tmp_file.write(data)]. *)
Definition write (path : string) (data : bytes) : M unit :=
  fun w => (Ok tt, World (page w) (<[path := data]> (files w)) (provider_calls w)).

(** [open(path, "rb").read()]. *)
Definition read (path : string) : M bytes :=
  fun w => match files w !! path with
           | Some data => (Ok data, w)
           | None => (no_such_file path, w)
           end.

(** [os.unlink(path)]. *)
Definition unlink (path : string) : M unit :=
  fun w => match files w !! path with
           | Some _ => (Ok tt, World (page w) (delete path (files w)) (provider_calls w))
           | None => (no_such_file path, w)
           end.

(** One more call to the provider. *)
Definition count_call : M unit :=
  fun w => (Ok tt, World (page w) (files w) (S (provider_calls w))).

(** A statement that leaves the files as they are, however it ends. *)
Definition keeps_files {A} (m : M A) : Prop :=
  forall w, files (snd (m w)) = files w.

(** The widgets' values in one run of the script. *)
Record UploadedFile := { name : string; getvalue : bytes }.

Record inputs := {
  api_key : string;
  uploaded_file : option UploadedFile;
  show_confidence : bool;
  transcribe_clicked : bool;
}.

(** Truth value of a string: non-empty. *)
Definition truthy (s : string) : bool :=
  match s with EmptyString => false | _ => true end.

Definition is_not_None {A} (o : option A) : bool :=
  match o with Some _ => true | None => false end.

(** The background and text colours of a word, as the inline style. *)
Definition span (r g b : Z) (color display_text : string) : string :=
  "<span style=" +:+ dq +:+ "background-color: rgb(" +:+ str_of_Z r +:+ ", " +:+
  str_of_Z g +:+ ", " +:+ str_of_Z b +:+
  "); padding: 3px 5px; margin: 2px; border-radius: 3px; color: " +:+ color +:+
  ";" +:+ dq +:+ ">" +:+ display_text +:+ "</span> ".

End St.

(* ===================================================================== *)
(** * demo.py: the direct HTTP version *)
(* ===================================================================== *)

Module Demo.
Import Py St.

Record http_request := {
  method : string;
  host : string;
  url : string;
  body : bytes;
  headers : list (string * string);
}.

(** What the connection gives back: an exception out of [conn.request],
    [conn.getresponse] or [response.read], or a status and a body. *)
Inductive http_outcome :=
| TransportError (e : exn)
| Response (status : Z) (data : bytes).

Section Script.

(** The interpreter, the provider's answer to a request, and the temporary
    name the system picks. *)
Variable rt : runtime.
Variable provider : http_request -> http_outcome.
Variable tmp_stem : string.

(** [conn.request(...)], [conn.getresponse()] and [response.read()]. *)
Definition request (req : http_request) : M (Z * bytes) :=
  count_call ;;
  match provider req with
  | TransportError e => raise e
  | Response status data => ret (status, data)
  end.

Definition transcribe_audio (file_path api_key : string) : M json :=
  let url := "api.deepgram.com" in
  let* audio_data := read file_path in
  let headers := [("Authorization", "Token " +:+ api_key);
                  ("Content-Type", "audio/*");
                  ("Diarize", "True")] in
  let* response := request {| method := "POST"; host := url; url := "/v1/listen";
                              body := audio_data; headers := headers |} in
  let response_data := snd response in
  let* results := lift (json_loads rt response_data) in
  ret results.

(** Lines 77 to 79: the background colour of a word. *)
Definition rgb (confidence : number) : result (Z * Z * Z) :=
  let! r := int (times_255 (one_minus confidence)) in
  let! g := int (times_255 confidence) in
  let b := 0 in
  Ok (r, g, b).

(** Line 87: the text colour. *)
Definition text_color (confidence : number) : string :=
  if lt_half confidence then "white" else "black".

(** Lines 82 to 85: the text shown for a word. *)
Definition display_text (show_confidence : bool) (word : json) (confidence : number)
  : result string :=
  if show_confidence then
    let! w := getitem word "word" in
    let! c := fmt_2f confidence in
    Ok (str rt w +:+ " (" +:+ c +:+ ")")
  else
    let! w := getitem word "word" in
    Ok (str rt w).

(** The body of the loop over [words]: the [span] of one word. *)
Definition word_span (show_confidence : bool) (word : json) : result string :=
  let! confidence_ := getitem word "confidence" in
  let! confidence := operand confidence_ in
  let! colour := rgb confidence in
  let '(r, g, b) := colour in
  let! display_text := display_text show_confidence word confidence in
  Ok (span r g b (text_color confidence) display_text).

Fixpoint words_html (show_confidence : bool) (words : list json) (html : string)
  : result string :=
  match words with
  | [] => Ok html
  | word :: rest =>
      let! s := word_span show_confidence word in
      words_html show_confidence rest (html +:+ s)
  end.

(** [results['results']['channels'][0]['alternatives'][0]['words']]. *)
Definition words_of (results : json) : result json :=
  let! a := getitem results "results" in
  let! b := getitem a "channels" in
  let! c := getitem0 b in
  let! d := getitem c "alternatives" in
  let! e := getitem0 d in
  getitem e "words".

(** A line of the detailed export. *)
Definition detailed_line (word : json) : result string :=
  let! w := getitem word "word" in
  let! c_ := getitem word "confidence" in
  let! c := format_spec_2f c_ in
  Ok (str rt w +:+ " (" +:+ c +:+ ")").

Definition plain_text (words : json) : result string :=
  let! items := iter words in
  let! texts := comprehension (fun word => getitem word "word") items in
  join " " texts.

Definition detailed_text (words : json) : result string :=
  let! items := iter words in
  let! lines := comprehension detailed_line items in
  Ok (str_join nl lines).

Definition display_transcription (results : json) (show_confidence : bool) : M unit :=
  try_except
    (let* words := lift (words_of results) in
     markdown "### Transcription Result:" false ;;
     let html := "<div style=" +:+ dq +:+ "line-height: 2.5;" +:+ dq +:+ ">" in
     let* items := lift (iter words) in
     let* html := lift (words_html show_confidence items html) in
     let html := html +:+ "</div>" in
     markdown html true ;;
     let* plain_text := lift (plain_text words) in
     download_button "Download Transcript (Text)" plain_text
                     "transcript.txt" "text/plain" ;;
     let* detailed_text := lift (detailed_text words) in
     download_button "Download Detailed Transcript (with confidence scores)"
                     detailed_text "detailed_transcript.txt" "text/plain")
    is_KeyError
    (fun e =>
       error ("Error parsing transcription result: " +:+ exn_str e) ;;
       json_ results).

(** Lines 116 to 147, the transcribe flow at the script's top level.  The
    widgets above it give the [inputs]; the static page around it (title,
    help text, sidebar) is left out. *)
Definition main (i : inputs) : M unit :=
  if is_not_None (uploaded_file i) && truthy (api_key i) then
    match uploaded_file i with
    | None => ret tt
    | Some uploaded_file =>
        let* clicked := button "Transcribe Audio" (transcribe_clicked i) in
        if clicked then
          spinner "Transcribing your audio... This may take a moment." ;;
          let suffix := "." +:+ List.last (str_split "." (name uploaded_file)) "" in
          let* tmp_file_path := NamedTemporaryFile tmp_stem suffix in
          write tmp_file_path (getvalue uploaded_file) ;;
          try_finally
            (try_except
               (let* transcription_results := transcribe_audio tmp_file_path (api_key i) in
                display_transcription transcription_results (show_confidence i) ;;
                expander "View Raw API Response" ;;
                json_ transcription_results)
               is_Exception
               (fun e => error ("An error occurred during transcription: " +:+ exn_str e)))
            (unlink tmp_file_path)
        else ret tt
    end
  else if negb (truthy (api_key i)) && is_not_None (uploaded_file i) then
    warning "Please enter your Deepgram API key to proceed."
  else if truthy (api_key i) && negb (is_not_None (uploaded_file i)) then
    info "Please upload an audio file to transcribe."
  else
    info "Enter your API key and upload an audio file to get started.".

End Script.
End Demo.

(* ===================================================================== *)
(** * demo2.py: the SDK version *)
(* ===================================================================== *)

Module Demo2.
Import Py St.

(** The SDK's response objects, with the attributes the script reads.  The
    attributes the SDK declares optional may be [None]. *)
Record Word := { word : string; confidence : spec_float }.
Record Sentence := { text : string }.
Record Paragraph := { sentences : list Sentence }.

Module Paragraphs.
Record t := { paragraphs : list Paragraph }.
End Paragraphs.

Record Alternative := { words : list Word; paragraphs : option Paragraphs.t }.
Record Channel := { alternatives : list Alternative }.
Record Results := { channels : option (list Channel) }.
Record PrerecordedResponse := { results : option Results; to_dict : json }.

(** [PrerecordedOptions(...)] and the call the SDK is asked to make. *)
Record PrerecordedOptions := { model : string; smart_format : bool; diarize : bool }.

Record sdk_call := {
  key : string;
  buffer : bytes;
  options : PrerecordedOptions;
}.

Definition no_attribute {A} (attr : string) : result A :=
  Raise (Exn AttributeError ("'NoneType' object has no attribute '" +:+ attr +:+ "'")).

Definition index0 {A} (l : list A) : result A :=
  match l with
  | x :: _ => Ok x
  | [] => Raise (Exn IndexError "list index out of range")
  end.

(** [results.channels[0].alternatives[0]]. *)
Definition alternative0 (results : option Results) : result Alternative :=
  match results with
  | None => no_attribute "channels"
  | Some results =>
      match channels results with
      | None => Raise (Exn TypeError "'NoneType' object is not subscriptable")
      | Some chans =>
          let! channel := index0 chans in
          index0 (alternatives channel)
      end
  end.

(** [alternative.paragraphs.paragraphs]. *)
Definition paragraphs_of (a : Alternative) : result (list Paragraph) :=
  match paragraphs a with
  | None => no_attribute "paragraphs"
  | Some p => Ok (Paragraphs.paragraphs p)
  end.

Section Script.

(** What the SDK's [transcribe_file] returns or raises, and the temporary
    name the system picks. *)
Variable sdk : sdk_call -> result PrerecordedResponse.
Variable tmp_stem : string.

Definition transcribe_audio (file_path api_key : string) : M PrerecordedResponse :=
  try_except
    (let deepgram := api_key in
     let* buffer_data := read file_path in
     let payload := buffer_data in
     let options := {| model := "nova-3"; smart_format := true; diarize := true |} in
     count_call ;;
     let* response := lift (sdk {| key := deepgram; buffer := payload; options := options |}) in
     ret response)
    is_Exception
    (fun e => raise (Exn Exception_ ("Deepgram transcription error: " +:+ exn_str e))).

(** Lines 88 to 90: the background colour of a word. *)
Definition rgb (confidence : spec_float) : result (Z * Z * Z) :=
  let! r := int_of_float (fmul f255 (fsub f1 confidence)) in
  let! g := int_of_float (fmul f255 confidence) in
  let b := 0 in
  Ok (r, g, b).

(** Line 98: the text colour. *)
Definition text_color (confidence : spec_float) : string :=
  if flt confidence f0_5 then "white" else "black".

(** Lines 93 to 96: the text shown for the token [w] of a sentence. *)
Definition display_text (show_confidence : bool) (w : string) (confidence : spec_float)
  : string :=
  if show_confidence then w +:+ " (" +:+ format_2f confidence +:+ ")" else w.

(** The body of the loop over the words of a sentence's text: [html] and
    [word_count] before and after the token [w]. *)
Definition token_span (show_confidence : bool) (words : list Word)
           (w : string) (html : string) (word_count : nat) : result (string * nat) :=
  if (word_count <? length words)%nat then
    match words !! word_count with
    | None => Raise (Exn IndexError "list index out of range")
    | Some word_obj =>
        let confidence := confidence word_obj in
        let! colour := rgb confidence in
        let '(r, g, b) := colour in
        let display_text := display_text show_confidence w confidence in
        Ok (html +:+ span r g b (text_color confidence) display_text, S word_count)
    end
  else
    Ok (html +:+ "<span>" +:+ w +:+ "</span> ", word_count).

Fixpoint tokens_html (show_confidence : bool) (words : list Word)
         (words_in_sentence : list string) (html : string) (word_count : nat)
  : result (string * nat) :=
  match words_in_sentence with
  | [] => Ok (html, word_count)
  | w :: rest =>
      let! hw := token_span show_confidence words w html word_count in
      tokens_html show_confidence words rest (fst hw) (snd hw)
  end.

(** The body of the loop over sentences: one [st.markdown] per sentence. *)
Definition sentence_html (show_confidence : bool) (words : list Word)
           (s : Sentence) (word_count : nat) : M nat :=
  let html := "<div style=" +:+ dq +:+ "margin-bottom: 10px;" +:+ dq +:+
              "><span style=" +:+ dq +:+ "font-weight: bold;" +:+ dq +:+
              ">Sentence: </span>" in
  let words_in_sentence := str_split " " (text s) in
  let* hw := lift (tokens_html show_confidence words words_in_sentence html word_count) in
  let html := fst hw +:+ "</div>" in
  markdown html true ;;
  ret (snd hw).

Fixpoint sentences_loop (show_confidence : bool) (words : list Word)
         (ss : list Sentence) (word_count : nat) : M nat :=
  match ss with
  | [] => ret word_count
  | s :: rest =>
      let* word_count := sentence_html show_confidence words s word_count in
      sentences_loop show_confidence words rest word_count
  end.

Fixpoint paragraphs_loop (show_confidence : bool) (words : list Word)
         (ps : list Paragraph) (word_count : nat) : M nat :=
  match ps with
  | [] => ret word_count
  | p :: rest =>
      let* word_count := sentences_loop show_confidence words (sentences p) word_count in
      paragraphs_loop show_confidence words rest word_count
  end.

Definition detailed_line (w : Word) : string :=
  word w +:+ " (" +:+ format_2f (confidence w) +:+ ")".

Definition plain_text (words : list Word) : string :=
  str_join " " (word <$> words).

Definition detailed_text (words : list Word) : string :=
  str_join nl (detailed_line <$> words).

(** The path [results.channels[0].alternatives[0]] is written out at each
    use in the script; the response does not change in between, so it is
    evaluated once here, where the script evaluates it first. *)
Definition display_transcription (response : PrerecordedResponse) (show_confidence : bool)
  : M unit :=
  try_except
    (let results := results response in
     markdown "### Transcription Result:" false ;;
     let word_count := 0%nat in
     let* alternative := lift (alternative0 results) in
     let* ps := lift (paragraphs_of alternative) in
     let* word_count := paragraphs_loop show_confidence (words alternative) ps word_count in
     let plain_text := plain_text (words alternative) in
     download_button "Download Transcript (Text)" plain_text
                     "transcript.txt" "text/plain" ;;
     let detailed_text := detailed_text (words alternative) in
     download_button "Download Detailed Transcript (with confidence scores)"
                     detailed_text "detailed_transcript.txt" "text/plain")
    is_Exception
    (fun e =>
       error ("Error parsing transcription result: " +:+ exn_str e) ;;
       json_ (to_dict response)).

(** Lines 131 to 162, the transcribe flow at the script's top level, as in
    demo.py. *)
Definition main (i : inputs) : M unit :=
  if is_not_None (uploaded_file i) && truthy (api_key i) then
    match uploaded_file i with
    | None => ret tt
    | Some uploaded_file =>
        let* clicked := button "Transcribe Audio" (transcribe_clicked i) in
        if clicked then
          spinner "Transcribing your audio... This may take a moment." ;;
          let suffix := "." +:+ List.last (str_split "." (name uploaded_file)) "" in
          let* tmp_file_path := NamedTemporaryFile tmp_stem suffix in
          write tmp_file_path (getvalue uploaded_file) ;;
          try_finally
            (try_except
               (let* response := transcribe_audio tmp_file_path (api_key i) in
                display_transcription response (show_confidence i) ;;
                expander "View Raw API Response" ;;
                json_ (to_dict response))
               is_Exception
               (fun e => error ("An error occurred during transcription: " +:+ exn_str e)))
            (unlink tmp_file_path)
        else ret tt
    end
  else if negb (truthy (api_key i)) && is_not_None (uploaded_file i) then
    warning "Please enter your Deepgram API key to proceed."
  else if truthy (api_key i) && negb (is_not_None (uploaded_file i)) then
    info "Please upload an audio file to transcribe."
  else
    info "Enter your API key and upload an audio file to get started.".

End Script.
End Demo2.

(* ===================================================================== *)
(** * The specification's data model and its formulas *)
(* ===================================================================== *)

Module Spec.
Import Py St.

(** A transcript word; its [sequence_index] is its position in the list. *)
Record TranscriptWord := { text : string; confidence : spec_float }.

(** A confidence in [[0,1]]: a double between zero and one. *)
Definition in_unit (c : spec_float) : bool :=
  valid_binary prec emax c && fle f0 c && fle c f1.

(** The exact value of a finite double. *)
Definition F2Q (f : spec_float) : Q :=
  match f with
  | S754_finite s m e =>
      match e with
      | Zneg p => Qmake (cond_Zopp s (Zpos m)) (2 ^ p)
      | _ => inject_Z (cond_Zopp s (Zpos m) * 2 ^ e)
      end
  | _ => 0%Q
  end.

(** [round(q)]: the nearest integer, a tie going to the even one. *)
Definition round (q : Q) : Z :=
  let n := Qfloor q in
  match Qcompare (q - inject_Z n) (1 # 2) with
  | Lt => n
  | Gt => n + 1
  | Eq => if Z.even n then n else n + 1
  end.

(** The colour as the specification writes it:
    [round(255 * (1 - c))], [round(255 * c)], [0]. *)
Definition rgb_rounded (c : spec_float) : Z * Z * Z :=
  (round (255 * (1 - F2Q c)), round (255 * F2Q c), 0).

(** The same formula with the two products taken in double arithmetic, as
    the scripts take them. *)
Definition rgb_rounded_double (c : spec_float) : Z * Z * Z :=
  (round (F2Q (fmul f255 (fsub f1 c))), round (F2Q (fmul f255 c)), 0).

(** The colour with the products in double arithmetic and rounded down. *)
Definition rgb_floor (c : spec_float) : Z * Z * Z :=
  (Qfloor (F2Q (fmul f255 (fsub f1 c))), Qfloor (F2Q (fmul f255 c)), 0).

(** The text colour: light below one half, dark from one half on. *)
Definition Qltb (a b : Q) : bool := negb (Qle_bool b a).

Definition text_color (c : spec_float) : string :=
  if Qltb (F2Q c) (1 # 2) then "white" else "black".

(** The display text of a word. *)
Definition display_text (show_numeric_confidence : bool) (t : string) (c : spec_float)
  : string :=
  if show_numeric_confidence then t +:+ " (" +:+ format_2f c +:+ ")" else t.

(** A rendered fragment: the text [t] on the colours of the confidence [c]. *)
Definition fragment (show_numeric_confidence : bool) (t : string) (c : spec_float)
  : string :=
  let '(r, g, b) := rgb_floor c in
  span r g b (text_color c) (display_text show_numeric_confidence t c).

(** The page's transcript: the fragments of the words, in order. *)
Definition html (show_numeric_confidence : bool) (ws : list TranscriptWord) : string :=
  "<div style=" +:+ dq +:+ "line-height: 2.5;" +:+ dq +:+ ">" +:+
  str_concat (map (fun w => fragment show_numeric_confidence (text w) (confidence w)) ws)
  +:+ "</div>".

(** A line of the detailed export. *)
Definition line (w : TranscriptWord) : string :=
  text w +:+ " (" +:+ format_2f (confidence w) +:+ ")".

(** The lines of a text that does not end in a newline; the empty text has
    none. *)
Definition lines (s : string) : list string :=
  match s with
  | EmptyString => []
  | _ => str_split (ascii_of_nat 10) s
  end.

Fixpoint contains (c : ascii) (s : string) : bool :=
  match s with
  | EmptyString => false
  | String x rest => Ascii.eqb x c || contains c rest
  end.

(** ** How a word list is held by each version *)

(** demo.py: a JSON object with the word under ["word"] and the confidence
    under ["confidence"] (and whatever else the provider adds). *)
Definition json_word (w : TranscriptWord) (v : json) : Prop :=
  exists o, v = JObj o /\
            o !! "word" = Some (JStr (text w)) /\
            o !! "confidence" = Some (JFloat (confidence w)).

(** demo2.py: an SDK [Word]. *)
Definition sdk_word (w : TranscriptWord) (x : Demo2.Word) : Prop :=
  Demo2.word x = text w /\ Demo2.confidence x = confidence w.

(** ** Where the word list sits in a decoded response *)

Inductive step :=
| Key (k : string)
| First.

Definition word_list_path : list step :=
  [Key "results"; Key "channels"; First; Key "alternatives"; First; Key "words"].

(** The value at the end of a path: object members and first array
    elements only. *)
Fixpoint resolve (path : list step) (v : json) : option json :=
  match path with
  | [] => Some v
  | Key k :: rest =>
      match v with
      | JObj o => match o !! k with Some x => resolve rest x | None => None end
      | _ => None
      end
  | First :: rest =>
      match v with
      | JArr (x :: _) => resolve rest x
      | _ => None
      end
  end.


(** What demo.py puts on the page for a word list. *)
Definition transcript_page (show_numeric_confidence : bool) (ws : list TranscriptWord)
  : list element :=
  [Markdown "### Transcription Result:" false;
   Markdown (html show_numeric_confidence ws) true;
   DownloadButton "Download Transcript (Text)" (str_join " " (text <$> ws))
                  "transcript.txt" "text/plain";
   DownloadButton "Download Detailed Transcript (with confidence scores)"
                  (str_join nl (line <$> ws)) "detailed_transcript.txt" "text/plain"].

(** ** The transcribe flow *)

(** The run in which the flow starts: a file is chosen, a credential is
    entered and the button was pressed. *)
Definition ready (i : inputs) (f : UploadedFile) : Prop :=
  uploaded_file i = Some f /\ truthy (api_key i) = true /\ transcribe_clicked i = true.

(** The name of the temporary file: the stem the system picks, then the
    extension of the uploaded file's name. *)
Definition tmp_path (stem : string) (f : UploadedFile) : string :=
  stem +:+ ("." +:+ List.last (str_split "." (name f)) "").

(** What the flow draws before it calls the provider. *)
Definition flow_head : list element :=
  [Button "Transcribe Audio";
   Spinner "Transcribing your audio... This may take a moment."].

(** The prompt shown while the credential is missing. *)
Definition prompt (i : inputs) : element :=
  if is_not_None (uploaded_file i)
  then Warning "Please enter your Deepgram API key to proceed."
  else Info "Enter your API key and upload an audio file to get started.".

(** Two answers of the provider that differ in the status at most. *)
Definition same_but_status (a b : Demo.http_outcome) : Prop :=
  match a, b with
  | Demo.TransportError e, Demo.TransportError e' => e = e'
  | Demo.Response _ d, Demo.Response _ d' => d = d'
  | _, _ => False
  end.

(** The renderer's own error message. *)
Definition parse_error (msg : string) : element :=
  Error ("Error parsing transcription result: " +:+ msg).




(** ** The word-list shape of a decoded body *)

(** A finite double: a zero or a number, not an infinity and not NaN. *)
Definition is_finite (f : spec_float) : bool :=
  match f with
  | S754_zero _ | S754_finite _ _ _ => true
  | _ => false
  end.

(** A confidence value the renderer of demo.py can colour and print: an
    integer (or a boolean) that converts to a double without overflow, or a
    double whose products for the red and the green component are
    finite. *)
Definition drawable (c : json) : bool :=
  match as_number c with
  | Some (PInt z) =>
      match float_of_Z z with S754_infinity _ => false | _ => true end
  | Some (PFloat f) => is_finite (fmul f255 (fsub f1 f)) && is_finite (fmul f255 f)
  | None => false
  end.

(** An entry of the word list: an object with a string under ["word"] and a
    drawable value under ["confidence"]. *)
Definition word_entry (v : json) : bool :=
  match v with
  | JObj o =>
      match o !! "word", o !! "confidence" with
      | Some (JStr _), Some c => drawable c
      | _, _ => false
      end
  | _ => false
  end.

(** The expected word-list shape of a decoded body: the path to the word
    list resolves, to a value the loop can run over, and every item it
    runs over is a word entry. *)
Definition word_list_shape (j : json) : bool :=
  match Spec.resolve Spec.word_list_path j with
  | Some words =>
      match iter words with
      | Ok items => forallb word_entry items
      | Raise _ => false
      end
  | None => false
  end.

End Spec.

(* ===================================================================== *)
(** * The states a run of the flow goes through *)
(* ===================================================================== *)

Module Flow.
Import Py St.

(** One call to the provider later. *)
Definition called (w : world) : world :=
  World (page w) (files w) (S (provider_calls w)).

(** The state when the guarded part starts: button and spinner drawn, the
    upload written to the temporary file. *)
Definition staged (path : string) (f : UploadedFile) (w : world) : world :=
  World (page w ++ Spec.flow_head) (<[path := getvalue f]> (files w)) (provider_calls w).

(** The state after [try: body  except Exception as e: st.error(...)
    finally: os.unlink(path)] when the file is there: what [body] left,
    the error message if it raised, and the file gone. *)
Definition after_flow (body : M unit) (path : string) (w : world) : world :=
  let '(r, wb) := body w in
  let wc := match r with
            | Ok _ => wb
            | Raise e => shown [Error ("An error occurred during transcription: " +:+
                                       exn_str e)] wb
            end in
  World (page wc) (delete path (files wc)) (provider_calls wc).

(** The request demo.py sends for an upload. *)
Definition the_request (audio_data : bytes) (api_key : string) : Demo.http_request :=
  {| Demo.method := "POST"; Demo.host := "api.deepgram.com"; Demo.url := "/v1/listen";
     Demo.body := audio_data;
     Demo.headers := [("Authorization", "Token " +:+ api_key);
                      ("Content-Type", "audio/*"); ("Diarize", "True")] |}.

(** The call demo2.py makes for an upload. *)
Definition the_call (buffer_data : bytes) (api_key : string) : Demo2.sdk_call :=
  {| Demo2.key := api_key; Demo2.buffer := buffer_data;
     Demo2.options := {| Demo2.model := "nova-3"; Demo2.smart_format := true;
                         Demo2.diarize := true |} |}.

(** The guarded part of demo.py's flow. *)
Definition body (rt : runtime) (provider : Demo.http_request -> Demo.http_outcome)
           (i : inputs) (path : string) : M unit :=
  let* transcription_results := Demo.transcribe_audio rt provider path (api_key i) in
  Demo.display_transcription rt transcription_results (show_confidence i) ;;
  expander "View Raw API Response" ;;
  json_ transcription_results.

(** The guarded part of demo2.py's flow. *)
Definition body2 (sdk : Demo2.sdk_call -> result Demo2.PrerecordedResponse)
           (i : inputs) (path : string) : M unit :=
  let* response := Demo2.transcribe_audio sdk path (api_key i) in
  Demo2.display_transcription response (show_confidence i) ;;
  expander "View Raw API Response" ;;
  json_ (Demo2.to_dict response).

End Flow.

(* ===================================================================== *)
(** * What a run puts on the page, read off the two scripts *)
(* ===================================================================== *)

Module Expected.
Import Py St.

(** What the flow draws after a normal return of the renderer. *)
Definition raw_response (payload : json) : list element :=
  [Expander "View Raw API Response"; Json payload].

(** The flow's own error message. *)
Definition flow_error (msg : string) : element :=
  Error ("An error occurred during transcription: " +:+ msg).

(** The one element of a run in which the flow does not start. *)
Definition idle (i : inputs) : element :=
  match uploaded_file i with
  | Some _ =>
      if truthy (api_key i) then Button "Transcribe Audio"
      else Warning "Please enter your Deepgram API key to proceed."
  | None =>
      if truthy (api_key i) then Info "Please upload an audio file to transcribe."
      else Info "Enter your API key and upload an audio file to get started."
  end.

(** The extension of a file name: what follows its last dot, the whole
    name when it has none. *)
Definition extension (name : string) : string :=
  List.last (str_split "." name) "".

(** A statement that only adds elements to the page, however it ends: it
    leaves what is on the page, the files and the number of calls alone. *)
Definition draws_only {A} (m : M A) : Prop :=
  forall w, exists els, snd (m w) = shown els w.

(** ** demo2.py: tokens and words, paired by position

    The tokens of all sentences are counted through the whole response;
    the token at position [k] is drawn on the colours of the word at
    position [k], and plainly when the words have run out. *)

Definition token_fragment (show_confidence : bool) (words : list Demo2.Word)
           (k : nat) (w : string) : string :=
  match words !! k with
  | Some word_obj => Spec.fragment show_confidence w (Demo2.confidence word_obj)
  | None => "<span>" +:+ w +:+ "</span> "
  end.

(** The markup of the tokens of a sentence, the first of them being at
    position [k]. *)
Definition tokens_markup (show_confidence : bool) (words : list Demo2.Word)
           (k : nat) (tokens : list string) : string :=
  str_concat (imap (fun j w => token_fragment show_confidence words (k + j) w) tokens).

(** The opening of a sentence's element. *)
Definition sentence_open : string :=
  "<div style=" +:+ dq +:+ "margin-bottom: 10px;" +:+ dq +:+
  "><span style=" +:+ dq +:+ "font-weight: bold;" +:+ dq +:+ ">Sentence: </span>".

(** The tokens of sentences, counted. *)
Fixpoint token_count (ss : list Demo2.Sentence) : nat :=
  match ss with
  | [] => 0
  | s :: rest => (length (str_split " " (Demo2.text s)) + token_count rest)%nat
  end.

(** One element per sentence, the first token of the first sentence being
    at position [k]. *)
Fixpoint sentence_elements (show_confidence : bool) (words : list Demo2.Word)
         (k : nat) (ss : list Demo2.Sentence) : list element :=
  match ss with
  | [] => []
  | s :: rest =>
      let tokens := str_split " " (Demo2.text s) in
      Markdown (sentence_open +:+ tokens_markup show_confidence words k tokens +:+ "</div>")
               true
      :: sentence_elements show_confidence words (k + length tokens) rest
  end.

(** The sentences of paragraphs, in order. *)
Definition all_sentences (ps : list Demo2.Paragraph) : list Demo2.Sentence :=
  concat (Demo2.sentences <$> ps).

(** The page of demo2.py for the words and the paragraphs of a response. *)
Definition sdk_page (show_confidence : bool) (words : list Demo2.Word)
           (ps : list Demo2.Paragraph) : list element :=
  Markdown "### Transcription Result:" false ::
  sentence_elements show_confidence words 0 (all_sentences ps) ++
  [DownloadButton "Download Transcript (Text)" (Demo2.plain_text words)
                  "transcript.txt" "text/plain";
   DownloadButton "Download Detailed Transcript (with confidence scores)"
                  (Demo2.detailed_text words) "detailed_transcript.txt" "text/plain"].

(** A response with its first alternative and the paragraphs of it. *)
Definition sdk_answer (response : Demo2.PrerecordedResponse)
           (a : Demo2.Alternative) (ps : list Demo2.Paragraph) : Prop :=
  exists rs ch chs alts p,
    Demo2.results response = Some rs /\ Demo2.channels rs = Some (ch :: chs) /\
    Demo2.alternatives ch = a :: alts /\ Demo2.paragraphs a = Some p /\
    Demo2.Paragraphs.paragraphs p = ps.

(** ** demo.py: a confidence that is not a finite number

    What [1 - confidence] or [int(...)] raises on it: a [TypeError] for a
    value that is no number, a [ValueError] for NaN and an [OverflowError]
    for an infinity ([json.loads] reads the three of them). *)
Definition confidence_error (v : json) : option exn :=
  match v with
  | JFloat S754_nan => Some (Exn ValueError "cannot convert float NaN to integer")
  | JFloat (S754_infinity _) =>
      Some (Exn OverflowError "cannot convert float infinity to integer")
  | _ =>
      match as_number v with
      | Some _ => None
      | None => Some (Exn TypeError ("unsupported operand type(s) for -: 'int' and '" +:+
                                     type_name v +:+ "'"))
      end
  end.

(** ** demo2.py: the sentences gone through *)

(** The sentences the loops of demo2.py got through, with the element drawn
    for each: the markup the token loop gave for the sentence, closed.  The
    counter of words is [k] before the first of them and [k'] after the
    last. *)
Inductive drawn (show_confidence : bool) (words : list Demo2.Word)
  : nat -> list Demo2.Sentence -> list element -> nat -> Prop :=
| drawn_nil (k : nat) : drawn show_confidence words k [] [] k
| drawn_cons (k : nat) (s : Demo2.Sentence) (html : string) (k' : nat)
             (ss : list Demo2.Sentence) (els : list element) (k'' : nat) :
    Demo2.tokens_html show_confidence words (str_split " " (Demo2.text s))
                      sentence_open k = Ok (html, k') ->
    drawn show_confidence words k' ss els k'' ->
    drawn show_confidence words k (s :: ss)
          (Markdown (html +:+ "</div>") true :: els) k''.

(** What the colour of a word raises when its confidence is NaN, or is
    infinite or so large that a product overflows. *)
Definition colour_error (e : exn) : Prop :=
  e = Exn ValueError "cannot convert float NaN to integer" \/
  e = Exn OverflowError "cannot convert float infinity to integer".

(** The two downloads of demo2.py for a word list. *)
Definition sdk_downloads (words : list Demo2.Word) : list element :=
  [DownloadButton "Download Transcript (Text)" (Demo2.plain_text words)
                  "transcript.txt" "text/plain";
   DownloadButton "Download Detailed Transcript (with confidence scores)"
                  (Demo2.detailed_text words) "detailed_transcript.txt" "text/plain"].

(** The renderer's report: its own error message, then the raw payload. *)
Definition report (msg : string) (payload : json) : list element :=
  [Spec.parse_error msg; Json payload].

(** ** Error messages on the page *)

(** An error message. *)
Definition is_error (x : element) : bool :=
  match x with Error _ => true | _ => false end.

(** An error message is among the elements. *)
Definition shows_error (els : list element) : bool := existsb is_error els.

End Expected.

(* ===================================================================== *)
(** * Doubles as scaled integers, for the order of the colours *)
(* ===================================================================== *)

Module Scaled.
Import Py.

(** The value of a zero or of a positive finite double, in units of
    [2^-B]: an integer when no exponent is below [-B]. *)
Definition sv (B : Z) (f : spec_float) : Z :=
  match f with
  | S754_finite false m e => Zpos m * 2 ^ (e + B)
  | _ => 0
  end.

(** The exponent of the last place of the doubles around [X], and the
    double nearest to [X] (ties to even), both in units of [2^-B]. *)
Definition gamma (B X : Z) : Z := Z.max (Zdigits2 X - 53) (B - 1074).

Definition rho (B X : Z) : Z :=
  round_half_even X (2 ^ gamma B X) * 2 ^ gamma B X.

(** A zero, or a positive finite double with its exponent in
    [[-1074, 971]]. *)
Definition plain (f : spec_float) : Prop :=
  match f with
  | S754_zero _ => True
  | S754_finite s m e => s = false /\ -1074 <= e <= 971
  | _ => False
  end.

(** A shift record that holds [M] shifted right by [j] places: the
    quotient, the last bit dropped, and whether a bit below it was set. *)
Definition tracks (M j : Z) (mrs : shr_record) : Prop :=
  shr_m mrs = M / 2 ^ j /\
  (j = 0 -> shr_r mrs = false /\ shr_s mrs = false) /\
  (0 < j -> shr_r mrs = Z.odd (M / 2 ^ (j - 1)) /\
            shr_s mrs = negb (M mod 2 ^ (j - 1) =? 0)).

End Scaled.

(* ===================================================================== *)
(** * Sample data: the specification's end-to-end example and its kin *)
(* ===================================================================== *)

Module Sample.
Import Py St.

Definition c092 : spec_float := decimal 92 100.
Definition c031 : spec_float := decimal 31 100.
Definition c050 : spec_float := decimal 50 100.

Definition hello : Spec.TranscriptWord := {| Spec.text := "hello"; Spec.confidence := c092 |}.
Definition world_ : Spec.TranscriptWord := {| Spec.text := "world"; Spec.confidence := c031 |}.

(** A word whose text holds a newline. *)
Definition two_lines : Spec.TranscriptWord :=
  {| Spec.text := "a" +:+ nl +:+ "b"; Spec.confidence := c050 |}.

Definition obj (members : list (string * json)) : json := JObj (list_to_map members).

Definition word_json (w : Spec.TranscriptWord) : json :=
  obj [("word", JStr (Spec.text w)); ("confidence", JFloat (Spec.confidence w));
       ("start", JFloat f0); ("speaker", JInt 0)].

Definition word_sdk (w : Spec.TranscriptWord) : Demo2.Word :=
  {| Demo2.word := Spec.text w; Demo2.confidence := Spec.confidence w |}.

(** A decoded response with the given word entries. *)
Definition results_of (words : json) : json :=
  obj [("metadata", obj []);
       ("results", obj [("channels", JArr [obj [("alternatives",
                          JArr [obj [("transcript", JStr "hello world");
                                     ("words", words)]])]])])].

Definition results_hello : json := results_of (JArr [word_json hello; word_json world_]).

(** Decoded responses that are not of the expected shape. *)
Definition results_error : json :=
  obj [("err_code", JStr "INVALID_AUTH"); ("err_msg", JStr "Invalid credentials.")].
Definition results_no_channels : json := obj [("results", obj [("channels", JArr [])])].

(** An SDK response for the sentence ["Hello, world."]. *)
Definition response_of (results : option Demo2.Results) : Demo2.PrerecordedResponse :=
  {| Demo2.results := results; Demo2.to_dict := results_hello |}.

Definition alternative_hello : Demo2.Alternative :=
  {| Demo2.words := [word_sdk hello; word_sdk world_];
     Demo2.paragraphs :=
       Some {| Demo2.Paragraphs.paragraphs :=
                 [{| Demo2.sentences := [{| Demo2.text := "Hello, world." |}] |}] |} |}.

Definition response_hello : Demo2.PrerecordedResponse :=
  response_of (Some {| Demo2.channels :=
                         Some [{| Demo2.alternatives := [alternative_hello] |}] |}).

(** An interpreter whose [json.loads] knows three bodies. *)
Definition body_ok : bytes := [Byte.x31].
Definition body_no_channels : bytes := [Byte.x32].
Definition body_garbled : bytes := [].

Definition rt : runtime :=
  {| py_repr := fun _ => "";
     json_loads := fun b =>
       match b with
       | [] => Raise (Exn JSONDecodeError "Expecting value: line 1 column 1 (char 0)")
       | [Byte.x31] => Ok results_hello
       | [Byte.x32] => Ok results_no_channels
       | _ => Ok results_error
       end |}.

(** Providers: one that fails to connect, and those that answer with a
    given status and body. *)
Definition refused : exn := Exn OSError "[Errno 111] Connection refused".
Definition unreachable (_ : Demo.http_request) : Demo.http_outcome :=
  Demo.TransportError refused.
Definition answers (status : Z) (data : bytes) (_ : Demo.http_request) : Demo.http_outcome :=
  Demo.Response status data.

Definition sdk_refuses (_ : Demo2.sdk_call) : result Demo2.PrerecordedResponse :=
  Raise refused.
Definition sdk_answers (r : Demo2.PrerecordedResponse) (_ : Demo2.sdk_call)
  : result Demo2.PrerecordedResponse := Ok r.

Definition upload : UploadedFile := {| name := "talk.final.wav"; getvalue := [Byte.x52] |}.

Definition ready_inputs : inputs :=
  {| api_key := "secret"; uploaded_file := Some upload;
     show_confidence := false; transcribe_clicked := true |}.

Definition no_key_inputs : inputs :=
  {| api_key := ""; uploaded_file := Some upload;
     show_confidence := false; transcribe_clicked := false |}.

Definition stem : string := "/tmp/tmpk3x9".

Definition start : world := World [] ∅ 0.

(** A body that decodes to the provider's error object, and a run with a
    file and a credential in which the button was not pressed. *)
Definition body_error : bytes := [Byte.x33].

Definition waiting_inputs : inputs :=
  {| api_key := "secret"; uploaded_file := Some upload;
     show_confidence := false; transcribe_clicked := false |}.

(** A word entry with the given confidence value. *)
Definition entry (t : string) (confidence : json) : json :=
  obj [("word", JStr t); ("confidence", confidence)].

(** A disk that holds one audio file. *)
Definition one_file : world := World [] {[ "/tmp/a.wav" := [Byte.x52] ]} 0.

End Sample.

(* ===================================================================== *)
(** * Lemmas *)
(* ===================================================================== *)

Import Py St.

Section Binary64Facts.

(** ** Binary digits *)

Lemma digits2_pos_size (p : positive) : digits2_pos p = Pos.size p.
Proof. induction p; simpl; congruence. Qed.

Lemma digits_upper (p : positive) : Zpos p < 2 ^ Zpos (digits2_pos p).
Proof.
  rewrite digits2_pos_size.
  pose proof (Pos.size_gt p) as H.
  apply Pos2Z.pos_lt_pos in H. now rewrite Pos2Z.inj_pow in H.
Qed.

Lemma digits_lower (p : positive) : 2 ^ (Zpos (digits2_pos p) - 1) <= Zpos p.
Proof.
  rewrite digits2_pos_size.
  pose proof (Pos.size_le p) as H.
  apply Pos2Z.pos_le_pos in H. rewrite Pos2Z.inj_pow in H.
  replace (Zpos (Pos.size p)) with (Z.succ (Zpos (Pos.size p) - 1)) in H by lia.
  rewrite Z.pow_succ_r in H by lia. lia.
Qed.

Lemma Zdigits2_upper (m : Z) : 0 <= m -> m < 2 ^ Zdigits2 m.
Proof.
  destruct m as [|p|p]; simpl; intros H; [lia | apply digits_upper | lia].
Qed.

Lemma Zdigits2_nonneg (m : Z) : 0 <= Zdigits2 m.
Proof. destruct m; simpl; lia. Qed.

(** A number below [2^k] has at most [k] digits. *)
Lemma Zdigits2_le (m k : Z) : 0 <= m -> 0 <= k -> m < 2 ^ k -> Zdigits2 m <= k.
Proof.
  intros Hm Hk Hlt. destruct m as [|p|p]; simpl; [lia | | lia].
  pose proof (digits_lower p) as Hlo.
  assert (2 ^ (Zpos (digits2_pos p) - 1) < 2 ^ k) by lia.
  apply Z.pow_lt_mono_r_iff in H; lia.
Qed.

Lemma Zdigits2_mul (a b : positive) :
  Zpos (digits2_pos (a * b)) <= Zpos (digits2_pos a) + Zpos (digits2_pos b).
Proof.
  change (Zpos (digits2_pos (a * b))) with (Zdigits2 (Zpos (a * b))).
  apply Zdigits2_le; [lia | lia |].
  rewrite Z.pow_add_r by lia. rewrite Pos2Z.inj_mul.
  pose proof (digits_upper a). pose proof (digits_upper b). nia.
Qed.

Lemma Zdigits2_succ (m : Z) : 0 <= m -> Zdigits2 (m + 1) <= Zdigits2 m + 1.
Proof.
  intros Hm. pose proof (Zdigits2_nonneg m).
  apply Zdigits2_le; [lia | lia |].
  rewrite Z.pow_add_r by lia. pose proof (Zdigits2_upper m Hm). lia.
Qed.

(** Dropping [k] low bits drops [k] digits, down to none. *)
Lemma Zdigits2_div_pow2 (m k : Z) :
  0 <= m -> 0 <= k -> Zdigits2 (m / 2 ^ k) + k <= Z.max (Zdigits2 m) k.
Proof.
  intros Hm Hk. pose proof (Zdigits2_nonneg m) as Hd.
  pose proof (Zdigits2_upper m Hm) as Hup.
  assert (0 < 2 ^ k) by (apply Z.pow_pos_nonneg; lia).
  destruct (Z_le_gt_dec k (Zdigits2 m)) as [Hle|Hgt].
  - assert (Zdigits2 (m / 2 ^ k) <= Zdigits2 m - k); [|lia].
    apply Zdigits2_le; [apply Z.div_pos; lia | lia |].
    apply Z.div_lt_upper_bound; [lia|].
    rewrite <- Z.pow_add_r by lia. now replace (k + (Zdigits2 m - k)) with (Zdigits2 m) by lia.
  - assert (m / 2 ^ k = 0) as ->; [|simpl; lia].
    apply Z.div_small. split; [lia|].
    eapply Z.lt_le_trans; [exact Hup|]. apply Z.pow_le_mono_r; lia.
Qed.


(** ** Shifting right with sticky bits *)

Lemma shr_1_m (mrs : shr_record) :
  0 <= shr_m mrs -> shr_m (shr_1 mrs) = shr_m mrs / 2.
Proof.
  destruct mrs as [m r s]; cbn [shr_m]. intros Hm.
  destruct m as [|[p|p|]|p]; cbn [shr_1 shr_m]; try lia.
  - reflexivity.
  - apply Z.div_unique with 1; lia.
  - apply Z.div_unique with 0; lia.
  - reflexivity.
Qed.

Lemma pow2_xO (p : positive) : 2 ^ Zpos p~0 = 2 ^ Zpos p * 2 ^ Zpos p.
Proof. rewrite <- Z.pow_add_r by lia. f_equal. lia. Qed.

Lemma pow2_xI (p : positive) : 2 ^ Zpos p~1 = 2 * (2 ^ Zpos p * 2 ^ Zpos p).
Proof.
  rewrite <- Z.pow_add_r, <- Z.pow_succ_r by lia. f_equal. lia.
Qed.

Lemma iter_shr_1_m (p : positive) (mrs : shr_record) :
  0 <= shr_m mrs ->
  shr_m (SpecFloat.iter_pos shr_1 p mrs) = shr_m mrs / 2 ^ Zpos p.
Proof.
  revert mrs. induction p as [p IH|p IH|]; intros mrs Hm; cbn [SpecFloat.iter_pos].
  - assert (0 <= shr_m (shr_1 mrs)) as H1
        by (rewrite shr_1_m by lia; apply Z.div_pos; lia).
    assert (0 < 2 ^ Zpos p) as Hp by (apply Z.pow_pos_nonneg; lia).
    rewrite IH; [rewrite IH by lia|rewrite IH by lia; apply Z.div_pos; lia].
    rewrite shr_1_m by lia.
    rewrite !Z.div_div by lia. now rewrite pow2_xI.
  - assert (0 < 2 ^ Zpos p) as Hp by (apply Z.pow_pos_nonneg; lia).
    rewrite IH; [rewrite IH by lia|rewrite IH by lia; apply Z.div_pos; lia].
    rewrite !Z.div_div by lia. now rewrite pow2_xO.
  - rewrite shr_1_m by lia. reflexivity.
Qed.

Lemma shr_record_of_loc_m (m : Z) (l : location) : shr_m (shr_record_of_loc m l) = m.
Proof. destruct l as [|[]]; reflexivity. Qed.

(** [shr_fexp] moves the exponent up to the canonical one (when it is
    above) and drops as many low bits. *)
Lemma shr_fexp_spec (m e : Z) (l : location) :
  0 <= m ->
  let r := shr_fexp prec emax m e l in
  snd r = Z.max e (fexp prec emax (Zdigits2 m + e)) /\
  shr_m (fst r) = m / 2 ^ (snd r - e).
Proof.
  intros Hm. unfold shr_fexp, shr.
  destruct (fexp prec emax (Zdigits2 m + e) - e) as [|p|p] eqn:Hd; simpl.
  - rewrite shr_record_of_loc_m. split; [lia|].
    replace (e - e) with 0 by lia. now rewrite Z.div_1_r.
  - split; [lia|]. rewrite iter_shr_1_m by (rewrite shr_record_of_loc_m; lia).
    rewrite shr_record_of_loc_m. f_equal. f_equal. lia.
  - rewrite shr_record_of_loc_m. split; [lia|].
    replace (e - e) with 0 by lia. now rewrite Z.div_1_r.
Qed.

Lemma round_nearest_even_cases (m : Z) (l : location) :
  round_nearest_even m l = m \/ round_nearest_even m l = m + 1.
Proof.
  destruct l as [|[]]; simpl; auto. destruct (Z.even m); auto.
Qed.

(** ** No overflow on small numbers *)

Lemma fexp_eq (x : Z) : fexp prec emax x = Z.max (x - 53) (-1074).
Proof. reflexivity. Qed.

Lemma binary_round_aux_small (s : bool) (m e : Z) (l : location) (K : Z) :
  0 < m -> Zdigits2 m + e <= K -> -1073 <= K <= 972 ->
  small s (K + 1) (binary_round_aux prec emax s m e l).
Proof.
  intros Hm HK HKr. unfold binary_round_aux.
  pose proof (shr_fexp_spec m e l ltac:(lia)) as H1. cbv zeta in H1.
  destruct (shr_fexp prec emax m e l) as [mrs' e'] eqn:E1. simpl in H1.
  destruct H1 as [He' Hm'].
  assert (1 <= Zdigits2 m) as Hd by (destruct m; simpl in *; lia).
  rewrite fexp_eq in He'.
  assert (0 <= e' - e) as Hsh by lia.
  pose proof (Zdigits2_div_pow2 m (e' - e) ltac:(lia) Hsh) as Hdm'. rewrite <- Hm' in Hdm'.
  assert (0 <= shr_m mrs') as Hm'0 by (rewrite Hm'; apply Z.div_pos; [lia|apply Z.pow_pos_nonneg; lia]).
  set (m1 := round_nearest_even (shr_m mrs') (loc_of_shr_record mrs')).
  assert (0 <= m1 /\ Zdigits2 m1 <= Zdigits2 (shr_m mrs') + 1) as [Hm1 Hdm1].
  { unfold m1.
    destruct (round_nearest_even_cases (shr_m mrs') (loc_of_shr_record mrs')) as [->| ->].
    - split; lia.
    - split; [lia | now apply Zdigits2_succ]. }
  pose proof (shr_fexp_spec m1 e' loc_Exact Hm1) as H2. cbv zeta in H2.
  destruct (shr_fexp prec emax m1 e' loc_Exact) as [mrs'' e''] eqn:E2. simpl in H2.
  destruct H2 as [He'' Hm''].
  rewrite fexp_eq in He''.
  assert (0 <= e'' - e') as Hsh2 by lia.
  pose proof (Zdigits2_div_pow2 m1 (e'' - e') Hm1 Hsh2) as Hdm''. rewrite <- Hm'' in Hdm''.
  assert (0 <= shr_m mrs'') as Hm''0 by (rewrite Hm''; apply Z.div_pos; [lia|apply Z.pow_pos_nonneg; lia]).
  destruct (shr_m mrs'') as [|p|p] eqn:Em; simpl; [exact I | | lia].
  simpl Zdigits2 in Hdm''.
  assert (e'' <= 971) as Hfin by lia.
  change (emax - prec) with 971.
  apply Z.leb_le in Hfin. rewrite Hfin. simpl. split; [reflexivity | lia].
Qed.


Lemma iter_xO (m d : positive) : Zpos (Pos.iter xO m d) = Zpos m * 2 ^ Zpos d.
Proof.
  revert m. induction d as [d IH|d IH|]; intros m; simpl Pos.iter.
  - rewrite Pos2Z.inj_xO, !IH, pow2_xI. lia.
  - rewrite !IH, pow2_xO. lia.
  - change (2 ^ 1) with 2. lia.
Qed.

Lemma shl_align_spec (m : positive) (e e' : Z) :
  let r := shl_align m e e' in
  snd r = Z.min e e' /\ Zpos (fst r) = Zpos m * 2 ^ (e - snd r).
Proof.
  unfold shl_align. destruct (e' - e) as [|d|d] eqn:Hd; simpl.
  - split; [lia|]. replace (e - e) with 0 by lia. lia.
  - split; [lia|]. replace (e - e) with 0 by lia. lia.
  - split; [lia|]. rewrite iter_xO. f_equal. f_equal. lia.
Qed.

Lemma Zdigits2_mul_pow2 (m : positive) (k : Z) :
  0 <= k -> Zdigits2 (Zpos m * 2 ^ k) <= Zpos (digits2_pos m) + k.
Proof.
  intros Hk. assert (0 < 2 ^ k) by (apply Z.pow_pos_nonneg; lia).
  apply Zdigits2_le; [lia | lia |].
  rewrite Z.pow_add_r by lia. pose proof (digits_upper m). nia.
Qed.

Lemma binary_round_small (s : bool) (m : positive) (e K : Z) :
  Zpos (digits2_pos m) + e <= K -> -1073 <= K <= 972 ->
  small s (K + 1) (binary_round prec emax s m e).
Proof.
  intros HK HKr. unfold binary_round.
  pose proof (shl_align_spec m e (fexp prec emax (Zpos (digits2_pos m) + e))) as H.
  cbv zeta in H.
  destruct (shl_align m e (fexp prec emax (Zpos (digits2_pos m) + e))) as [mz ez].
  simpl in H. destruct H as [Hez Hmz].
  apply binary_round_aux_small; [lia | | lia].
  rewrite Hmz. pose proof (Zdigits2_mul_pow2 m (e - ez) ltac:(lia)). lia.
Qed.

(** A product of small numbers does not overflow. *)
Lemma fmul_small (sa sb : bool) (ma mb : positive) (ea eb K : Z) :
  Zpos (digits2_pos ma) + ea + (Zpos (digits2_pos mb) + eb) <= K ->
  -1073 <= K <= 972 ->
  small (xorb sa sb) (K + 1) (fmul (S754_finite sa ma ea) (S754_finite sb mb eb)).
Proof.
  intros HK HKr. unfold fmul, SFmul.
  apply binary_round_aux_small; [lia | | lia].
  simpl Zdigits2. pose proof (Zdigits2_mul ma mb). lia.
Qed.

(** ** Confidences in the unit interval *)

Lemma fle_zero_finite (s0 s : bool) (m : positive) (e : Z) :
  fle (S754_zero s0) (S754_finite s m e) = true -> s = false.
Proof. destruct s; [discriminate | reflexivity]. Qed.

Lemma fle_finite_finite (m1 m2 : positive) (e1 e2 : Z) :
  fle (S754_finite false m1 e1) (S754_finite false m2 e2) = true ->
  e1 < e2 \/ (e1 = e2 /\ Zpos m1 <= Zpos m2).
Proof.
  unfold fle, SFleb, SFcompare.
  destruct (Z.compare_spec e1 e2) as [->|Hlt|Hgt]; [|left; lia|discriminate].
  rewrite Pos.compare_cont_spec. unfold Pos.switch_Eq.
  destruct (Pos.compare_spec m1 m2) as [->|Hx|Hx]; [right|right|discriminate]; lia.
Qed.

Lemma bounded_digits (m : positive) (e : Z) :
  bounded prec emax m e = true ->
  Z.max (Zpos (digits2_pos m) + e - 53) (-1074) = e /\ e <= 971.
Proof.
  unfold bounded, canonical_mantissa. intros H.
  apply andb_true_iff in H as [Hc Hb]. apply Z.eqb_eq in Hc. apply Z.leb_le in Hb.
  rewrite fexp_eq in Hc. split; [exact Hc | exact Hb].
Qed.

Lemma pow2_52 : 2 ^ 52 = 4503599627370496.
Proof. reflexivity. Qed.

Lemma in_unit_cases (c : spec_float) :
  Spec.in_unit c = true ->
  (exists s, c = S754_zero s) \/
  (exists m e, c = S754_finite false m e /\
               Zpos (digits2_pos m) <= 53 /\ -1074 <= e <= -52 /\
               (e = -1074 \/ Zpos (digits2_pos m) = 53) /\
               Zpos m <= 2 ^ (- e)).
Proof.
  unfold Spec.in_unit. intros H.
  apply andb_true_iff in H as [H H1]. apply andb_true_iff in H as [Hv H0].
  destruct c as [s|s| |s m e]; [left; eauto | | discriminate |].
  - destruct s; discriminate.
  - right. exists m, e.
    apply fle_zero_finite in H0. subst s.
    apply fle_finite_finite in H1.
    apply bounded_digits in Hv. destruct Hv as [Hc Hb].
    split; [reflexivity|]. split; [lia|]. split; [lia|]. split; [lia|].
    pose proof (digits_upper m) as Hup.
    destruct H1 as [Hlt|[-> Hm]].
    + assert (2 ^ Zpos (digits2_pos m) <= 2 ^ (- e)) by (apply Z.pow_le_mono_r; lia).
      lia.
    + replace (- -52) with 52 by reflexivity. rewrite pow2_52. exact Hm.
Qed.

(** [1 - c] for a confidence: zero or positive, and small. *)
Lemma fsub_one_small (c : spec_float) :
  Spec.in_unit c = true -> small false 2 (fsub f1 c).
Proof.
  intros Hc. destruct (in_unit_cases c Hc) as [[s ->]|(m & e & -> & Hd & He & _ & Hle)].
  - unfold fsub, SFsub, f1, small. split; [reflexivity|].
    change (Zpos (digits2_pos 4503599627370496)) with 53. lia.
  - unfold fsub, SFsub, f1.
    replace (Z.min (-52) e) with e by lia.
    pose proof (shl_align_spec 4503599627370496 (-52) e) as H1.
    pose proof (shl_align_spec m e e) as H2. cbv zeta in H1, H2.
    destruct H1 as [H1s H1m], H2 as [H2s H2m].
    rewrite H1m, H2m, H1s, H2s.
    replace (Z.min (-52) e) with e by lia. replace (Z.min e e) with e by lia.
    replace (e - e) with 0 by lia. rewrite Z.mul_1_r.
    unfold cond_Zopp.
    assert (4503599627370496 * 2 ^ (-52 - e) = 2 ^ (- e)) as ->.
    { change 4503599627370496 with (2 ^ 52). rewrite <- Z.pow_add_r by lia.
      f_equal. lia. }
    destruct (2 ^ (- e) - Zpos m) as [|z|z] eqn:Hz; [exact I | | lia].
    unfold binary_normalize.
    apply (binary_round_small false z e 1); [|lia].
    assert (Zdigits2 (Zpos z) <= - e + 1); [|simpl in *; lia].
    apply Zdigits2_le; [lia | lia |].
    rewrite Z.pow_add_r by lia. change (2 ^ 1) with 2.
    assert (0 < 2 ^ (- e)) by (apply Z.pow_pos_nonneg; lia). lia.
Qed.

(** [255 * x] for a small [x]: zero or finite, of the sign of [x]. *)
Lemma fmul_255_small (s : bool) (K : Z) (x : spec_float) :
  small s K x -> -1073 <= K + 8 <= 972 -> small s (K + 9) (fmul f255 x).
Proof.
  intros Hx HK. destruct x as [s'|s'| |s' m e]; simpl in Hx; try contradiction.
  - exact I.
  - destruct Hx as [-> Hm]. unfold f255.
    replace (K + 9) with (K + 8 + 1) by lia.
    change s with (xorb false s).
    apply fmul_small; [|lia]. simpl. lia.
Qed.

Lemma in_unit_small (c : spec_float) :
  Spec.in_unit c = true -> small false 1 c.
Proof.
  intros Hc. destruct (in_unit_cases c Hc) as [[s ->]|(m & e & -> & Hd & He & _ & Hle)].
  - exact I.
  - split; [reflexivity | lia].
Qed.

(** ** [int()] and [<] against the exact values *)

Lemma pos_pow_Z (p : positive) : Zpos (2 ^ p) = 2 ^ Zpos p.
Proof. apply Pos2Z.inj_pow. Qed.

(** On a non-negative finite double [int()] is the floor of its value. *)
Lemma int_of_float_floor (K : Z) (x : spec_float) :
  small false K x -> int_of_float x = Ok (Qfloor (Spec.F2Q x)).
Proof.
  destruct x as [s|s| |s m e]; cbn [small]; try contradiction.
  - intros _. reflexivity.
  - intros [-> _]. unfold int_of_float, Spec.F2Q, cond_Zopp. f_equal.
    destruct e as [|p|p].
    + rewrite Qfloor_Z. now rewrite Z.shiftl_mul_pow2 by lia.
    + rewrite Qfloor_Z. now rewrite Z.shiftl_mul_pow2 by lia.
    + unfold Qfloor. rewrite pos_pow_Z.
      change (Z.neg p) with (- Zpos p). rewrite Z.shiftl_opp_r.
      now rewrite Z.shiftr_div_pow2 by lia.
Qed.

Lemma flt_finite_finite (m1 m2 : positive) (e1 e2 : Z) :
  flt (S754_finite false m1 e1) (S754_finite false m2 e2) =
  (e1 <? e2) || ((e1 =? e2) && (Zpos m1 <? Zpos m2)).
Proof.
  unfold flt, SFltb, SFcompare.
  destruct (Z.compare_spec e1 e2) as [->|Hlt|Hgt].
  - rewrite Z.ltb_irrefl, Z.eqb_refl. simpl.
    rewrite Pos.compare_cont_spec. unfold Pos.switch_Eq.
    destruct (Pos.compare_spec m1 m2) as [->|Hx|Hx]; symmetry.
    + apply Z.ltb_irrefl.
    + apply Z.ltb_lt. lia.
    + apply Z.ltb_ge. lia.
  - apply Z.ltb_lt in Hlt. now rewrite Hlt.
  - assert ((e1 <? e2) = false) as -> by (apply Z.ltb_ge; lia).
    assert ((e1 =? e2) = false) as -> by (apply Z.eqb_neq; lia). reflexivity.
Qed.

Lemma pow2_53 : 2 ^ 53 = 9007199254740992.
Proof. reflexivity. Qed.

(** [c < 0.5] on a confidence is the comparison of its value with one half. *)
Lemma flt_half (c : spec_float) :
  Spec.in_unit c = true -> flt c f0_5 = Spec.Qltb (Spec.F2Q c) (1 # 2).
Proof.
  intros Hc. destruct (in_unit_cases c Hc) as [[s ->]|(m & e & -> & Hd & He & Hcan & Hle)].
  - reflexivity.
  - unfold f0_5. rewrite flt_finite_finite.
    destruct e as [|p|p]; try lia.
    unfold Spec.Qltb, Spec.F2Q, cond_Zopp, Qle_bool.
    cbn [Qnum Qden]. rewrite pos_pow_Z, Z.mul_1_l.
    pose proof (digits_upper m) as Hup. pose proof (digits_lower m) as Hlo.
    rewrite <- pow2_52.
    assert (0 < 2 ^ Zpos p) as Hpos by (apply Z.pow_pos_nonneg; lia).
    destruct (Z.ltb_spec (Z.neg p) (-53)) as [Hlt|Hge]; cbn [orb].
    + symmetry. apply negb_true_iff, Z.leb_gt.
      assert (2 ^ 54 <= 2 ^ Zpos p) as H54 by (apply Z.pow_le_mono_r; lia).
      assert (2 ^ Zpos (digits2_pos m) <= 2 ^ 53) as H53 by (apply Z.pow_le_mono_r; lia).
      replace (2 ^ 54) with (2 * 2 ^ 53) in H54 by reflexivity. lia.
    + assert (Zpos (digits2_pos m) = 53) as Hd53 by lia.
      rewrite Hd53 in Hlo. replace (53 - 1) with 52 in Hlo by reflexivity.
      assert ((Zpos m <? 2 ^ 52) = false) as -> by (apply Z.ltb_ge; exact Hlo).
      rewrite andb_false_r. symmetry. apply negb_false_iff, Z.leb_le.
      assert (2 ^ Zpos p <= 2 ^ 53) as H53 by (apply Z.pow_le_mono_r; lia).
      replace (2 ^ 53) with (2 * 2 ^ 52) in H53 by reflexivity. lia.
Qed.


(** The colour of a confidence, in both versions: the products are finite
    and not negative, and [int()] takes their floor. *)
Lemma rgb_floor_double (c : spec_float) :
  Spec.in_unit c = true -> Demo2.rgb c = Ok (Spec.rgb_floor c).
Proof.
  intros Hc. unfold Demo2.rgb, Spec.rgb_floor.
  pose proof (fmul_255_small false 2 _ (fsub_one_small c Hc) ltac:(lia)) as Hr.
  pose proof (fmul_255_small false 1 _ (in_unit_small c Hc) ltac:(lia)) as Hg.
  rewrite (int_of_float_floor _ _ Hr), (int_of_float_floor _ _ Hg). reflexivity.
Qed.

Lemma rgb_floor_number (c : spec_float) :
  Spec.in_unit c = true -> Demo.rgb (PFloat c) = Ok (Spec.rgb_floor c).
Proof. intros Hc. rewrite <- (rgb_floor_double c Hc). reflexivity. Qed.

Lemma text_color_double (c : spec_float) :
  Spec.in_unit c = true -> Demo2.text_color c = Spec.text_color c.
Proof.
  intros Hc. unfold Demo2.text_color, Spec.text_color. now rewrite flt_half.
Qed.

Lemma text_color_number (c : spec_float) :
  Spec.in_unit c = true -> Demo.text_color (PFloat c) = Spec.text_color c.
Proof. intros Hc. rewrite <- (text_color_double c Hc). reflexivity. Qed.

End Binary64Facts.

Section RangeFacts.

(** ** Rounding does not pass an integer bound *)

Lemma shr_1_inexact (mrs : shr_record) :
  0 <= shr_m mrs -> inexact (shr_1 mrs) = Z.odd (shr_m mrs) || inexact mrs.
Proof.
  destruct mrs as [m r s]; unfold inexact; cbn [shr_m shr_r shr_s]. intros Hm.
  destruct m as [|[p|p|]|p]; cbn [shr_1 shr_r shr_s Z.odd]; try lia;
    destruct r, s; reflexivity.
Qed.

Lemma odd_mod2 (m : Z) : Z.odd m = false <-> m mod 2 = 0.
Proof.
  rewrite Zmod_odd. destruct (Z.odd m); split; intros H; try reflexivity; discriminate.
Qed.

Lemma mod_mul_zero (m a b : Z) :
  0 < a -> 0 < b -> m mod (a * b) = 0 -> m mod a = 0 /\ (m / a) mod b = 0.
Proof.
  intros Ha Hb H. rewrite Z.rem_mul_r in H by lia.
  pose proof (Z.mod_pos_bound m a Ha). pose proof (Z.mod_pos_bound (m / a) b Hb).
  nia.
Qed.

(** Dropping bits that are all zero loses nothing. *)
Lemma iter_shr_1_exact (p : positive) (mrs : shr_record) :
  0 <= shr_m mrs -> inexact mrs = false -> shr_m mrs mod 2 ^ Zpos p = 0 ->
  inexact (SpecFloat.iter_pos shr_1 p mrs) = false.
Proof.
  revert mrs. induction p as [p IH|p IH|]; intros mrs Hm Hx Hmod;
    cbn [SpecFloat.iter_pos].
  - assert (0 < 2 ^ Zpos p) as Hp by (apply Z.pow_pos_nonneg; lia).
    rewrite pow2_xI in Hmod.
    apply mod_mul_zero in Hmod as [H2 Hrest]; [|lia|lia].
    apply mod_mul_zero in Hrest as [Ha Hb]; [|lia|lia].
    assert (inexact (shr_1 mrs) = false) as H1.
    { rewrite shr_1_inexact by lia. rewrite Hx. apply odd_mod2 in H2. now rewrite H2. }
    assert (0 <= shr_m (shr_1 mrs)) as H1m
        by (rewrite shr_1_m by lia; apply Z.div_pos; lia).
    apply IH.
    + rewrite iter_shr_1_m by lia. apply Z.div_pos; lia.
    + apply IH; [lia | exact H1 | now rewrite shr_1_m by lia].
    + rewrite iter_shr_1_m by lia. now rewrite shr_1_m by lia.
  - assert (0 < 2 ^ Zpos p) as Hp by (apply Z.pow_pos_nonneg; lia).
    rewrite pow2_xO in Hmod.
    apply mod_mul_zero in Hmod as [Ha Hb]; [|lia|lia].
    apply IH.
    + rewrite iter_shr_1_m by lia. apply Z.div_pos; lia.
    + now apply IH.
    + now rewrite iter_shr_1_m by lia.
  - rewrite shr_1_inexact by lia. rewrite Hx.
    change (2 ^ 1) with 2 in Hmod. apply odd_mod2 in Hmod. now rewrite Hmod.
Qed.

Lemma loc_exact (mrs : shr_record) :
  inexact mrs = false -> loc_of_shr_record mrs = loc_Exact.
Proof. destruct mrs as [m [] []]; cbn; intros H; try discriminate; reflexivity. Qed.

(** An exact [shr_fexp] stays exact when the dropped bits are zero. *)
Lemma shr_fexp_exact (m e : Z) :
  0 <= m ->
  let r := shr_fexp prec emax m e loc_Exact in
  m mod 2 ^ (snd r - e) = 0 -> loc_of_shr_record (fst r) = loc_Exact.
Proof.
  intros Hm. unfold shr_fexp, shr.
  destruct (fexp prec emax (Zdigits2 m + e) - e) as [|p|p] eqn:Hd; cbn [fst snd];
    intros Hmod; try reflexivity.
  apply loc_exact, iter_shr_1_exact; cbn [shr_record_of_loc shr_m]; [lia | reflexivity |].
  now replace (e + Zpos p - e) with (Zpos p) in Hmod by lia.
Qed.

Lemma binary_round_aux_at_most (m e N : Z) :
  0 < m -> e <= 0 -> Zdigits2 m + e <= 52 -> 0 <= N -> m <= N * 2 ^ (- e) ->
  at_most N (binary_round_aux prec emax false m e loc_Exact).
Proof.
  intros Hm He Hd HN Hle. unfold binary_round_aux.
  pose proof (shr_fexp_spec m e loc_Exact ltac:(lia)) as H1.
  pose proof (shr_fexp_exact m e ltac:(lia)) as H1x. cbv zeta in H1, H1x.
  destruct (shr_fexp prec emax m e loc_Exact) as [mrs' e'] eqn:E1.
  cbn [fst snd] in H1, H1x. destruct H1 as [He' Hm'].
  assert (1 <= Zdigits2 m) as Hdig by (destruct m; simpl in *; lia).
  rewrite fexp_eq in He'.
  assert (0 <= e' - e) as Hk by lia. assert (e' <= 0) as He'0 by lia.
  assert (0 < 2 ^ (e' - e)) as Hpk by (apply Z.pow_pos_nonneg; lia).
  assert (0 < 2 ^ (- e')) as Hpe' by (apply Z.pow_pos_nonneg; lia).
  assert (2 ^ (- e) = 2 ^ (- e') * 2 ^ (e' - e)) as Hsplit
      by (rewrite <- Z.pow_add_r by lia; f_equal; lia).
  pose proof (Zdigits2_div_pow2 m (e' - e) ltac:(lia) Hk) as Hdm'. rewrite <- Hm' in Hdm'.
  assert (0 <= shr_m mrs') as Hm'0 by (rewrite Hm'; apply Z.div_pos; lia).
  set (m1 := round_nearest_even (shr_m mrs') (loc_of_shr_record mrs')).
  assert (0 <= m1 /\ Zdigits2 m1 <= Zdigits2 (shr_m mrs') + 1 /\ m1 <= N * 2 ^ (- e'))
    as (Hm1 & Hdm1 & Hb1).
  { unfold m1. destruct (Z.eq_dec (m mod 2 ^ (e' - e)) 0) as [Hz|Hnz].
    - rewrite (H1x Hz). cbn [round_nearest_even].
      split; [lia|]. split; [lia|]. rewrite Hm'.
      apply Z.div_le_upper_bound; [lia|]. rewrite Hsplit in Hle. lia.
    - assert (shr_m mrs' + 1 <= N * 2 ^ (- e')) as Hup.
      { rewrite Hm'. rewrite Hsplit in Hle.
        pose proof (Z.div_mod m (2 ^ (e' - e)) ltac:(lia)) as Hdiv.
        pose proof (Z.mod_pos_bound m (2 ^ (e' - e)) Hpk) as Hr.
        remember (N * 2 ^ (- e')) as B eqn:HB.
        remember (2 ^ (e' - e)) as P eqn:HP.
        assert (m <= B * P) as Hle' by (subst B; lia).
        assert (m / P < B) as Hlt; [|lia].
        apply Z.div_lt_upper_bound; [lia|].
        assert (m <> P * B); [|lia].
        intros ->. apply Hnz. rewrite Z.mul_comm. apply Z.mod_mul. lia. }
      destruct (round_nearest_even_cases (shr_m mrs') (loc_of_shr_record mrs')) as [->| ->].
      + split; [lia|]. split; lia.
      + split; [lia|]. split; [now apply Zdigits2_succ | lia]. }
  pose proof (shr_fexp_spec m1 e' loc_Exact Hm1) as H2. cbv zeta in H2.
  destruct (shr_fexp prec emax m1 e' loc_Exact) as [mrs'' e''] eqn:E2.
  cbn [fst snd] in H2. destruct H2 as [He'' Hm''].
  rewrite fexp_eq in He''.
  assert (0 <= e'' - e') as Hk2 by lia. assert (e'' <= 0) as He''0 by lia.
  assert (0 < 2 ^ (e'' - e')) as Hpk2 by (apply Z.pow_pos_nonneg; lia).
  assert (2 ^ (- e') = 2 ^ (- e'') * 2 ^ (e'' - e')) as Hsplit2
      by (rewrite <- Z.pow_add_r by lia; f_equal; lia).
  assert (0 <= shr_m mrs'' <= N * 2 ^ (- e'')) as Hb2.
  { rewrite Hm''. split; [apply Z.div_pos; lia|].
    apply Z.div_le_upper_bound; [lia|]. rewrite Hsplit2 in Hb1. lia. }
  destruct (shr_m mrs'') as [|p|p] eqn:Em; cbn [at_most]; [exact I | | lia].
  assert ((e'' <=? emax - prec) = true) as -> by (apply Z.leb_le; change (emax - prec) with 971; lia).
  cbn [at_most]. split; [reflexivity|]. split; lia.
Qed.


Lemma binary_round_at_most (m : positive) (e N : Z) :
  e <= 0 -> Zpos (digits2_pos m) + e <= 52 -> 0 <= N -> Zpos m <= N * 2 ^ (- e) ->
  at_most N (binary_round prec emax false m e).
Proof.
  intros He Hd HN Hle. unfold binary_round.
  pose proof (shl_align_spec m e (fexp prec emax (Zpos (digits2_pos m) + e))) as H.
  cbv zeta in H.
  destruct (shl_align m e (fexp prec emax (Zpos (digits2_pos m) + e))) as [mz ez].
  cbn [fst snd] in H. destruct H as [Hez Hmz].
  assert (0 < 2 ^ (e - ez)) by (apply Z.pow_pos_nonneg; lia).
  apply binary_round_aux_at_most; [lia | lia | | lia |].
  - rewrite Hmz. pose proof (Zdigits2_mul_pow2 m (e - ez) ltac:(lia)). lia.
  - rewrite Hmz. replace (- ez) with (- e + (e - ez)) by lia.
    rewrite Z.pow_add_r by lia. nia.
Qed.

(** [1 - c] for a confidence is at most one. *)
Lemma fsub_one_at_most (c : spec_float) :
  Spec.in_unit c = true -> at_most 1 (fsub f1 c).
Proof.
  intros Hc. destruct (in_unit_cases c Hc) as [[s ->]|(m & e & -> & Hd & He & _ & Hle)].
  - unfold fsub, SFsub, f1, at_most. split; [reflexivity|]. split; [lia|].
    rewrite Z.mul_1_l. replace (- -52) with 52 by reflexivity. now rewrite pow2_52.
  - unfold fsub, SFsub, f1.
    replace (Z.min (-52) e) with e by lia.
    pose proof (shl_align_spec 4503599627370496 (-52) e) as H1.
    pose proof (shl_align_spec m e e) as H2. cbv zeta in H1, H2.
    destruct H1 as [H1s H1m], H2 as [H2s H2m].
    rewrite H1m, H2m, H1s, H2s.
    replace (Z.min (-52) e) with e by lia. replace (Z.min e e) with e by lia.
    replace (e - e) with 0 by lia. rewrite Z.mul_1_r.
    unfold cond_Zopp.
    assert (4503599627370496 * 2 ^ (-52 - e) = 2 ^ (- e)) as ->.
    { rewrite <- pow2_52. rewrite <- Z.pow_add_r by lia. f_equal. lia. }
    assert (0 < 2 ^ (- e)) by (apply Z.pow_pos_nonneg; lia).
    destruct (2 ^ (- e) - Zpos m) as [|z|z] eqn:Hz; [exact I | | lia].
    unfold binary_normalize.
    apply binary_round_at_most; [lia | | lia | lia].
    assert (Zdigits2 (Zpos z) <= - e + 1); [|simpl in *; lia].
    apply Zdigits2_le; [lia | lia |].
    rewrite Z.pow_add_r by lia. change (2 ^ 1) with 2. lia.
Qed.

Lemma in_unit_at_most (c : spec_float) : Spec.in_unit c = true -> at_most 1 c.
Proof.
  intros Hc. destruct (in_unit_cases c Hc) as [[s ->]|(m & e & -> & Hd & He & _ & Hle)].
  - exact I.
  - split; [reflexivity|]. split; lia.
Qed.

Lemma pow2_45 : 2 ^ 45 = 35184372088832.
Proof. reflexivity. Qed.

(** [255 * x] for a small [x] of value at most one is at most 255. *)
Lemma fmul_255_at_most (K : Z) (x : spec_float) :
  small false K x -> K <= 40 -> at_most 1 x -> at_most 255 (fmul f255 x).
Proof.
  intros Hs HK Hx. destruct x as [s|s| |s m e]; cbn [small at_most] in *; try contradiction.
  - exact I.
  - destruct Hs as [-> Hm]. destruct Hx as (_ & He & Hle).
    unfold fmul, SFmul, f255. cbn [xorb].
    assert (0 < 2 ^ (- e)) by (apply Z.pow_pos_nonneg; lia).
    apply binary_round_aux_at_most; [lia | lia | | lia |].
    + cbn [Zdigits2]. pose proof (Zdigits2_mul 8972014882652160 m) as Hmul.
      change (Zpos (digits2_pos 8972014882652160)) with 53 in Hmul. lia.
    + replace (- (-45 + e)) with (45 + - e) by lia. rewrite Z.pow_add_r by lia.
      rewrite pow2_45, Pos2Z.inj_mul. lia.
Qed.

Lemma floor_at_most (N : Z) (x : spec_float) :
  0 <= N -> at_most N x -> 0 <= Qfloor (Spec.F2Q x) <= N.
Proof.
  intros HN. destruct x as [s|s| |s m e]; cbn [at_most]; try contradiction.
  - intros _. change (Qfloor (Spec.F2Q (S754_zero s))) with 0. lia.
  - intros (-> & He & Hle). unfold Spec.F2Q, cond_Zopp.
    destruct e as [|p|p]; try lia.
    + rewrite Qfloor_Z. cbn in Hle. lia.
    + unfold Qfloor. rewrite pos_pow_Z.
      change (- Z.neg p) with (Zpos p) in Hle.
      assert (0 < 2 ^ Zpos p) by (apply Z.pow_pos_nonneg; lia).
      split; [apply Z.div_pos; lia|].
      apply Z.div_le_upper_bound; lia.
Qed.

(** The colour components of a confidence are between 0 and 255. *)
Lemma rgb_floor_range (c : spec_float) :
  Spec.in_unit c = true ->
  0 <= fst (fst (Spec.rgb_floor c)) <= 255 /\ 0 <= snd (fst (Spec.rgb_floor c)) <= 255.
Proof.
  intros Hc. unfold Spec.rgb_floor. cbn [fst snd]. split.
  - apply floor_at_most; [lia|].
    apply (fmul_255_at_most 2); [now apply fsub_one_small | lia | now apply fsub_one_at_most].
  - apply floor_at_most; [lia|].
    apply (fmul_255_at_most 1); [now apply in_unit_small | lia | now apply in_unit_at_most].
Qed.

End RangeFacts.

Section StringFacts.

Lemma append_cons (x : ascii) (a b : string) : String x a +:+ b = String x (a +:+ b).
Proof. reflexivity. Qed.

Lemma append_nil_l (b : string) : "" +:+ b = b.
Proof. reflexivity. Qed.

Lemma append_assoc (a b c : string) : (a +:+ b) +:+ c = a +:+ (b +:+ c).
Proof.
  induction a as [|x a IH]; [reflexivity|].
  rewrite !append_cons. f_equal. exact IH.
Qed.

Lemma append_nil_r (a : string) : a +:+ "" = a.
Proof.
  induction a as [|x a IH]; [reflexivity|].
  rewrite append_cons. f_equal. exact IH.
Qed.

Lemma contains_app (c : ascii) (a b : string) :
  Spec.contains c (a +:+ b) = Spec.contains c a || Spec.contains c b.
Proof.
  induction a as [|x a IH]; [reflexivity|].
  rewrite append_cons. simpl. rewrite IH. now rewrite orb_assoc.
Qed.

Lemma str_split_not_nil (sep : ascii) (s : string) : str_split sep s <> [].
Proof.
  induction s as [|c s IH]; simpl; [discriminate|].
  destruct (Ascii.eqb c sep); [discriminate|].
  destruct (str_split sep s); [contradiction | discriminate].
Qed.

(** A string without the separator is one piece. *)
Lemma str_split_whole (sep : ascii) (s : string) :
  Spec.contains sep s = false -> str_split sep s = [s].
Proof.
  induction s as [|c s IH]; simpl; [reflexivity|].
  intros H. apply orb_false_iff in H as [Hc Hs].
  rewrite Hc, (IH Hs). reflexivity.
Qed.

(** Splitting stops a piece at the first separator. *)
Lemma str_split_app (sep : ascii) (a rest : string) :
  Spec.contains sep a = false ->
  str_split sep (a +:+ String sep rest) = a :: str_split sep rest.
Proof.
  induction a as [|c a IH].
  - intros _. rewrite append_nil_l. simpl. now rewrite Ascii.eqb_refl.
  - intros H. simpl in H. apply orb_false_iff in H as [Hc Ha].
    rewrite append_cons. simpl. rewrite Hc, (IH Ha). reflexivity.
Qed.

(** Join then split gives back the pieces, when there is one at least and
    none holds the separator. *)
Lemma str_split_join (sep : ascii) (l : list string) :
  l <> [] ->
  Forall (fun s => Spec.contains sep s = false) l ->
  str_split sep (str_join (String sep "") l) = l.
Proof.
  induction l as [|x l IH]; [congruence|]. intros _ Hall.
  inversion Hall as [|? ? Hx Hl]; subst.
  destruct l as [|y l].
  - simpl. now apply str_split_whole.
  - change (str_join (String sep "") (x :: y :: l))
      with (x +:+ String sep "" +:+ str_join (String sep "") (y :: l)).
    change (String sep "" +:+ str_join (String sep "") (y :: l))
      with (String sep (str_join (String sep "") (y :: l))).
    rewrite str_split_app by exact Hx.
    f_equal. apply IH; [discriminate | exact Hl].
Qed.

(** ** Decimal digits hold no newline *)

Lemma uint_no_newline (d : Decimal.uint) :
  Spec.contains (ascii_of_nat 10) (NilEmpty.string_of_uint d) = false.
Proof. induction d; simpl; auto. Qed.

Lemma str_of_Z_no_newline (z : Z) :
  Spec.contains (ascii_of_nat 10) (str_of_Z z) = false.
Proof.
  unfold str_of_Z, NilZero.string_of_int, NilZero.string_of_uint.
  destruct (Z.to_int z) as [d|d].
  - destruct d; try reflexivity; apply (uint_no_newline (_ d)).
  - simpl. destruct d; try reflexivity; apply (uint_no_newline (_ d)).
Qed.

Lemma format_2f_no_newline (f : spec_float) :
  Spec.contains (ascii_of_nat 10) (format_2f f) = false.
Proof.
  destruct f as [s|s| |s m e]; try (destruct s; reflexivity); try reflexivity.
  unfold format_2f, two_digits.
  rewrite !contains_app, str_of_Z_no_newline.
  destruct (_ <? 10); rewrite ?contains_app, ?str_of_Z_no_newline;
    destruct s; reflexivity.
Qed.

End StringFacts.

Section PathFacts.

Lemma getitem_key (v : json) (k : string) (rest : list Spec.step) :
  Spec.resolve (Spec.Key k :: rest) v =
  match getitem v k with Ok x => Spec.resolve rest x | Raise _ => None end.
Proof. destruct v; simpl; try reflexivity. destruct (o !! k); reflexivity. Qed.

Lemma getitem0_first (v : json) (rest : list Spec.step) (y : json) :
  Spec.resolve (Spec.First :: rest) v = Some y ->
  exists x, getitem0 v = Ok x /\ Spec.resolve rest x = Some y.
Proof. destruct v as [| | | | |[|x l]|]; simpl; try discriminate. eauto. Qed.

(** The script's subscripts find the word list wherever the path leads to
    one. *)
Lemma words_of_resolve (v x : json) :
  Spec.resolve Spec.word_list_path v = Some x -> Demo.words_of v = Ok x.
Proof.
  unfold Spec.word_list_path, Demo.words_of. intros H.
  rewrite getitem_key in H.
  destruct (getitem v "results") as [a|]; [cbn [rbind]|discriminate].
  rewrite getitem_key in H.
  destruct (getitem a "channels") as [b|]; [cbn [rbind]|discriminate].
  apply getitem0_first in H as (c & -> & H). cbn [rbind].
  rewrite getitem_key in H.
  destruct (getitem c "alternatives") as [d|]; [cbn [rbind]|discriminate].
  apply getitem0_first in H as (e & -> & H). cbn [rbind].
  rewrite getitem_key in H.
  destruct (getitem e "words") as [f|]; [|discriminate].
  simpl in H. congruence.
Qed.




Lemma getitem_unresolved (v : json) (k : string) (rest : list Spec.step) :
  Spec.resolve (Spec.Key k :: rest) v = None ->
  (exists e, getitem v k = Raise e) \/
  exists x, getitem v k = Ok x /\ Spec.resolve rest x = None.
Proof.
  rewrite getitem_key. destruct (getitem v k); eauto.
Qed.

Lemma getitem0_unresolved (v : json) (rest : list Spec.step) :
  Spec.resolve (Spec.First :: rest) v = None ->
  (exists e, getitem0 v = Raise e) \/
  exists x, getitem0 v = Ok x /\
            (Spec.resolve rest x = None \/ exists s, x = JStr s).
Proof.
  destruct v as [| | | |s|[|x l]|]; simpl; eauto.
  destruct s; eauto 6.
Qed.

(** Where the path does not lead to a word list the subscripts raise. *)
Lemma words_of_unresolved (v : json) :
  Spec.resolve Spec.word_list_path v = None -> exists e, Demo.words_of v = Raise e.
Proof.
  unfold Spec.word_list_path, Demo.words_of. intros H.
  apply getitem_unresolved in H as [[e0 ->]|(a & -> & H)]; [cbn [rbind]; eauto|]. cbn [rbind].
  apply getitem_unresolved in H as [[e0 ->]|(b & -> & H)]; [cbn [rbind]; eauto|]. cbn [rbind].
  apply getitem0_unresolved in H as [[e0 ->]|(c & -> & [H|[s ->]])];
    [cbn [rbind]; eauto| |cbn [rbind getitem]; eauto]. cbn [rbind].
  apply getitem_unresolved in H as [[e0 ->]|(d & -> & H)]; [cbn [rbind]; eauto|]. cbn [rbind].
  apply getitem0_unresolved in H as [[e0 ->]|(e & -> & [H|[s ->]])];
    [cbn [rbind]; eauto| |cbn [rbind getitem]; eauto]. cbn [rbind].
  apply getitem_unresolved in H as [[e0 ->]|(f & _ & H)]; [cbn [rbind]; eauto|]. discriminate.
Qed.

End PathFacts.

(** ** Running statements *)

Lemma emit_shown (x : element) (w : world) : emit x w = (Ok tt, shown [x] w).
Proof. reflexivity. Qed.

Lemma shown_shown (a b : list element) (w : world) :
  shown b (shown a w) = shown (a ++ b) w.
Proof. unfold shown. simpl. now rewrite app_assoc. Qed.

(** Unfold the page calls of a statement and collect what they show. *)
Ltac draw :=
  unfold markdown, download_button, error, warning, info, json_, spinner, expander;
  repeat (rewrite emit_shown; cbn iota beta);
  rewrite ?shown_shown; cbn [app].

Section RenderFacts.

Variable rt : runtime.

(** ** demo.py on a well-formed word list *)

Lemma word_span_ok (show_confidence : bool) (w : Spec.TranscriptWord) (v : json) :
  Spec.json_word w v -> Spec.in_unit (Spec.confidence w) = true ->
  Demo.word_span rt show_confidence v =
  Ok (Spec.fragment show_confidence (Spec.text w) (Spec.confidence w)).
Proof.
  intros (o & -> & Hw & Hc) Hu.
  unfold Demo.word_span, Demo.display_text, Spec.fragment, Spec.display_text, getitem.
  rewrite Hc, Hw. cbn [rbind operand as_number fmt_2f str].
  rewrite (rgb_floor_number _ Hu), (text_color_number _ Hu). cbn [rbind].
  destruct (Spec.rgb_floor (Spec.confidence w)) as [[r g] b].
  destruct show_confidence; reflexivity.
Qed.

Lemma words_html_ok (show_confidence : bool) (ws : list Spec.TranscriptWord)
      (items : list json) (html : string) :
  Forall2 Spec.json_word ws items ->
  Forall (fun w => Spec.in_unit (Spec.confidence w) = true) ws ->
  Demo.words_html rt show_confidence items html =
  Ok (html +:+ str_concat (map (fun w => Spec.fragment show_confidence (Spec.text w)
                                                        (Spec.confidence w)) ws)).
Proof.
  intros H. revert html. induction H as [|w v ws items Hwv _ IH]; intros html Hall.
  - simpl. now rewrite append_nil_r.
  - inversion Hall as [|? ? Hu Hrest]; subst.
    cbn [Demo.words_html]. rewrite (word_span_ok _ _ _ Hwv Hu). cbn [rbind].
    rewrite (IH _ Hrest). cbn [map str_concat]. now rewrite append_assoc.
Qed.

Lemma join_items_strings (l : list string) (i : nat) :
  join_items i (JStr <$> l) = Ok l.
Proof.
  revert i. induction l as [|x l IH]; intros i; [reflexivity|].
  cbn [fmap list_fmap join_items]. fold (fmap (M:=list) JStr l).
  now rewrite IH.
Qed.

Lemma texts_ok (ws : list Spec.TranscriptWord) (items : list json) :
  Forall2 Spec.json_word ws items ->
  comprehension (fun word => getitem word "word") items =
  Ok (JStr <$> (Spec.text <$> ws)).
Proof.
  induction 1 as [|w v ws items (o & -> & Hw & Hc) _ IH]; [reflexivity|].
  cbn [comprehension getitem]. rewrite Hw. cbn [rbind]. now rewrite IH.
Qed.

(** Line 94 on a word list. *)
Lemma plain_text_ok (ws : list Spec.TranscriptWord) (items : list json) :
  Forall2 Spec.json_word ws items ->
  Demo.plain_text (JArr items) = Ok (str_join " " (Spec.text <$> ws)).
Proof.
  intros H. unfold Demo.plain_text, join. cbn [iter rbind].
  rewrite (texts_ok _ _ H). cbn [rbind]. now rewrite join_items_strings.
Qed.

Lemma detailed_line_ok (w : Spec.TranscriptWord) (v : json) :
  Spec.json_word w v -> Demo.detailed_line rt v = Ok (Spec.line w).
Proof.
  intros (o & -> & Hw & Hc). unfold Demo.detailed_line, getitem.
  rewrite Hw, Hc. reflexivity.
Qed.

(** Line 103 on a word list. *)
Lemma detailed_text_ok (ws : list Spec.TranscriptWord) (items : list json) :
  Forall2 Spec.json_word ws items ->
  Demo.detailed_text rt (JArr items) = Ok (str_join nl (Spec.line <$> ws)).
Proof.
  intros H. unfold Demo.detailed_text. cbn [iter rbind].
  assert (comprehension (Demo.detailed_line rt) items = Ok (Spec.line <$> ws)) as ->;
    [|reflexivity].
  induction H as [|w v ws items Hwv _ IH]; [reflexivity|].
  cbn [comprehension]. rewrite (detailed_line_ok _ _ Hwv). cbn [rbind].
  now rewrite IH.
Qed.

Lemma display_transcription_ok (results : json) (items : list json)
      (ws : list Spec.TranscriptWord) (show_confidence : bool) (w : world) :
  Spec.resolve Spec.word_list_path results = Some (JArr items) ->
  Forall2 Spec.json_word ws items ->
  Forall (fun w => Spec.in_unit (Spec.confidence w) = true) ws ->
  Demo.display_transcription rt results show_confidence w =
  (Ok tt, shown (Spec.transcript_page show_confidence ws) w).
Proof.
  intros Hres Hws Hall.
  unfold Demo.display_transcription, try_except, bind, lift, markdown, download_button.
  rewrite (words_of_resolve _ _ Hres). rewrite !emit_shown.
  cbn [iter]. rewrite (words_html_ok _ _ _ _ Hws Hall).
  rewrite emit_shown, (plain_text_ok _ _ Hws), emit_shown.
  rewrite (detailed_text_ok _ _ Hws), emit_shown.
  rewrite !shown_shown. unfold Spec.transcript_page, Spec.html.
  rewrite !append_assoc. reflexivity.
Qed.

End RenderFacts.

Section MalformedFacts.

Variable rt : runtime.


Lemma words_html_app (show_confidence : bool) (a b : list json) (html : string) :
  Demo.words_html rt show_confidence (a ++ b) html =
  let! h := Demo.words_html rt show_confidence a html in
  Demo.words_html rt show_confidence b h.
Proof.
  revert html. induction a as [|x a IH]; intros html; [reflexivity|].
  cbn [app Demo.words_html].
  destruct (Demo.word_span rt show_confidence x); [cbn [rbind]; apply IH | reflexivity].
Qed.



(** ** demo2.py *)

Lemma try_except_all {A} (body : M A) (handler : exn -> M A) (w : world) :
  try_except body is_Exception handler w =
  match body w with
  | (Ok a, w') => (Ok a, w')
  | (Raise e, w') => handler e w'
  end.
Proof. unfold try_except. destruct (body w) as [[a|e] w']; reflexivity. Qed.

(** The SDK version's renderer ends normally on every response. *)
Lemma display2_total (response : Demo2.PrerecordedResponse) (show_confidence : bool)
      (w : world) :
  exists w', Demo2.display_transcription response show_confidence w = (Ok tt, w').
Proof.
  unfold Demo2.display_transcription. rewrite try_except_all.
  match goal with |- context [match ?b with _ => _ end] => destruct b as [[[]|e] w'] end.
  - eauto.
  - unfold bind. draw. eauto.
Qed.



Lemma token_span_ok (show_confidence : bool) (words : list Demo2.Word)
      (word_obj : Demo2.Word) (w html : string) (word_count : nat) :
  words !! word_count = Some word_obj ->
  Spec.in_unit (Demo2.confidence word_obj) = true ->
  Demo2.token_span show_confidence words w html word_count =
  Ok (html +:+ Spec.fragment show_confidence w (Demo2.confidence word_obj), S word_count).
Proof.
  intros Hl Hu. unfold Demo2.token_span.
  pose proof (lookup_lt_Some _ _ _ Hl) as Hlt. apply Nat.ltb_lt in Hlt.
  rewrite Hlt, Hl. rewrite (rgb_floor_double _ Hu). cbn [rbind].
  unfold Spec.fragment. destruct (Spec.rgb_floor (Demo2.confidence word_obj)) as [[r g] b].
  rewrite (text_color_double _ Hu). reflexivity.
Qed.

End MalformedFacts.

Section FlowFacts.

(** ** Statements that leave the files alone *)

Lemma keeps_ret {A} (a : A) : keeps_files (ret a).
Proof. intros w. reflexivity. Qed.

Lemma keeps_lift {A} (r : result A) : keeps_files (lift r).
Proof. intros w. reflexivity. Qed.

Lemma keeps_raise {A} (e : exn) : keeps_files (@raise A e).
Proof. intros w. reflexivity. Qed.

Lemma keeps_emit (x : element) : keeps_files (emit x).
Proof. intros w. reflexivity. Qed.

Lemma keeps_read (path : string) : keeps_files (read path).
Proof. intros w. unfold read. destruct (files w !! path); reflexivity. Qed.

Lemma keeps_count_call : keeps_files count_call.
Proof. intros w. reflexivity. Qed.

Lemma keeps_bind {A B} (m : M A) (k : A -> M B) :
  keeps_files m -> (forall a, keeps_files (k a)) -> keeps_files (bind m k).
Proof.
  intros Hm Hk w. unfold bind. specialize (Hm w).
  destruct (m w) as [[a|e] w']; simpl in *; [|exact Hm].
  rewrite (Hk a w'). exact Hm.
Qed.

Lemma keeps_try_except {A} (body : M A) (catches : exn -> bool) (handler : exn -> M A) :
  keeps_files body -> (forall e, keeps_files (handler e)) ->
  keeps_files (try_except body catches handler).
Proof.
  intros Hb Hh w. unfold try_except. specialize (Hb w).
  destruct (body w) as [[a|e] w']; simpl in *; [exact Hb|].
  destruct (catches e); simpl; [|exact Hb].
  rewrite (Hh e w'). exact Hb.
Qed.

(** Statements built from the ones above. *)
Ltac keeps :=
  repeat first
    [ apply keeps_bind; [|intros ?]
    | apply keeps_try_except; [|intros ?]
    | apply keeps_ret | apply keeps_lift | apply keeps_raise | apply keeps_emit
    | apply keeps_read | apply keeps_count_call ].

Lemma keeps_transcribe_audio rt provider (file_path api_key : string) :
  keeps_files (Demo.transcribe_audio rt provider file_path api_key).
Proof.
  unfold Demo.transcribe_audio, Demo.request. keeps.
  destruct (provider _); keeps.
Qed.

Lemma keeps_display rt (results : json) (show_confidence : bool) :
  keeps_files (Demo.display_transcription rt results show_confidence).
Proof.
  unfold Demo.display_transcription, markdown, download_button, error, json_. keeps.
Qed.

Lemma keeps_transcribe_audio2 sdk (file_path api_key : string) :
  keeps_files (Demo2.transcribe_audio sdk file_path api_key).
Proof. unfold Demo2.transcribe_audio. keeps. Qed.

Lemma keeps_sentences (show_confidence : bool) (words : list Demo2.Word)
      (ss : list Demo2.Sentence) (word_count : nat) :
  keeps_files (Demo2.sentences_loop show_confidence words ss word_count).
Proof.
  revert word_count. induction ss as [|s ss IH]; intros n; simpl; [keeps|].
  unfold Demo2.sentence_html, markdown. keeps. apply IH.
Qed.

Lemma keeps_paragraphs (show_confidence : bool) (words : list Demo2.Word)
      (ps : list Demo2.Paragraph) (word_count : nat) :
  keeps_files (Demo2.paragraphs_loop show_confidence words ps word_count).
Proof.
  revert word_count. induction ps as [|p ps IH]; intros n; simpl; [keeps|].
  apply keeps_bind; [apply keeps_sentences | intros ?; apply IH].
Qed.

Lemma keeps_display2 (response : Demo2.PrerecordedResponse) (show_confidence : bool) :
  keeps_files (Demo2.display_transcription response show_confidence).
Proof.
  unfold Demo2.display_transcription, markdown, download_button, error, json_. keeps.
  apply keeps_paragraphs.
Qed.

(** ** The guarded part of the flow *)

Lemma flow_cleans (body : M unit) (path : string) (data : bytes) (w : world) :
  keeps_files body -> files w !! path = Some data ->
  try_finally
    (try_except body is_Exception
       (fun e => error ("An error occurred during transcription: " +:+ exn_str e)))
    (unlink path) w
  = (Ok tt, Flow.after_flow body path w).
Proof.
  intros Hk Hf. unfold try_finally, Flow.after_flow. rewrite try_except_all.
  specialize (Hk w). destruct (body w) as [[[]|e] wb]; simpl in Hk.
  - unfold unlink. rewrite Hk, Hf. reflexivity.
  - draw. unfold unlink. cbn [shown files]. rewrite Hk, Hf. reflexivity.
Qed.

Lemma files_after_flow (body : M unit) (path : string) (w : world) :
  keeps_files body -> files (Flow.after_flow body path w) = delete path (files w).
Proof.
  intros Hk. unfold Flow.after_flow. specialize (Hk w).
  destruct (body w) as [[[]|e] wb]; simpl in *; now rewrite Hk.
Qed.


(** ** The flow of demo.py *)

Section Demo.
Variable rt : runtime.
Variable provider : Demo.http_request -> Demo.http_outcome.
Variable tmp_stem : string.

Lemma keeps_body (i : inputs) (path : string) : keeps_files (Flow.body rt provider i path).
Proof.
  unfold Flow.body, expander, json_.
  keeps. destruct (provider _); keeps.
Qed.

Lemma main_ready (i : inputs) (f : UploadedFile) (w : world) :
  Spec.ready i f -> files w !! Spec.tmp_path tmp_stem f = None ->
  Demo.main rt provider tmp_stem i w =
  (Ok tt, Flow.after_flow (Flow.body rt provider i (Spec.tmp_path tmp_stem f)) (Spec.tmp_path tmp_stem f)
                     (Flow.staged (Spec.tmp_path tmp_stem f) f w)).
Proof.
  intros (Hf & Hk & Hc) Hfresh. unfold Demo.main.
  rewrite Hf, Hk, Hc. cbn [is_not_None andb].
  unfold bind at 1. unfold button, bind at 1. draw. unfold ret at 1. cbn iota beta.
  unfold bind at 1. draw.
  unfold bind at 1. unfold NamedTemporaryFile. fold (Spec.tmp_path tmp_stem f).
  cbn [shown files page provider_calls]. rewrite Hfresh.
  unfold bind at 1. unfold write. cbn [files page provider_calls].
  rewrite insert_insert_eq.
  erewrite (flow_cleans (Flow.body rt provider i (Spec.tmp_path tmp_stem f)));
    [ | apply keeps_body | cbn [files]; apply lookup_insert_eq ].
  reflexivity.
Qed.

Lemma transcribe_audio_run (path api_key : string) (data : bytes) (w : world) :
  files w !! path = Some data ->
  Demo.transcribe_audio rt provider path api_key w =
  match provider (Flow.the_request data api_key) with
  | Demo.TransportError e => (Raise e, Flow.called w)
  | Demo.Response _ response_data => (json_loads rt response_data, Flow.called w)
  end.
Proof.
  intros Hf. unfold Demo.transcribe_audio, Demo.request, bind, read, count_call.
  rewrite Hf. fold (Flow.the_request data api_key).
  destruct (provider (Flow.the_request data api_key)) as [e|status d]; cbn; [reflexivity|].
  unfold lift, ret. destruct (json_loads rt d); reflexivity.
Qed.


Lemma staged_lookup (path : string) (f : UploadedFile) (w : world) :
  files (Flow.staged path f w) !! path = Some (getvalue f).
Proof. apply lookup_insert_eq. Qed.

Lemma staged_cleaned (path : string) (f : UploadedFile) (w : world) :
  files w !! path = None -> delete path (files (Flow.staged path f w)) = files w.
Proof.
  intros H. cbn [Flow.staged files]. rewrite delete_insert_eq. now apply delete_id.
Qed.

(** A failure of the client: the message on the page, the file gone. *)
Lemma main_client_fails (i : inputs) (f : UploadedFile) (w : world) (e : exn) :
  Spec.ready i f -> files w !! Spec.tmp_path tmp_stem f = None ->
  Demo.transcribe_audio rt provider (Spec.tmp_path tmp_stem f) (api_key i)
    (Flow.staged (Spec.tmp_path tmp_stem f) f w)
  = (Raise e, Flow.called (Flow.staged (Spec.tmp_path tmp_stem f) f w)) ->
  Demo.main rt provider tmp_stem i w =
  (Ok tt, World (page w ++ Spec.flow_head ++
                 [Error ("An error occurred during transcription: " +:+ exn_str e)])
                (files w) (S (provider_calls w))).
Proof.
  intros Hr Hfresh Ht. rewrite (main_ready _ _ _ Hr Hfresh).
  unfold Flow.after_flow, Flow.body. unfold bind at 1. rewrite Ht.
  cbn [shown Flow.called page files provider_calls].
  rewrite (staged_cleaned _ _ _ Hfresh). cbn [Flow.staged page provider_calls].
  now rewrite <- app_assoc.
Qed.

(** The temporary file is gone after the flow, whatever happened in it. *)
Lemma main_cleans (i : inputs) (f : UploadedFile) (w : world) :
  Spec.ready i f -> files w !! Spec.tmp_path tmp_stem f = None ->
  exists w', Demo.main rt provider tmp_stem i w = (Ok tt, w') /\ files w' = files w.
Proof.
  intros Hr Hfresh. rewrite (main_ready _ _ _ Hr Hfresh).
  eexists. split; [reflexivity|].
  rewrite files_after_flow by apply keeps_body. now apply staged_cleaned.
Qed.

(** Without a credential: the prompt, and nothing else. *)
Lemma main_no_key (i : inputs) (w : world) :
  api_key i = "" ->
  Demo.main rt provider tmp_stem i w = (Ok tt, shown [Spec.prompt i] w).
Proof.
  intros Hk. unfold Demo.main, Spec.prompt. rewrite Hk.
  destruct (uploaded_file i); reflexivity.
Qed.

End Demo.

(** The client does not look at the status. *)
Lemma transcribe_audio_status rt (p1 p2 : Demo.http_request -> Demo.http_outcome)
      (path api_key : string) (w : world) :
  (forall req, Spec.same_but_status (p1 req) (p2 req)) ->
  Demo.transcribe_audio rt p1 path api_key w = Demo.transcribe_audio rt p2 path api_key w.
Proof.
  intros H. unfold Demo.transcribe_audio, Demo.request, bind, read, count_call.
  destruct (files w !! path) as [data|]; [|reflexivity].
  match goal with |- context [p1 ?r] => specialize (H r); destruct (p1 r), (p2 r) end;
    cbn in H; try contradiction; subst; reflexivity.
Qed.

(** ** The flow of demo2.py *)

Section Demo2.
Variable sdk : Demo2.sdk_call -> result Demo2.PrerecordedResponse.
Variable tmp_stem : string.

Lemma keeps_body2 (i : inputs) (path : string) : keeps_files (Flow.body2 sdk i path).
Proof.
  unfold Flow.body2, expander, json_.
  apply keeps_bind; [apply keeps_transcribe_audio2 | intros r].
  apply keeps_bind; [apply keeps_display2 | intros ?]. keeps.
Qed.

Lemma main2_ready (i : inputs) (f : UploadedFile) (w : world) :
  Spec.ready i f -> files w !! Spec.tmp_path tmp_stem f = None ->
  Demo2.main sdk tmp_stem i w =
  (Ok tt, Flow.after_flow (Flow.body2 sdk i (Spec.tmp_path tmp_stem f)) (Spec.tmp_path tmp_stem f)
                     (Flow.staged (Spec.tmp_path tmp_stem f) f w)).
Proof.
  intros (Hf & Hk & Hc) Hfresh. unfold Demo2.main.
  rewrite Hf, Hk, Hc. cbn [is_not_None andb].
  unfold bind at 1. unfold button, bind at 1. draw. unfold ret at 1. cbn iota beta.
  unfold bind at 1. draw.
  unfold bind at 1. unfold NamedTemporaryFile. fold (Spec.tmp_path tmp_stem f).
  cbn [shown files page provider_calls]. rewrite Hfresh.
  unfold bind at 1. unfold write. cbn [files page provider_calls].
  rewrite insert_insert_eq.
  erewrite (flow_cleans (Flow.body2 sdk i (Spec.tmp_path tmp_stem f)));
    [ | apply keeps_body2 | cbn [files]; apply lookup_insert_eq ].
  reflexivity.
Qed.

(** A failure of the SDK call: wrapped, reported, the file gone. *)
Lemma main2_sdk_fails (i : inputs) (f : UploadedFile) (w : world) (e : exn) :
  Spec.ready i f -> files w !! Spec.tmp_path tmp_stem f = None ->
  sdk (Flow.the_call (getvalue f) (api_key i)) = Raise e ->
  Demo2.main sdk tmp_stem i w =
  (Ok tt, World (page w ++ Spec.flow_head ++
                 [Error ("An error occurred during transcription: " +:+
                         ("Deepgram transcription error: " +:+ exn_str e))])
                (files w) (S (provider_calls w))).
Proof.
  intros Hr Hfresh Hs. rewrite (main2_ready _ _ _ Hr Hfresh).
  unfold Flow.after_flow, Flow.body2. unfold bind at 1.
  unfold Demo2.transcribe_audio. rewrite try_except_all.
  unfold bind, read, count_call, lift. rewrite staged_lookup.
  fold (Flow.the_call (getvalue f) (api_key i)). cbn [files page provider_calls]. rewrite Hs.
  unfold raise. cbn [shown Flow.called page files provider_calls exn_str].
  rewrite (staged_cleaned _ _ _ Hfresh). cbn [Flow.staged page provider_calls].
  now rewrite <- app_assoc.
Qed.

Lemma main2_cleans (i : inputs) (f : UploadedFile) (w : world) :
  Spec.ready i f -> files w !! Spec.tmp_path tmp_stem f = None ->
  exists w', Demo2.main sdk tmp_stem i w = (Ok tt, w') /\ files w' = files w.
Proof.
  intros Hr Hfresh. rewrite (main2_ready _ _ _ Hr Hfresh).
  eexists. split; [reflexivity|].
  rewrite files_after_flow by apply keeps_body2. now apply staged_cleaned.
Qed.

Lemma main2_no_key (i : inputs) (w : world) :
  api_key i = "" ->
  Demo2.main sdk tmp_stem i w = (Ok tt, shown [Spec.prompt i] w).
Proof.
  intros Hk. unfold Demo2.main, Spec.prompt. rewrite Hk.
  destruct (uploaded_file i); reflexivity.
Qed.

End Demo2.

End FlowFacts.


(* ===================================================================== *)
(** * The exports *)
(* ===================================================================== *)

Section ExportFacts.

Lemma sdk_words_texts (ws : list Spec.TranscriptWord) (words : list Demo2.Word) :
  Forall2 Spec.sdk_word ws words -> Demo2.word <$> words = Spec.text <$> ws.
Proof.
  induction 1 as [|w x ws words [Hw _] _ IH]; [reflexivity|].
  cbn [fmap list_fmap]. f_equal; [exact Hw | exact IH].
Qed.

Lemma sdk_words_lines (ws : list Spec.TranscriptWord) (words : list Demo2.Word) :
  Forall2 Spec.sdk_word ws words -> Demo2.detailed_line <$> words = Spec.line <$> ws.
Proof.
  induction 1 as [|w x ws words [Hw Hc] _ IH]; [reflexivity|].
  cbn [fmap list_fmap]. f_equal; [|exact IH].
  unfold Demo2.detailed_line, Spec.line. now rewrite Hw, Hc.
Qed.

Lemma line_no_newline (w : Spec.TranscriptWord) :
  Spec.contains (ascii_of_nat 10) (Spec.text w) = false ->
  Spec.contains (ascii_of_nat 10) (Spec.line w) = false.
Proof.
  intros H. unfold Spec.line.
  rewrite !contains_app, H, format_2f_no_newline. reflexivity.
Qed.

Lemma line_not_empty (w : Spec.TranscriptWord) (rest : string) :
  Spec.line w +:+ rest <> "".
Proof.
  unfold Spec.line. destruct (Spec.text w); discriminate.
Qed.

(** The lines of the detailed export are its pieces, when no word holds a
    newline. *)
Lemma lines_detailed (ws : list Spec.TranscriptWord) :
  Forall (fun w => Spec.contains (ascii_of_nat 10) (Spec.text w) = false) ws ->
  Spec.lines (str_join nl (Spec.line <$> ws)) = Spec.line <$> ws.
Proof.
  intros Hall. destruct ws as [|w ws]; [reflexivity|].
  assert (str_join nl (Spec.line <$> w :: ws) <> "") as Hne.
  { destruct ws as [|w2 ws2]; cbn [fmap list_fmap str_join].
    - intros E. apply (line_not_empty w ""). now rewrite append_nil_r.
    - apply line_not_empty. }
  unfold Spec.lines.
  destruct (str_join nl (Spec.line <$> w :: ws)) eqn:E; [congruence|].
  rewrite <- E. apply str_split_join; [discriminate|].
  apply Forall_fmap. eapply Forall_impl; [exact Hall|].
  intros x Hx. now apply line_no_newline.
Qed.

End ExportFacts.

Section OrderFacts.

Lemma Qltb_lt (a b : Q) : Spec.Qltb a b = true <-> (a < b)%Q.
Proof.
  unfold Spec.Qltb. rewrite negb_true_iff. split.
  - intros H. apply Qnot_le_lt. intros Hle. apply Qle_bool_iff in Hle. congruence.
  - intros H. destruct (Qle_bool b a) eqn:E; [|reflexivity].
    apply Qle_bool_iff in E. exfalso. eapply Qlt_not_le; eauto.
Qed.

Lemma Qltb_ge (a b : Q) : Spec.Qltb a b = false <-> (b <= a)%Q.
Proof.
  unfold Spec.Qltb. rewrite negb_false_iff. apply Qle_bool_iff.
Qed.

End OrderFacts.

(* ===================================================================== *)
(** * The flow, the SDK page and odd inputs *)
(* ===================================================================== *)

Import Expected.

Lemma shown_nil (w : world) : shown [] w = w.
Proof. destruct w. unfold shown. cbn. now rewrite app_nil_r. Qed.

Section DrawsOnly.

Lemma draws_ret {A} (a : A) : draws_only (ret a).
Proof. intros w. exists []. now rewrite shown_nil. Qed.

Lemma draws_lift {A} (r : result A) : draws_only (lift r).
Proof. intros w. exists []. now rewrite shown_nil. Qed.

Lemma draws_raise {A} (e : exn) : draws_only (@raise A e).
Proof. intros w. exists []. now rewrite shown_nil. Qed.

Lemma draws_emit (x : element) : draws_only (emit x).
Proof. intros w. exists [x]. reflexivity. Qed.

Lemma draws_bind {A B} (m : M A) (k : A -> M B) :
  draws_only m -> (forall a, draws_only (k a)) -> draws_only (bind m k).
Proof.
  intros Hm Hk w. unfold bind. destruct (Hm w) as [els Hels].
  destruct (m w) as [[a|e] w']; simpl in *; [|eauto].
  destruct (Hk a w') as [els' Hels']. exists (els ++ els')%list.
  now rewrite Hels', Hels, shown_shown.
Qed.

Lemma draws_try_except {A} (body : M A) (catches : exn -> bool) (handler : exn -> M A) :
  draws_only body -> (forall e, draws_only (handler e)) ->
  draws_only (try_except body catches handler).
Proof.
  intros Hb Hh w. unfold try_except. destruct (Hb w) as [els Hels].
  destruct (body w) as [[a|e] w']; simpl in *; [eauto|].
  destruct (catches e); simpl; [|eauto].
  destruct (Hh e w') as [els' Hels']. exists (els ++ els')%list.
  now rewrite Hels', Hels, shown_shown.
Qed.

End DrawsOnly.

(** Statements built from the ones above. *)
Ltac draws :=
  repeat first
    [ apply draws_bind; [|intros ?]
    | apply draws_try_except; [|intros ?]
    | apply draws_ret | apply draws_lift | apply draws_raise | apply draws_emit ].

Section RenderersDraw.

Lemma draws_display rt (results : json) (show_confidence : bool) :
  draws_only (Demo.display_transcription rt results show_confidence).
Proof.
  unfold Demo.display_transcription, markdown, download_button, error, json_. draws.
Qed.

Lemma draws_sentences (show_confidence : bool) (words : list Demo2.Word)
      (ss : list Demo2.Sentence) (word_count : nat) :
  draws_only (Demo2.sentences_loop show_confidence words ss word_count).
Proof.
  revert word_count. induction ss as [|s ss IH]; intros n; simpl; [draws|].
  unfold Demo2.sentence_html, markdown. draws. apply IH.
Qed.

Lemma draws_paragraphs (show_confidence : bool) (words : list Demo2.Word)
      (ps : list Demo2.Paragraph) (word_count : nat) :
  draws_only (Demo2.paragraphs_loop show_confidence words ps word_count).
Proof.
  revert word_count. induction ps as [|p ps IH]; intros n; simpl; [draws|].
  apply draws_bind; [apply draws_sentences | intros ?; apply IH].
Qed.

Lemma draws_display2 (response : Demo2.PrerecordedResponse) (show_confidence : bool) :
  draws_only (Demo2.display_transcription response show_confidence).
Proof.
  unfold Demo2.display_transcription, markdown, download_button, error, json_. draws.
  apply draws_paragraphs.
Qed.

(** The state after the flow, from the state the guarded part left. *)
Lemma after_flow_calls (body : M unit) (path : string) (w : world) :
  provider_calls (Flow.after_flow body path w) = provider_calls (snd (body w)).
Proof.
  unfold Flow.after_flow. destruct (body w) as [[[]|e] wb]; reflexivity.
Qed.

End RenderersDraw.

Section FlowDemo.

Variable rt : runtime.
Variable provider : Demo.http_request -> Demo.http_outcome.
Variable tmp_stem : string.

(** The flow after an answer that decodes: what the renderer drew, then the
    raw response or the flow's error message; the file gone. *)
Lemma main_displayed (i : inputs) (f : UploadedFile) (w : world)
      (status : Z) (data : bytes) (j : json) (r : result unit) (els : list element) :
  Spec.ready i f -> files w !! Spec.tmp_path tmp_stem f = None ->
  provider (Flow.the_request (getvalue f) (api_key i)) = Demo.Response status data ->
  json_loads rt data = Ok j ->
  Demo.display_transcription rt j (show_confidence i)
    (Flow.called (Flow.staged (Spec.tmp_path tmp_stem f) f w)) =
  (r, shown els (Flow.called (Flow.staged (Spec.tmp_path tmp_stem f) f w))) ->
  Demo.main rt provider tmp_stem i w =
  (Ok tt, World (page w ++ Spec.flow_head ++ els ++
                 match r with
                 | Ok _ => raw_response j
                 | Raise e => [flow_error (exn_str e)]
                 end)
                (files w) (S (provider_calls w))).
Proof.
  intros Hr Hfresh Hp Hj Hd. rewrite (main_ready _ _ _ _ _ _ Hr Hfresh).
  unfold Flow.after_flow, Flow.body. unfold bind at 1.
  rewrite (transcribe_audio_run rt provider _ _ _ _ (staged_lookup _ f w)), Hp, Hj.
  unfold bind at 1. rewrite Hd. destruct r as [[]|e].
  - unfold bind. draw. cbn [shown Flow.called page files provider_calls].
    rewrite (staged_cleaned _ _ _ Hfresh). cbn [Flow.staged page provider_calls].
    unfold raw_response. now rewrite <- !app_assoc.
  - cbn [shown Flow.called page files provider_calls].
    rewrite (staged_cleaned _ _ _ Hfresh). cbn [Flow.staged page provider_calls].
    unfold flow_error. now rewrite <- !app_assoc.
Qed.

(** The top level of a result that is an object without [results]. *)
Lemma display_no_results (o : gmap string json) (show_confidence : bool) (w : world) :
  o !! "results" = None ->
  Demo.display_transcription rt (JObj o) show_confidence w =
  (Ok tt, shown [Spec.parse_error "'results'"; Json (JObj o)] w).
Proof.
  intros H. unfold Demo.display_transcription, try_except, bind, lift, Demo.words_of, getitem.
  rewrite H. cbn [rbind is_KeyError exn_cls exn_str]. draw. reflexivity.
Qed.

(** An empty list where the first channel or the first alternative is
    looked up. *)
Lemma words_of_empty (j : json) :
  Spec.resolve [Spec.Key "results"; Spec.Key "channels"] j = Some (JArr []) \/
  Spec.resolve [Spec.Key "results"; Spec.Key "channels"; Spec.First;
                Spec.Key "alternatives"] j = Some (JArr []) ->
  Demo.words_of j = Raise (Exn IndexError "list index out of range").
Proof.
  unfold Demo.words_of. intros [H|H].
  - rewrite getitem_key in H.
    destruct (getitem j "results") as [a|]; [cbn [rbind]|discriminate].
    rewrite getitem_key in H.
    destruct (getitem a "channels") as [b|]; [cbn [rbind]|discriminate].
    simpl in H. injection H as ->. reflexivity.
  - rewrite getitem_key in H.
    destruct (getitem j "results") as [a|]; [cbn [rbind]|discriminate].
    rewrite getitem_key in H.
    destruct (getitem a "channels") as [b|]; [cbn [rbind]|discriminate].
    apply getitem0_first in H as (c & -> & H). cbn [rbind].
    rewrite getitem_key in H.
    destruct (getitem c "alternatives") as [d|]; [cbn [rbind]|discriminate].
    simpl in H. injection H as ->. reflexivity.
Qed.

Lemma display_empty_list (j : json) (show_confidence : bool) (w : world) :
  Spec.resolve [Spec.Key "results"; Spec.Key "channels"] j = Some (JArr []) \/
  Spec.resolve [Spec.Key "results"; Spec.Key "channels"; Spec.First;
                Spec.Key "alternatives"] j = Some (JArr []) ->
  Demo.display_transcription rt j show_confidence w =
  (Raise (Exn IndexError "list index out of range"), w).
Proof.
  intros H. unfold Demo.display_transcription, try_except, bind, lift.
  rewrite (words_of_empty _ H). reflexivity.
Qed.

(** The run in which the flow does not start. *)
Lemma main_idle (i : inputs) (w : world) :
  transcribe_clicked i = false \/ uploaded_file i = None \/ api_key i = "" ->
  Demo.main rt provider tmp_stem i w = (Ok tt, shown [idle i] w).
Proof.
  intros H. unfold Demo.main, idle.
  destruct (uploaded_file i) as [f|] eqn:Hf, (api_key i) as [|c k] eqn:Hk;
    cbn [is_not_None truthy andb negb]; try reflexivity.
  destruct H as [H|[H|H]]; try discriminate.
  rewrite H. reflexivity.
Qed.

(** One call to the provider in a run of the flow. *)
Lemma body_calls (i : inputs) (path : string) (data : bytes) (w : world) :
  files w !! path = Some data ->
  provider_calls (snd (Flow.body rt provider i path w)) = S (provider_calls w).
Proof.
  intros Hf. unfold Flow.body. unfold bind at 1.
  rewrite (transcribe_audio_run rt provider _ _ _ _ Hf).
  destruct (provider _) as [e|status d]; [reflexivity|].
  destruct (json_loads rt d) as [j|e]; [|reflexivity].
  assert (draws_only (Demo.display_transcription rt j (show_confidence i) ;;
                      expander "View Raw API Response" ;; json_ j)) as Hk.
  { apply draws_bind; [apply draws_display|intros ?]. unfold expander, json_. draws. }
  destruct (Hk (Flow.called w)) as [els ->]. reflexivity.
Qed.

Lemma main_calls (i : inputs) (f : UploadedFile) (w : world) :
  Spec.ready i f -> files w !! Spec.tmp_path tmp_stem f = None ->
  provider_calls (snd (Demo.main rt provider tmp_stem i w)) = S (provider_calls w).
Proof.
  intros Hr Hfresh. rewrite (main_ready _ _ _ _ _ _ Hr Hfresh). cbn [snd].
  rewrite after_flow_calls.
  rewrite (body_calls i _ _ _ (staged_lookup _ f w)). reflexivity.
Qed.

End FlowDemo.

(** The flow asks the provider one thing: its answer to the upload. *)
Lemma main_one_request rt (p1 p2 : Demo.http_request -> Demo.http_outcome)
      (tmp_stem : string) (i : inputs) (f : UploadedFile) (w : world) :
  Spec.ready i f -> files w !! Spec.tmp_path tmp_stem f = None ->
  p1 (Flow.the_request (getvalue f) (api_key i)) =
  p2 (Flow.the_request (getvalue f) (api_key i)) ->
  Demo.main rt p1 tmp_stem i w = Demo.main rt p2 tmp_stem i w.
Proof.
  intros Hr Hfresh Hp.
  rewrite (main_ready rt p1 _ _ _ _ Hr Hfresh), (main_ready rt p2 _ _ _ _ Hr Hfresh).
  assert (forall p, Flow.body rt p i (Spec.tmp_path tmp_stem f)
                      (Flow.staged (Spec.tmp_path tmp_stem f) f w) =
                    match p (Flow.the_request (getvalue f) (api_key i)) with
                    | Demo.TransportError e =>
                        (Raise e, Flow.called (Flow.staged (Spec.tmp_path tmp_stem f) f w))
                    | Demo.Response _ d =>
                        match json_loads rt d with
                        | Ok j => (Demo.display_transcription rt j (show_confidence i) ;;
                                   expander "View Raw API Response" ;; json_ j)
                                    (Flow.called (Flow.staged (Spec.tmp_path tmp_stem f) f w))
                        | Raise e =>
                            (Raise e, Flow.called (Flow.staged (Spec.tmp_path tmp_stem f) f w))
                        end
                    end) as Hb.
  { intros p. unfold Flow.body. unfold bind at 1.
    rewrite (transcribe_audio_run rt p _ _ _ _ (staged_lookup _ f w)).
    destruct (p _) as [e|status d]; [reflexivity|].
    destruct (json_loads rt d); reflexivity. }
  unfold Flow.after_flow. rewrite (Hb p1), (Hb p2), Hp. reflexivity.
Qed.

Section SdkPage.

Variable show_confidence : bool.
Variable words : list Demo2.Word.
Hypothesis confident :
  Forall (fun x => Spec.in_unit (Demo2.confidence x) = true) words.

Lemma tokens_markup_nil (k : nat) : tokens_markup show_confidence words k [] = "".
Proof. reflexivity. Qed.

Lemma tokens_markup_cons (k : nat) (t : string) (tokens : list string) :
  tokens_markup show_confidence words k (t :: tokens) =
  token_fragment show_confidence words k t +:+
  tokens_markup show_confidence words (S k) tokens.
Proof.
  unfold tokens_markup. rewrite imap_cons. cbn [str_concat]. rewrite Nat.add_0_r.
  do 2 f_equal. apply imap_ext. intros j x _. cbn. f_equal. lia.
Qed.

(** The loop over the tokens of a sentence: the counter is the position,
    stopped at the number of words. *)
Lemma tokens_html_ok (tokens : list string) (html : string) (k : nat) :
  Demo2.tokens_html show_confidence words tokens html (Nat.min k (length words)) =
  Ok (html +:+ tokens_markup show_confidence words k tokens,
      Nat.min (k + length tokens) (length words)).
Proof.
  revert html k. induction tokens as [|t tokens IH]; intros html k.
  - cbn [Demo2.tokens_html length]. rewrite tokens_markup_nil, append_nil_r.
    now rewrite Nat.add_0_r.
  - cbn [Demo2.tokens_html length]. rewrite tokens_markup_cons.
    destruct (Nat.lt_ge_cases k (length words)) as [Hlt|Hge].
    + rewrite (Nat.min_l k) by lia.
      destruct (lookup_lt_is_Some_2 words k Hlt) as [x Hx].
      rewrite (token_span_ok show_confidence words x t html k Hx
                 (proj1 (Forall_lookup _ words) confident k x Hx)).
      cbn [rbind fst snd].
      replace (S k) with (Nat.min (S k) (length words)) at 1 by lia.
      rewrite IH. unfold token_fragment at 1. rewrite Hx.
      rewrite append_assoc. do 2 f_equal. lia.
    + rewrite (Nat.min_r k) by lia.
      unfold Demo2.token_span. rewrite Nat.ltb_irrefl. cbn [rbind fst snd].
      replace (length words) with (Nat.min (S k) (length words)) at 1 by lia.
      rewrite IH. unfold token_fragment at 1.
      rewrite (lookup_ge_None_2 words k) by lia.
      rewrite append_assoc. do 2 f_equal. lia.
Qed.

Lemma sentences_loop_ok (ss : list Demo2.Sentence) (k : nat) (w : world) :
  Demo2.sentences_loop show_confidence words ss (Nat.min k (length words)) w =
  (Ok (Nat.min (k + token_count ss) (length words)),
   shown (sentence_elements show_confidence words k ss) w).
Proof.
  revert k w. induction ss as [|s ss IH]; intros k w.
  - cbn [Demo2.sentences_loop token_count sentence_elements]. unfold ret.
    rewrite shown_nil. now rewrite Nat.add_0_r.
  - cbn [Demo2.sentences_loop token_count sentence_elements].
    unfold bind at 1. unfold Demo2.sentence_html. unfold bind at 1, lift.
    rewrite tokens_html_ok. cbn [fst snd]. unfold bind at 1. draw. unfold ret at 1.
    rewrite IH. rewrite shown_shown. cbn [app].
    fold sentence_open. rewrite append_assoc. do 2 f_equal. lia.
Qed.

Lemma sentence_elements_app (a b : list Demo2.Sentence) (k : nat) :
  sentence_elements show_confidence words k (a ++ b)%list =
  (sentence_elements show_confidence words k a ++
   sentence_elements show_confidence words (k + token_count a) b)%list.
Proof.
  revert k. induction a as [|s a IH]; intros k.
  - cbn. now rewrite Nat.add_0_r.
  - cbn [app sentence_elements token_count]. rewrite IH. do 3 f_equal. lia.
Qed.

Lemma token_count_app (a b : list Demo2.Sentence) :
  token_count (a ++ b)%list = (token_count a + token_count b)%nat.
Proof. induction a as [|s a IH]; cbn [app token_count]; lia. Qed.

Lemma paragraphs_loop_ok (ps : list Demo2.Paragraph) (k : nat) (w : world) :
  Demo2.paragraphs_loop show_confidence words ps (Nat.min k (length words)) w =
  (Ok (Nat.min (k + token_count (all_sentences ps)) (length words)),
   shown (sentence_elements show_confidence words k (all_sentences ps)) w).
Proof.
  revert k w. induction ps as [|p ps IH]; intros k w.
  - cbn. unfold ret. rewrite shown_nil. now rewrite Nat.add_0_r.
  - cbn [Demo2.paragraphs_loop]. unfold bind at 1. rewrite sentences_loop_ok.
    rewrite IH. unfold all_sentences. cbn [fmap list_fmap concat].
    fold (fmap (M:=list) Demo2.sentences ps). fold (all_sentences ps).
    rewrite sentence_elements_app, token_count_app, shown_shown.
    do 3 f_equal. lia.
Qed.

Lemma display2_ok (response : Demo2.PrerecordedResponse) (a : Demo2.Alternative)
      (ps : list Demo2.Paragraph) (w : world) :
  sdk_answer response a ps -> Demo2.words a = words ->
  Demo2.display_transcription response show_confidence w =
  (Ok tt, shown (sdk_page show_confidence words ps) w).
Proof.
  intros (rs & ch & chs & alts & p & H1 & H2 & H3 & H4 & H5) Hw.
  unfold Demo2.display_transcription. rewrite try_except_all.
  unfold bind at 1. draw. unfold bind at 1, lift, Demo2.alternative0.
  rewrite H1, H2. cbn [Demo2.index0 rbind]. rewrite H3. cbn [Demo2.index0].
  unfold bind at 1, Demo2.paragraphs_of. rewrite H4, H5, Hw.
  unfold bind at 1.
  change 0%nat with (Nat.min 0 (length words)).
  rewrite paragraphs_loop_ok. unfold bind. draw.
  reflexivity.
Qed.

End SdkPage.

Section FlowDemo2.

Variable sdk : Demo2.sdk_call -> result Demo2.PrerecordedResponse.
Variable tmp_stem : string.

(** The SDK version's client, for a file that is there. *)
Lemma transcribe_audio2_run (path api_key : string) (data : bytes) (w : world) :
  files w !! path = Some data ->
  Demo2.transcribe_audio sdk path api_key w =
  match sdk (Flow.the_call data api_key) with
  | Ok response => (Ok response, Flow.called w)
  | Raise e =>
      (Raise (Exn Exception_ ("Deepgram transcription error: " +:+ exn_str e)),
       Flow.called w)
  end.
Proof.
  intros Hf. unfold Demo2.transcribe_audio. rewrite try_except_all.
  unfold bind, read, count_call, lift. rewrite Hf.
  fold (Flow.the_call data api_key).
  destruct (sdk (Flow.the_call data api_key)); reflexivity.
Qed.

(** The flow after an answer of the SDK: what the renderer drew, then the
    raw response; the file gone. *)
Lemma main2_displayed (i : inputs) (f : UploadedFile) (w : world)
      (response : Demo2.PrerecordedResponse) (els : list element) :
  Spec.ready i f -> files w !! Spec.tmp_path tmp_stem f = None ->
  sdk (Flow.the_call (getvalue f) (api_key i)) = Ok response ->
  Demo2.display_transcription response (show_confidence i)
    (Flow.called (Flow.staged (Spec.tmp_path tmp_stem f) f w)) =
  (Ok tt, shown els (Flow.called (Flow.staged (Spec.tmp_path tmp_stem f) f w))) ->
  Demo2.main sdk tmp_stem i w =
  (Ok tt, World (page w ++ Spec.flow_head ++ els ++ raw_response (Demo2.to_dict response))
                (files w) (S (provider_calls w))).
Proof.
  intros Hr Hfresh Hs Hd. rewrite (main2_ready _ _ _ _ _ Hr Hfresh).
  unfold Flow.after_flow, Flow.body2. unfold bind at 1.
  rewrite (transcribe_audio2_run _ _ _ _ (staged_lookup _ f w)), Hs.
  unfold bind at 1. rewrite Hd.
  unfold bind. draw. cbn [shown Flow.called page files provider_calls].
  rewrite (staged_cleaned _ _ _ Hfresh). cbn [Flow.staged page provider_calls].
  unfold raw_response. now rewrite <- !app_assoc.
Qed.

Lemma main2_idle (i : inputs) (w : world) :
  transcribe_clicked i = false \/ uploaded_file i = None \/ api_key i = "" ->
  Demo2.main sdk tmp_stem i w = (Ok tt, shown [idle i] w).
Proof.
  intros H. unfold Demo2.main, idle.
  destruct (uploaded_file i) as [f|] eqn:Hf, (api_key i) as [|c k] eqn:Hk;
    cbn [is_not_None truthy andb negb]; try reflexivity.
  destruct H as [H|[H|H]]; try discriminate.
  rewrite H. reflexivity.
Qed.

Lemma body2_calls (i : inputs) (path : string) (data : bytes) (w : world) :
  files w !! path = Some data ->
  provider_calls (snd (Flow.body2 sdk i path w)) = S (provider_calls w).
Proof.
  intros Hf. unfold Flow.body2. unfold bind at 1.
  rewrite (transcribe_audio2_run _ _ _ _ Hf).
  destruct (sdk _) as [r|e]; [|reflexivity].
  assert (draws_only (Demo2.display_transcription r (show_confidence i) ;;
                      expander "View Raw API Response" ;; json_ (Demo2.to_dict r))) as Hk.
  { apply draws_bind; [apply draws_display2|intros ?]. unfold expander, json_. draws. }
  destruct (Hk (Flow.called w)) as [els ->]. reflexivity.
Qed.

Lemma main2_calls (i : inputs) (f : UploadedFile) (w : world) :
  Spec.ready i f -> files w !! Spec.tmp_path tmp_stem f = None ->
  provider_calls (snd (Demo2.main sdk tmp_stem i w)) = S (provider_calls w).
Proof.
  intros Hr Hfresh. rewrite (main2_ready _ _ _ _ _ Hr Hfresh). cbn [snd].
  rewrite after_flow_calls.
  rewrite (body2_calls i _ _ _ (staged_lookup _ f w)). reflexivity.
Qed.

End FlowDemo2.

Lemma main2_one_call (s1 s2 : Demo2.sdk_call -> result Demo2.PrerecordedResponse)
      (tmp_stem : string) (i : inputs) (f : UploadedFile) (w : world) :
  Spec.ready i f -> files w !! Spec.tmp_path tmp_stem f = None ->
  s1 (Flow.the_call (getvalue f) (api_key i)) =
  s2 (Flow.the_call (getvalue f) (api_key i)) ->
  Demo2.main s1 tmp_stem i w = Demo2.main s2 tmp_stem i w.
Proof.
  intros Hr Hfresh Hp.
  rewrite (main2_ready s1 _ _ _ _ Hr Hfresh), (main2_ready s2 _ _ _ _ Hr Hfresh).
  unfold Flow.after_flow, Flow.body2, bind.
  rewrite !(transcribe_audio2_run _ _ _ _ _ (staged_lookup _ f w)), Hp.
  reflexivity.
Qed.

Section SplitFacts.

Variable sep : ascii.

(** No piece of a split holds the separator. *)
Lemma str_split_pieces (s : string) :
  Forall (fun p => Spec.contains sep p = false) (str_split sep s).
Proof.
  induction s as [|c s IH]; cbn [str_split]; [repeat constructor|].
  destruct (Ascii.eqb c sep) eqn:E; [constructor; [reflexivity | exact IH]|].
  destruct (str_split sep s) as [|w ws]; [repeat constructor; cbn; now rewrite E|].
  inversion IH as [|? ? Hw Hws]; subst.
  constructor; [cbn; now rewrite E, Hw | exact Hws].
Qed.

(** Split then join gives back the string. *)
Lemma str_join_split (s : string) :
  str_join (String sep "") (str_split sep s) = s.
Proof.
  induction s as [|c s IH]; cbn [str_split]; [reflexivity|].
  destruct (Ascii.eqb c sep) eqn:E.
  - apply Ascii.eqb_eq in E as ->.
    pose proof (str_split_not_nil sep s) as Hne.
    destruct (str_split sep s) as [|w ws]; [congruence|].
    change (str_join (String sep "") ("" :: w :: ws))
      with ("" +:+ String sep "" +:+ str_join (String sep "") (w :: ws)).
    rewrite IH. reflexivity.
  - destruct (str_split sep s) as [|w ws].
    + cbn in IH. now subst.
    + destruct ws as [|w2 ws].
      * cbn in IH. cbn. now subst.
      * change (str_join (String sep "") (String c w :: w2 :: ws))
          with (String c w +:+ String sep "" +:+ str_join (String sep "") (w2 :: ws)).
        change (str_join (String sep "") (w :: w2 :: ws))
          with (w +:+ String sep "" +:+ str_join (String sep "") (w2 :: ws)) in IH.
        rewrite append_cons. now rewrite IH.
Qed.

(** The last piece of a string that holds the separator is what follows
    the last separator. *)
Lemma str_split_last (s : string) :
  Spec.contains sep s = true ->
  exists pre, s = pre +:+ String sep (List.last (str_split sep s) "").
Proof.
  induction s as [|c s IH]; [discriminate|]. intros H.
  cbn [Spec.contains] in H. cbn [str_split].
  destruct (Ascii.eqb c sep) eqn:E.
  - apply Ascii.eqb_eq in E as ->.
    pose proof (str_split_not_nil sep s) as Hne.
    destruct (Spec.contains sep s) eqn:Hs.
    + destruct (IH eq_refl) as [pre Hpre]. exists (String sep pre).
      rewrite append_cons. f_equal.
      destruct (str_split sep s) as [|w ws]; [congruence | exact Hpre].
    + exists "". rewrite (str_split_whole _ _ Hs). reflexivity.
  - cbn [orb] in H. destruct (IH H) as [pre Hpre]. exists (String c pre).
    rewrite append_cons.
    pose proof (str_join_split s) as Hj. pose proof (str_split_pieces s) as Hp.
    destruct (str_split sep s) as [|w [|w2 ws]].
    + cbn in Hj. rewrite <- Hj in H. discriminate.
    + cbn in Hj. subst w. inversion Hp; congruence.
    + f_equal. exact Hpre.
Qed.

End SplitFacts.

(** The suffix of the temporary file, from the name of the upload. *)
Lemma extension_spec (name : string) :
  Spec.contains "." (Expected.extension name) = false /\
  (Spec.contains "." name = false -> Expected.extension name = name) /\
  (Spec.contains "." name = true ->
   exists pre, name = pre +:+ "." +:+ Expected.extension name).
Proof.
  unfold Expected.extension. split; [|split].
  - pose proof (str_split_pieces "." name) as Hp.
    pose proof (str_split_not_nil "." name) as Hne.
    destruct (str_split "." name) as [|w ws] eqn:E; [congruence|].
    assert (In (List.last (w :: ws) "") (w :: ws)) as Hin.
    { clear. revert w. induction ws as [|x ws IH]; intros w; [now left|].
      right. apply IH. }
    rewrite Forall_forall in Hp. now apply Hp, list_elem_of_In.
  - intros H. now rewrite (str_split_whole _ _ H).
  - intros H. exact (str_split_last "." name H).
Qed.

Section OddConfidences.

Variable rt : runtime.

(** A confidence that is not a finite number stops the loop with the
    exception of [Expected.confidence_error]. *)
Lemma word_span_unusable (show_confidence : bool) (o : gmap string json)
      (v : json) (e : exn) :
  o !! "confidence" = Some v -> confidence_error v = Some e ->
  Demo.word_span rt show_confidence (JObj o) = Raise e /\ is_KeyError e = false.
Proof.
  intros Ho He. unfold Demo.word_span, getitem. rewrite Ho. cbn [rbind].
  destruct v as [|b|z|c|s|l|m]; cbn in He; try discriminate;
    try (injection He as <-; split; reflexivity).
  destruct c as [s|s| |s m e']; try discriminate; injection He as <-.
  - split; [|reflexivity]. destruct s; reflexivity.
  - split; reflexivity.
Qed.

Lemma display_unusable (results : json) (ws : list Spec.TranscriptWord)
      (good : list json) (o : gmap string json) (rest : list json)
      (v : json) (e : exn) (show_confidence : bool) (w : world) :
  Spec.resolve Spec.word_list_path results = Some (JArr (good ++ JObj o :: rest)) ->
  Forall2 Spec.json_word ws good ->
  Forall (fun w => Spec.in_unit (Spec.confidence w) = true) ws ->
  o !! "confidence" = Some v -> confidence_error v = Some e ->
  Demo.display_transcription rt results show_confidence w =
  (Raise e, shown [Markdown "### Transcription Result:" false] w).
Proof.
  intros Hres Hws Hall Ho He.
  destruct (word_span_unusable show_confidence o v e Ho He) as [Hk Hc].
  unfold Demo.display_transcription, try_except, bind, lift, markdown.
  rewrite (words_of_resolve _ _ Hres). rewrite !emit_shown. cbn [iter].
  rewrite words_html_app, (words_html_ok rt _ _ _ _ Hws Hall). cbn [rbind Demo.words_html].
  rewrite Hk. cbn [rbind]. rewrite Hc. reflexivity.
Qed.

(** The JSON integers 0 and 1 (and the booleans) as a confidence. *)
Lemma word_span_integer (show_confidence : bool) (o : gmap string json)
      (t : string) (v : json) (z : Z) :
  o !! "word" = Some (JStr t) -> o !! "confidence" = Some v ->
  as_number v = Some (PInt z) -> 0 <= z <= 1 ->
  Demo.word_span rt show_confidence (JObj o) =
    Ok (Spec.fragment show_confidence t (float_of_Z z)) /\
  Demo.detailed_line rt (JObj o) = Ok (t +:+ " (" +:+ format_2f (float_of_Z z) +:+ ")").
Proof.
  intros Hw Hc Hv Hz.
  unfold Demo.word_span, Demo.detailed_line, Demo.display_text, getitem.
  rewrite Hc, Hw. cbn [rbind str]. unfold operand, format_spec_2f. rewrite Hv. cbn [rbind].
  assert (z = 0 \/ z = 1) as [-> | ->] by lia; destruct show_confidence;
    split; vm_compute; reflexivity.
Qed.

End OddConfidences.

Section NothingToIterate.

Variable rt : runtime.

(** A word list with nothing to iterate over: an empty transcript and
    empty exports. *)
Lemma display_nothing (results v : json) (show_confidence : bool) (w : world) :
  Spec.resolve Spec.word_list_path results = Some v -> iter v = Ok [] ->
  Demo.display_transcription rt results show_confidence w =
  (Ok tt, shown (Spec.transcript_page show_confidence []) w).
Proof.
  intros Hres Hv.
  unfold Demo.display_transcription, try_except, bind, lift, markdown, download_button.
  rewrite (words_of_resolve _ _ Hres). rewrite !emit_shown. rewrite Hv.
  cbn [Demo.words_html]. rewrite emit_shown.
  unfold Demo.plain_text, Demo.detailed_text. rewrite Hv.
  cbn [rbind comprehension join join_items str_join]. rewrite !emit_shown.
  rewrite !shown_shown. reflexivity.
Qed.

End NothingToIterate.

Section Outcomes.

Variable rt : runtime.

(** A word that the loop rendered has both of its fields. *)
Lemma word_span_fields (show_confidence : bool) (v : json) (s : string) :
  Demo.word_span rt show_confidence v = Ok s ->
  (exists x, getitem v "word" = Ok x) /\ (exists c, getitem v "confidence" = Ok c).
Proof.
  unfold Demo.word_span. intros H.
  destruct (getitem v "confidence") as [c_|e]; [cbn [rbind] in H|discriminate].
  destruct (operand c_) as [c|e]; [cbn [rbind] in H|discriminate].
  destruct (Demo.rgb c) as [[[r g] b]|e]; [cbn [rbind] in H|discriminate].
  unfold Demo.display_text in H.
  destruct (getitem v "word") as [x|e]; [eauto|destruct show_confidence; discriminate].
Qed.

Lemma words_html_fields (show_confidence : bool) (items : list json) (html h : string) :
  Demo.words_html rt show_confidence items html = Ok h ->
  Forall (fun v => (exists x, getitem v "word" = Ok x) /\
                   (exists c, getitem v "confidence" = Ok c)) items.
Proof.
  revert html. induction items as [|v items IH]; intros html H; [constructor|].
  cbn [Demo.words_html] in H.
  destruct (Demo.word_span rt show_confidence v) as [s|e] eqn:Hs; [|discriminate].
  cbn [rbind] in H. constructor; [now apply word_span_fields with show_confidence s|].
  now apply IH with (html +:+ s).
Qed.

Lemma join_items_not_key (items : list json) (i : nat) (e : exn) :
  join_items i items = Raise e -> is_KeyError e = false.
Proof.
  revert i. induction items as [|v items IH]; intros i H; [discriminate|].
  cbn [join_items] in H.
  destruct v; try (injection H as <-; reflexivity).
  destruct (join_items (S i) items) as [l|e'] eqn:Hj; [discriminate|].
  cbn [rbind] in H. injection H as <-. now apply IH with (S i).
Qed.

(** The plain export of words that have their fields: a string, or an
    exception that is no [KeyError]. *)
Lemma plain_text_fields (words : json) (items : list json) :
  iter words = Ok items ->
  Forall (fun v => (exists x, getitem v "word" = Ok x) /\
                   (exists c, getitem v "confidence" = Ok c)) items ->
  (exists s, Demo.plain_text words = Ok s) \/
  (exists e, Demo.plain_text words = Raise e /\ is_KeyError e = false).
Proof.
  intros Hi Hall. unfold Demo.plain_text. rewrite Hi. cbn [rbind].
  assert (exists texts, comprehension (fun word => getitem word "word") items = Ok texts)
    as [texts ->].
  { clear Hi. induction Hall as [|v items [[x Hx] _] _ [texts IH]]; [now exists []|].
    exists (x :: texts). cbn [comprehension]. now rewrite Hx, IH. }
  cbn [rbind]. unfold join.
  destruct (join_items 0 texts) as [l|e] eqn:Hj; [left; eauto|].
  right. exists e. split; [reflexivity | now apply join_items_not_key with texts 0%nat].
Qed.

Lemma format_spec_2f_not_key (v : json) (e : exn) :
  format_spec_2f v = Raise e -> is_KeyError e = false.
Proof.
  unfold format_spec_2f. destruct (as_number v) as [[z|f]|] eqn:Hn.
  - cbn [fmt_2f]. unfold float_of_int.
    destruct (float_of_Z z); cbn [rbind]; intros H; try discriminate.
    injection H as <-. reflexivity.
  - discriminate.
  - destruct v; intros H; injection H as <-; reflexivity.
Qed.

Lemma detailed_text_fields (words : json) (items : list json) :
  iter words = Ok items ->
  Forall (fun v => (exists x, getitem v "word" = Ok x) /\
                   (exists c, getitem v "confidence" = Ok c)) items ->
  (exists s, Demo.detailed_text rt words = Ok s) \/
  (exists e, Demo.detailed_text rt words = Raise e /\ is_KeyError e = false).
Proof.
  intros Hi Hall. unfold Demo.detailed_text. rewrite Hi. cbn [rbind].
  assert ((exists lines, comprehension (Demo.detailed_line rt) items = Ok lines) \/
          (exists e, comprehension (Demo.detailed_line rt) items = Raise e /\
                     is_KeyError e = false)) as [[lines ->]|[e [-> He]]].
  { clear Hi. induction Hall as [|v items [[x Hx] [c Hc]] _ IH]; [left; now exists []|].
    cbn [comprehension]. unfold Demo.detailed_line at 1 3. rewrite Hx, Hc. cbn [rbind].
    destruct (format_spec_2f c) as [s|e] eqn:Hf; cbn [rbind].
    - destruct IH as [[lines ->]|[e [-> He]]]; cbn [rbind]; eauto.
    - right. exists e. split; [reflexivity | now apply format_spec_2f_not_key with c]. }
  - left. eauto.
  - right. eauto.
Qed.

Lemma iter_not_key (v : json) (e : exn) : iter v = Raise e -> is_KeyError e = false.
Proof. destruct v; intros H; try discriminate; injection H as <-; reflexivity. Qed.

(** What demo.py's renderer can do: a whole page, its own report of a
    missing key before any transcript, or an exception that is no
    [KeyError] with a part of the page drawn. *)
Lemma display_outcomes (results : json) (show_confidence : bool) (w : world) :
  (exists html plain detailed,
     Demo.display_transcription rt results show_confidence w =
     (Ok tt, shown [Markdown "### Transcription Result:" false; Markdown html true;
                    DownloadButton "Download Transcript (Text)" plain
                                   "transcript.txt" "text/plain";
                    DownloadButton "Download Detailed Transcript (with confidence scores)"
                                   detailed "detailed_transcript.txt" "text/plain"] w)) \/
  (exists msg before,
     (before = [] \/ before = [Markdown "### Transcription Result:" false]) /\
     Demo.display_transcription rt results show_confidence w =
     (Ok tt, shown (before ++ [Spec.parse_error msg; Json results]) w)) \/
  (exists e before,
     is_KeyError e = false /\
     Demo.display_transcription rt results show_confidence w = (Raise e, shown before w) /\
     (before = [] \/
      before = [Markdown "### Transcription Result:" false] \/
      (exists html, before = [Markdown "### Transcription Result:" false;
                              Markdown html true]) \/
      (exists html plain,
         before = [Markdown "### Transcription Result:" false; Markdown html true;
                   DownloadButton "Download Transcript (Text)" plain
                                  "transcript.txt" "text/plain"]))).
Proof.
  unfold Demo.display_transcription, try_except, bind, lift.
  destruct (Demo.words_of results) as [words|e] eqn:Hw.
  2:{ destruct (is_KeyError e) eqn:Hk.
      - right. left. exists (exn_str e), []. split; [now left|]. draw. reflexivity.
      - right. right. exists e, []. split; [exact Hk|]. rewrite shown_nil. auto. }
  draw.
  destruct (iter words) as [items|e] eqn:Hi.
  2:{ right. right. exists e, [Markdown "### Transcription Result:" false].
      split; [now apply iter_not_key with words|]. rewrite (iter_not_key _ _ Hi). auto. }
  destruct (Demo.words_html rt show_confidence items _) as [h|e] eqn:Hh.
  2:{ destruct (is_KeyError e) eqn:Hk.
      - right. left. exists (exn_str e), [Markdown "### Transcription Result:" false].
        split; [now right|]. draw. reflexivity.
      - right. right. exists e, [Markdown "### Transcription Result:" false]. auto. }
  pose proof (words_html_fields _ _ _ _ Hh) as Hall. draw.
  destruct (plain_text_fields words items Hi Hall) as [[plain ->]|[e [-> Hk]]].
  2:{ right. right. exists e. eexists. split; [exact Hk|]. rewrite Hk.
      split; [reflexivity|]. right. right. left. eauto. }
  draw.
  destruct (detailed_text_fields words items Hi Hall) as [[detailed ->]|[e [-> Hk]]].
  2:{ right. right. exists e. eexists. split; [exact Hk|]. rewrite Hk.
      split; [reflexivity|]. right. right. right. eauto. }
  draw. left. eauto.
Qed.

End Outcomes.

Section Loops2.

Variable show_confidence : bool.
Variable words : list Demo2.Word.

Lemma sentences_loop_app (a b : list Demo2.Sentence) (k : nat) (w : world) :
  Demo2.sentences_loop show_confidence words (a ++ b)%list k w =
  match Demo2.sentences_loop show_confidence words a k w with
  | (Ok k', w') => Demo2.sentences_loop show_confidence words b k' w'
  | (Raise e, w') => (Raise e, w')
  end.
Proof.
  revert k w. induction a as [|s a IH]; intros k w; [reflexivity|].
  cbn [app Demo2.sentences_loop]. unfold bind.
  destruct (Demo2.sentence_html show_confidence words s k w) as [[k'|e] w'];
    [apply IH|reflexivity].
Qed.

(** The two loops are one loop over the sentences of all paragraphs. *)
Lemma paragraphs_loop_flat (ps : list Demo2.Paragraph) (k : nat) (w : world) :
  Demo2.paragraphs_loop show_confidence words ps k w =
  Demo2.sentences_loop show_confidence words (all_sentences ps) k w.
Proof.
  revert k w. induction ps as [|p ps IH]; intros k w; [reflexivity|].
  cbn [Demo2.paragraphs_loop]. unfold all_sentences. cbn [fmap list_fmap concat].
  fold (fmap (M:=list) Demo2.sentences ps). fold (all_sentences ps).
  rewrite sentences_loop_app. unfold bind.
  destruct (Demo2.sentences_loop show_confidence words (Demo2.sentences p) k w)
    as [[k'|e] w']; [apply IH|reflexivity].
Qed.

(** The loop over sentences stops at the first sentence whose tokens raise:
    the sentences before it are drawn, one element each. *)
Lemma sentences_loop_drawn (ss : list Demo2.Sentence) (k : nat) :
  exists done rest els k',
    ss = (done ++ rest)%list /\ drawn show_confidence words k done els k' /\
    ((rest = [] /\
      forall w, Demo2.sentences_loop show_confidence words ss k w = (Ok k', shown els w)) \/
     (exists s rest' e,
        rest = s :: rest' /\
        Demo2.tokens_html show_confidence words (str_split " " (Demo2.text s))
                          sentence_open k' = Raise e /\
        forall w, Demo2.sentences_loop show_confidence words ss k w =
                  (Raise e, shown els w))).
Proof.
  revert k. induction ss as [|s ss IH]; intros k.
  - exists [], [], [], k. split; [reflexivity|]. split; [constructor|]. left.
    split; [reflexivity|]. intros w. cbn. unfold ret. now rewrite shown_nil.
  - destruct (Demo2.tokens_html show_confidence words (str_split " " (Demo2.text s))
                sentence_open k) as [[html k1]|e] eqn:Ht.
    + destruct (IH k1) as (done & rest & els & k' & -> & Hd & Hcase).
      exists (s :: done), rest, (Markdown (html +:+ "</div>") true :: els), k'.
      split; [reflexivity|]. split; [econstructor; eassumption|].
      assert (forall w, Demo2.sentences_loop show_confidence words (s :: done ++ rest) k w =
                        Demo2.sentences_loop show_confidence words (done ++ rest) k1
                          (shown [Markdown (html +:+ "</div>") true] w)) as Hstep.
      { intros w. cbn [Demo2.sentences_loop]. unfold bind at 1, Demo2.sentence_html.
        unfold bind at 1, lift. fold sentence_open. rewrite Ht. cbn [fst snd].
        unfold bind at 1. draw. reflexivity. }
      destruct Hcase as [[-> Hok]|(s' & rest' & e & -> & He & Hr)].
      * left. split; [reflexivity|]. intros w. cbn [app]. rewrite Hstep, Hok.
        now rewrite shown_shown.
      * right. exists s', rest', e. split; [reflexivity|]. split; [exact He|].
        intros w. cbn [app]. rewrite Hstep, Hr. now rewrite shown_shown.
    + exists [], (s :: ss), [], k. split; [reflexivity|]. split; [constructor|].
      right. exists s, ss, e. split; [reflexivity|]. split; [exact Ht|].
      intros w. cbn [Demo2.sentences_loop]. unfold bind at 1, Demo2.sentence_html.
      unfold bind at 1, lift. fold sentence_open. rewrite Ht. now rewrite shown_nil.
Qed.

Lemma drawn_markdown (k : nat) (done : list Demo2.Sentence) (els : list element) (k' : nat) :
  drawn show_confidence words k done els k' ->
  Forall2 (fun (_ : Demo2.Sentence) x => exists html, x = Markdown html true) done els.
Proof. induction 1; constructor; eauto. Qed.

Lemma int_of_float_raises (f : spec_float) (e : exn) :
  int_of_float f = Raise e -> colour_error e.
Proof.
  destruct f; cbn; intros H; try discriminate; injection H as <-;
    [now right | now left].
Qed.

Lemma rgb2_raises (c : spec_float) (e : exn) : Demo2.rgb c = Raise e -> colour_error e.
Proof.
  unfold Demo2.rgb. intros H.
  destruct (int_of_float (fmul f255 (fsub f1 c))) as [r|e1] eqn:H1.
  - cbn [rbind] in H.
    destruct (int_of_float (fmul f255 c)) as [g|e2] eqn:H2; [discriminate|].
    cbn [rbind] in H. injection H as <-. now apply int_of_float_raises with (fmul f255 c).
  - cbn [rbind] in H. injection H as <-.
    now apply int_of_float_raises with (fmul f255 (fsub f1 c)).
Qed.

Lemma tokens_html_raises (tokens : list string) (html : string) (k : nat) (e : exn) :
  Demo2.tokens_html show_confidence words tokens html k = Raise e -> colour_error e.
Proof.
  revert html k. induction tokens as [|t tokens IH]; intros html k H; [discriminate|].
  cbn [Demo2.tokens_html] in H.
  destruct (Demo2.token_span show_confidence words t html k) as [hw|e'] eqn:Hs.
  - cbn [rbind] in H. now apply IH with (fst hw) (snd hw).
  - cbn [rbind] in H. injection H as <-. unfold Demo2.token_span in Hs.
    destruct (k <? length words)%nat eqn:Hk; [|discriminate].
    apply Nat.ltb_lt in Hk. destruct (lookup_lt_is_Some_2 words k Hk) as [x Hx].
    rewrite Hx in Hs.
    destruct (Demo2.rgb (Demo2.confidence x)) as [[[r g] b]|e1] eqn:Hr; [discriminate|].
    cbn [rbind] in Hs. injection Hs as <-. now apply rgb2_raises with (Demo2.confidence x).
Qed.

End Loops2.

(** What demo2.py's renderer does with a response. *)
Lemma display2_classified (response : Demo2.PrerecordedResponse) (show_confidence : bool) :
  (exists e,
     (Demo2.alternative0 (Demo2.results response) = Raise e \/
      exists a, Demo2.alternative0 (Demo2.results response) = Ok a /\
                Demo2.paragraphs_of a = Raise e) /\
     forall w,
       Demo2.display_transcription response show_confidence w =
       (Ok tt, shown (Markdown "### Transcription Result:" false ::
                      report (exn_str e) (Demo2.to_dict response)) w)) \/
  (exists a ps done rest sentences k,
     Demo2.alternative0 (Demo2.results response) = Ok a /\
     Demo2.paragraphs_of a = Ok ps /\
     all_sentences ps = (done ++ rest)%list /\
     drawn show_confidence (Demo2.words a) 0 done sentences k /\
     ((rest = [] /\
       forall w,
         Demo2.display_transcription response show_confidence w =
         (Ok tt, shown (Markdown "### Transcription Result:" false ::
                        sentences ++ sdk_downloads (Demo2.words a)) w)) \/
      (exists s rest' e,
         rest = s :: rest' /\
         Demo2.tokens_html show_confidence (Demo2.words a)
                           (str_split " " (Demo2.text s)) sentence_open k = Raise e /\
         colour_error e /\
         forall w,
           Demo2.display_transcription response show_confidence w =
           (Ok tt, shown (Markdown "### Transcription Result:" false ::
                          sentences ++ report (exn_str e) (Demo2.to_dict response)) w)))).
Proof.
  destruct (Demo2.alternative0 (Demo2.results response)) as [a|e] eqn:Ha.
  2:{ left. exists e. split; [now left|]. intros w.
      unfold Demo2.display_transcription. rewrite try_except_all.
      unfold bind, lift. draw. rewrite Ha. draw. reflexivity. }
  destruct (Demo2.paragraphs_of a) as [ps|e] eqn:Hp.
  2:{ left. exists e. split; [right; eauto|]. intros w.
      unfold Demo2.display_transcription. rewrite try_except_all.
      unfold bind, lift. draw. rewrite Ha, Hp. draw. reflexivity. }
  right.
  destruct (sentences_loop_drawn show_confidence (Demo2.words a) (all_sentences ps) 0)
    as (done & rest & els & k & Hall & Hd & Hcase).
  exists a, ps, done, rest, els, k.
  split; [reflexivity|]. split; [exact Hp|]. split; [exact Hall|]. split; [exact Hd|].
  destruct Hcase as [[-> Hok]|(s & rest' & e & -> & He & Hr)].
  - left. split; [reflexivity|]. intros w.
    unfold Demo2.display_transcription. rewrite try_except_all.
    unfold bind, lift. draw. rewrite Ha, Hp, paragraphs_loop_flat, Hok. draw.
    rewrite ?shown_shown. reflexivity.
  - right. exists s, rest', e. split; [reflexivity|]. split; [exact He|].
    split; [now apply tokens_html_raises in He|]. intros w.
    unfold Demo2.display_transcription. rewrite try_except_all.
    unfold bind, lift. draw. rewrite Ha, Hp, paragraphs_loop_flat, Hr. draw.
    rewrite ?shown_shown. reflexivity.
Qed.

Lemma parse_error_not_flow (msg msg' : string) : Spec.parse_error msg <> flow_error msg'.
Proof. unfold Spec.parse_error, flow_error. intros H. discriminate H. Qed.

(** The renderer of demo2.py draws the same elements in every state, and
    the flow's error message is not among them. *)
Lemma display2_fixed (response : Demo2.PrerecordedResponse) (show_confidence : bool) :
  exists els,
    (forall w, Demo2.display_transcription response show_confidence w =
               (Ok tt, shown els w)) /\
    Forall (fun x => forall msg, x <> flow_error msg) els.
Proof.
  destruct (display2_classified response show_confidence)
    as [(e & _ & H)|(a & ps & done & rest & els & k & _ & _ & _ & Hd & Hcase)].
  - eexists. split; [exact H|]. unfold report.
    repeat constructor; intros msg; first [discriminate | apply parse_error_not_flow].
  - assert (Forall (fun x => forall msg, x <> flow_error msg) els) as Hels.
    { apply drawn_markdown in Hd. clear -Hd.
      induction Hd as [|s x ss els [html ->] _ IH]; constructor; [|exact IH].
      intros msg; discriminate. }
    destruct Hcase as [[_ H]|(s & rest' & e & _ & _ & _ & H)].
    + eexists. split; [exact H|]. constructor; [intros msg; discriminate|].
      apply Forall_app. split; [exact Hels|].
      unfold sdk_downloads. repeat constructor; intros msg; discriminate.
    + eexists. split; [exact H|]. constructor; [intros msg; discriminate|].
      apply Forall_app. split; [exact Hels|].
      unfold report.
      repeat constructor; intros msg; first [discriminate | apply parse_error_not_flow].
Qed.

Section Shape.

Variable rt : runtime.

Lemma int_of_float_finite (f : spec_float) :
  (exists z, int_of_float f = Ok z) <-> Spec.is_finite f = true.
Proof.
  destruct f; cbn; split; intros H; try reflexivity; try discriminate; eauto;
    destruct H as [z H]; discriminate.
Qed.

(** An entry of the word list is drawn, joined and exported. *)
Lemma word_entry_ok (show_confidence : bool) (v : json) :
  Spec.word_entry v = true ->
  (exists s, Demo.word_span rt show_confidence v = Ok s) /\
  (exists t, getitem v "word" = Ok (JStr t)) /\
  (exists l, Demo.detailed_line rt v = Ok l).
Proof.
  destruct v as [| | | | |l|o]; try discriminate. cbn [Spec.word_entry].
  destruct (o !! "word") as [[| | | |t| |]|] eqn:Hw; try discriminate.
  destruct (o !! "confidence") as [c|] eqn:Hc; [|discriminate].
  unfold Spec.drawable. intros H.
  unfold Demo.word_span, Demo.detailed_line, Demo.display_text, getitem,
    operand, format_spec_2f.
  rewrite Hw, Hc. cbn [rbind].
  destruct (as_number c) as [[z|x]|]; [| |discriminate].
  - cbn [rbind Demo.rgb one_minus times_255 int fmt_2f]. unfold float_of_int.
    destruct (float_of_Z z); try discriminate;
      (split; [destruct show_confidence; cbn [rbind]; eauto|split; cbn [rbind]; eauto]).
  - apply andb_true_iff in H as [H1 H2].
    apply int_of_float_finite in H1 as [r Hr], H2 as [g Hg].
    unfold Demo.rgb. cbn [rbind one_minus times_255 int fmt_2f]. rewrite Hr, Hg. cbn [rbind].
    split; [destruct show_confidence; cbn [rbind]; eauto|split; eauto].
Qed.

(** The converse: what was drawn, joined and exported is an entry. *)
Lemma word_entry_back (show_confidence : bool) (v : json) (s t l : string) :
  Demo.word_span rt show_confidence v = Ok s ->
  getitem v "word" = Ok (JStr t) ->
  Demo.detailed_line rt v = Ok l ->
  Spec.word_entry v = true.
Proof.
  destruct v as [| | | | |l0|o]; try discriminate. cbn [getitem Spec.word_entry].
  unfold Demo.word_span, Demo.detailed_line, getitem, operand, format_spec_2f.
  destruct (o !! "word") as [x|] eqn:Hw; [|discriminate].
  intros Hs Ht. injection Ht as ->.
  destruct (o !! "confidence") as [c|] eqn:Hc; [|discriminate].
  cbn [rbind] in *. unfold Spec.drawable.
  destruct (as_number c) as [[z|x]|]; [| |discriminate].
  - cbn [rbind fmt_2f]. unfold float_of_int.
    destruct (float_of_Z z); try reflexivity. discriminate.
  - intros _. unfold Demo.rgb in Hs. cbn [rbind one_minus times_255 int] in Hs.
    destruct (int_of_float (fmul f255 (fsub f1 x))) as [r|e] eqn:Hr; [|discriminate].
    cbn [rbind] in Hs.
    destruct (int_of_float (fmul f255 x)) as [g|e] eqn:Hg; [|discriminate].
    apply andb_true_iff. split; apply int_of_float_finite; eauto.
Qed.

Lemma words_html_entries (show_confidence : bool) (items : list json) (html : string) :
  forallb Spec.word_entry items = true ->
  exists h, Demo.words_html rt show_confidence items html = Ok h.
Proof.
  revert html. induction items as [|v items IH]; intros html H; [cbn; eauto|].
  cbn [forallb] in H. apply andb_true_iff in H as [Hv H].
  destruct (word_entry_ok show_confidence v Hv) as [[s Hs] _].
  cbn [Demo.words_html]. rewrite Hs. cbn [rbind]. now apply IH.
Qed.

Lemma plain_text_entries (words : json) (items : list json) :
  iter words = Ok items -> forallb Spec.word_entry items = true ->
  exists s, Demo.plain_text words = Ok s.
Proof.
  intros Hi H. unfold Demo.plain_text, join. rewrite Hi. cbn [rbind].
  assert (exists l, comprehension (fun word => getitem word "word") items = Ok (JStr <$> l))
    as [l ->].
  { clear Hi. induction items as [|v items IH]; [now exists []|].
    cbn [forallb] in H. apply andb_true_iff in H as [Hv H].
    destruct (word_entry_ok false v Hv) as (_ & [t Ht] & _).
    destruct (IH H) as [l Hl]. exists (t :: l).
    cbn [comprehension]. now rewrite Ht, Hl. }
  cbn [rbind]. rewrite join_items_strings. cbn [rbind]. eauto.
Qed.

Lemma detailed_text_entries (words : json) (items : list json) :
  iter words = Ok items -> forallb Spec.word_entry items = true ->
  exists s, Demo.detailed_text rt words = Ok s.
Proof.
  intros Hi H. unfold Demo.detailed_text. rewrite Hi. cbn [rbind].
  assert (exists l, comprehension (Demo.detailed_line rt) items = Ok l) as [l ->].
  { clear Hi. induction items as [|v items IH]; [now exists []|].
    cbn [forallb] in H. apply andb_true_iff in H as [Hv H].
    destruct (word_entry_ok false v Hv) as (_ & _ & [t Ht]).
    destruct (IH H) as [l Hl]. exists (t :: l).
    cbn [comprehension]. now rewrite Ht, Hl. }
  cbn [rbind]. eauto.
Qed.

Lemma words_html_spans (show_confidence : bool) (items : list json) (html h : string) :
  Demo.words_html rt show_confidence items html = Ok h ->
  Forall (fun v => exists s, Demo.word_span rt show_confidence v = Ok s) items.
Proof.
  revert html. induction items as [|v items IH]; intros html H; [constructor|].
  cbn [Demo.words_html] in H.
  destruct (Demo.word_span rt show_confidence v) as [s|e] eqn:Hs; [|discriminate].
  cbn [rbind] in H. constructor; [eauto|]. now apply IH with (html +:+ s).
Qed.

Lemma comprehension_ok {A B} (f : A -> result B) (items : list A) (l : list B) :
  comprehension f items = Ok l -> Forall2 (fun x y => f x = Ok y) items l.
Proof.
  revert l. induction items as [|x items IH]; intros l H.
  - injection H as <-. constructor.
  - cbn [comprehension] in H. destruct (f x) as [y|] eqn:Hx; [|discriminate].
    cbn [rbind] in H. destruct (comprehension f items) as [ys|]; [|discriminate].
    cbn [rbind] in H. injection H as <-. constructor; [exact Hx|]. now apply IH.
Qed.

Lemma join_items_ok (texts : list json) (i : nat) (l : list string) :
  join_items i texts = Ok l -> texts = JStr <$> l.
Proof.
  revert i l. induction texts as [|v texts IH]; intros i l H.
  - injection H as <-. reflexivity.
  - cbn [join_items] in H. destruct v; try discriminate.
    destruct (join_items (S i) texts) as [l'|] eqn:Hj; [|discriminate].
    cbn [rbind] in H. injection H as <-. cbn [fmap list_fmap]. f_equal.
    now apply IH with (S i).
Qed.

(** A word list that was drawn, joined and exported holds entries only. *)
Lemma entries_back (show_confidence : bool) (words : json) (items : list json)
      (html h plain detailed : string) :
  iter words = Ok items ->
  Demo.words_html rt show_confidence items html = Ok h ->
  Demo.plain_text words = Ok plain ->
  Demo.detailed_text rt words = Ok detailed ->
  forallb Spec.word_entry items = true.
Proof.
  intros Hi Hh Hp Hd. apply words_html_spans in Hh.
  unfold Demo.plain_text, join in Hp. rewrite Hi in Hp. cbn [rbind] in Hp.
  destruct (comprehension (fun word => getitem word "word") items) as [texts|] eqn:Hc;
    [|discriminate].
  cbn [rbind] in Hp. destruct (join_items 0 texts) as [l|] eqn:Hj; [|discriminate].
  apply join_items_ok in Hj. subst texts. apply comprehension_ok in Hc.
  unfold Demo.detailed_text in Hd. rewrite Hi in Hd. cbn [rbind] in Hd.
  destruct (comprehension (Demo.detailed_line rt) items) as [lines|] eqn:Hl;
    [|discriminate].
  apply comprehension_ok in Hl. clear Hi Hp Hd.
  revert l lines Hc Hl. induction Hh as [|v items [s Hs] _ IH]; intros l lines Hc Hl;
    [reflexivity|].
  destruct l as [|t l]; inversion Hc; subst.
  inversion Hl; subst. cbn [forallb]. apply andb_true_iff. split.
  - eapply word_entry_back; eassumption.
  - eapply IH; eassumption.
Qed.

Lemma words_of_path (j words : json) :
  Demo.words_of j = Ok words <-> Spec.resolve Spec.word_list_path j = Some words.
Proof.
  split; [|apply words_of_resolve]. intros H.
  destruct (Spec.resolve Spec.word_list_path j) as [x|] eqn:Hr.
  - rewrite (words_of_resolve _ _ Hr) in H. congruence.
  - destruct (words_of_unresolved _ Hr) as [e He]. congruence.
Qed.

(** What demo.py's renderer does, by the shape of the decoded body: the
    whole page for a body of the word-list shape, and otherwise its own
    report with the payload or an exception that is no [KeyError]. *)
Lemma display_by_shape (j : json) (show_confidence : bool) (w : world) :
  if Spec.word_list_shape j then
    exists html plain detailed,
      Demo.display_transcription rt j show_confidence w =
      (Ok tt, shown [Markdown "### Transcription Result:" false; Markdown html true;
                     DownloadButton "Download Transcript (Text)" plain
                                    "transcript.txt" "text/plain";
                     DownloadButton "Download Detailed Transcript (with confidence scores)"
                                    detailed "detailed_transcript.txt" "text/plain"] w)
  else
    (exists msg before,
       (before = [] \/ before = [Markdown "### Transcription Result:" false]) /\
       Demo.display_transcription rt j show_confidence w =
       (Ok tt, shown (before ++ [Spec.parse_error msg; Json j]) w)) \/
    (exists e before,
       is_KeyError e = false /\ shows_error before = false /\
       Demo.display_transcription rt j show_confidence w = (Raise e, shown before w)).
Proof.
  unfold Spec.word_list_shape.
  unfold Demo.display_transcription, try_except, bind, lift.
  destruct (Demo.words_of j) as [words|e] eqn:Hw.
  2:{ destruct (Spec.resolve Spec.word_list_path j) as [x|] eqn:Hr.
      { rewrite (words_of_resolve _ _ Hr) in Hw. discriminate. }
      destruct (is_KeyError e) eqn:Hk.
      - left. exists (exn_str e), []. split; [now left|]. draw. reflexivity.
      - right. exists e, []. rewrite shown_nil. auto. }
  apply words_of_path in Hw. rewrite Hw. draw.
  destruct (iter words) as [items|e] eqn:Hi.
  2:{ right. exists e, [Markdown "### Transcription Result:" false].
      rewrite (iter_not_key _ _ Hi). auto. }
  destruct (forallb Spec.word_entry items) eqn:Hshape.
  - destruct (words_html_entries show_confidence items
                ("<div style=" +:+ dq +:+ "line-height: 2.5;" +:+ dq +:+ ">") Hshape)
      as [h ->].
    destruct (plain_text_entries words items Hi Hshape) as [plain ->].
    destruct (detailed_text_entries words items Hi Hshape) as [detailed ->].
    draw. eauto.
  - destruct (Demo.words_html rt show_confidence items _) as [h|e] eqn:Hh.
    2:{ destruct (is_KeyError e) eqn:Hk.
        - left. exists (exn_str e), [Markdown "### Transcription Result:" false].
          split; [now right|]. draw. reflexivity.
        - right. exists e, [Markdown "### Transcription Result:" false]. auto. }
    pose proof (words_html_fields _ _ _ _ _ Hh) as Hall. draw.
    destruct (plain_text_fields words items Hi Hall) as [[plain Hp]|[e [-> Hk]]].
    2:{ right. exists e. eexists. rewrite Hk. split; [reflexivity|].
        split; [|reflexivity]. reflexivity. }
    rewrite Hp. draw.
    destruct (detailed_text_fields rt words items Hi Hall) as [[detailed Hd]|[e [-> Hk]]].
    2:{ right. exists e. eexists. rewrite Hk. split; [reflexivity|].
        split; [|reflexivity]. reflexivity. }
    rewrite (entries_back show_confidence words items _ h plain detailed Hi Hh Hp Hd)
      in Hshape. discriminate.
Qed.

End Shape.

Section FlowShape.

Variable rt : runtime.
Variable provider : Demo.http_request -> Demo.http_outcome.
Variable tmp_stem : string.

Lemma shows_error_app (a b : list element) :
  shows_error (a ++ b)%list = shows_error a || shows_error b.
Proof. apply existsb_app. Qed.

(** The flow of demo.py after an answer that decodes, by the shape of the
    decoded body. *)
Lemma main_by_shape (i : inputs) (f : UploadedFile) (w : world)
      (status : Z) (data : bytes) (j : json) :
  Spec.ready i f -> files w !! Spec.tmp_path tmp_stem f = None ->
  provider (Flow.the_request (getvalue f) (api_key i)) = Demo.Response status data ->
  json_loads rt data = Ok j ->
  exists added,
    Demo.main rt provider tmp_stem i w =
    (Ok tt, World (page w ++ Spec.flow_head ++ added) (files w) (S (provider_calls w))) /\
    shows_error added = negb (Spec.word_list_shape j) /\
    (Spec.word_list_shape j = true ->
     exists html plain detailed,
       added =
       ([Markdown "### Transcription Result:" false; Markdown html true;
         DownloadButton "Download Transcript (Text)" plain "transcript.txt" "text/plain";
         DownloadButton "Download Detailed Transcript (with confidence scores)"
                        detailed "detailed_transcript.txt" "text/plain"] ++
        raw_response j)%list) /\
    (Spec.word_list_shape j = false ->
     (exists before msg,
        (before = [] \/ before = [Markdown "### Transcription Result:" false]) /\
        added = (before ++ [Spec.parse_error msg; Json j] ++ raw_response j)%list) \/
     (exists before e,
        shows_error before = false /\
        added = (before ++ [flow_error (exn_str e)])%list)).
Proof.
  intros Hr Hfresh Hp Hj.
  pose proof (display_by_shape rt j (show_confidence i)
                (Flow.called (Flow.staged (Spec.tmp_path tmp_stem f) f w))) as H.
  destruct (Spec.word_list_shape j).
  - destruct H as (html & plain & detailed & H).
    eexists. split; [exact (main_displayed rt provider tmp_stem i f w status data j _ _
                              Hr Hfresh Hp Hj H)|].
    split; [reflexivity|]. split; [eauto|discriminate].
  - destruct H as [(msg & before & Hb & H)|(e & before & Hk & Hb & H)].
    + eexists. split; [exact (main_displayed rt provider tmp_stem i f w status data j _ _
                                Hr Hfresh Hp Hj H)|].
      split; [|split; [discriminate|]].
      * destruct Hb as [-> | ->]; reflexivity.
      * intros _. left. exists before, msg. split; [exact Hb|].
        now rewrite <- app_assoc.
    + eexists. split; [exact (main_displayed rt provider tmp_stem i f w status data j _ _
                                Hr Hfresh Hp Hj H)|].
      split; [|split; [discriminate|]].
      * rewrite shows_error_app, Hb. reflexivity.
      * intros _. right. eauto.
Qed.

End FlowShape.

(** The flow does not look at the status either. *)
Lemma main_status rt (p1 p2 : Demo.http_request -> Demo.http_outcome)
      (tmp_stem : string) (i : inputs) (f : UploadedFile) (w : world) :
  Spec.ready i f -> files w !! Spec.tmp_path tmp_stem f = None ->
  (forall req, Spec.same_but_status (p1 req) (p2 req)) ->
  Demo.main rt p1 tmp_stem i w = Demo.main rt p2 tmp_stem i w.
Proof.
  intros Hr Hfresh Hs.
  rewrite (main_ready rt p1 _ _ _ _ Hr Hfresh), (main_ready rt p2 _ _ _ _ Hr Hfresh).
  unfold Flow.after_flow, Flow.body, bind.
  now rewrite (transcribe_audio_status rt p1 p2 _ _ _ Hs).
Qed.

(* ===================================================================== *)
(** * Rounding to the nearest double keeps the order *)
(* ===================================================================== *)

Import Scaled.

Section HalfEven.

Variable D : Z.
Hypothesis Dpos : 0 < D.

Lemma rhe_cases (a : Z) :
  round_half_even a D = a / D \/ round_half_even a D = a / D + 1.
Proof.
  unfold round_half_even. destruct (2 * (a mod D) ?= D); auto.
  destruct (Z.even (a / D)); auto.
Qed.

(** Rounding leaves a multiple where it is. *)
Lemma rhe_multiple (q : Z) : round_half_even (q * D) D = q.
Proof.
  unfold round_half_even. rewrite Z.div_mul, Z.mod_mul by lia.
  rewrite Z.mul_0_r. destruct (Z.compare_spec 0 D); lia.
Qed.

(** Rounding keeps the order. *)
Lemma rhe_mono (a b : Z) : a <= b -> round_half_even a D <= round_half_even b D.
Proof.
  intros Hab.
  pose proof (Z.div_le_mono a b D Dpos Hab) as Hq.
  destruct (Z.eq_dec (a / D) (b / D)) as [Heq|Hne].
  - pose proof (Z.div_mod a D ltac:(lia)) as Ha.
    pose proof (Z.div_mod b D ltac:(lia)) as Hb.
    assert (a mod D <= b mod D) as Hr by (rewrite Heq in Ha; lia).
    unfold round_half_even. rewrite Heq.
    destruct (Z.compare_spec (2 * (a mod D)) D), (Z.compare_spec (2 * (b mod D)) D);
      try lia; destruct (Z.even (b / D)); lia.
  - destruct (rhe_cases a) as [-> | ->], (rhe_cases b) as [-> | ->]; lia.
Qed.

Lemma rhe_nonneg (a : Z) : 0 <= a -> 0 <= round_half_even a D.
Proof.
  intros Ha. pose proof (Z.div_pos a D Ha Dpos). destruct (rhe_cases a) as [-> | ->]; lia.
Qed.

(** Rounding does not depend on the unit. *)
Lemma rhe_scale (a c : Z) : 0 < c -> round_half_even (a * c) (D * c) = round_half_even a D.
Proof.
  intros Hc. unfold round_half_even.
  rewrite Z.div_mul_cancel_r by lia. rewrite Z.mul_mod_distr_r by lia.
  replace (2 * (a mod D * c)) with (2 * (a mod D) * c) by lia.
  destruct (Z.compare_spec (2 * (a mod D) * c) (D * c)),
    (Z.compare_spec (2 * (a mod D)) D); try reflexivity; nia.
Qed.

End HalfEven.

Section ShiftLocation.

Lemma shr_1_r (mrs : shr_record) :
  0 <= shr_m mrs -> shr_r (shr_1 mrs) = Z.odd (shr_m mrs).
Proof.
  destruct mrs as [m r s]; cbn [shr_m]. intros Hm.
  destruct m as [|[p|p|]|p]; cbn [shr_1 shr_r Z.odd]; try lia; reflexivity.
Qed.

Lemma shr_1_s (mrs : shr_record) :
  shr_s (shr_1 mrs) = shr_r mrs || shr_s mrs.
Proof.
  destruct mrs as [m r s]. destruct m as [|[p|p|]|[p|p|]]; reflexivity.
Qed.

Lemma odd_bit (a : Z) : Z.odd a = negb (a mod 2 =? 0).
Proof.
  rewrite Zmod_odd. destruct (Z.odd a); reflexivity.
Qed.

(** The low [j + 1] bits: the low [j] bits and the bit above them. *)
Lemma mod_pow2_succ (M j : Z) :
  0 <= j ->
  M mod 2 ^ (j + 1) = M mod 2 ^ j + 2 ^ j * ((M / 2 ^ j) mod 2).
Proof.
  intros Hj. rewrite Z.pow_add_r by lia. change (2 ^ 1) with 2.
  assert (0 < 2 ^ j) by (apply Z.pow_pos_nonneg; lia).
  rewrite Z.rem_mul_r by lia. reflexivity.
Qed.

Lemma tracks_start (M : Z) : tracks M 0 (shr_record_of_loc M loc_Exact).
Proof.
  split; [cbn; now rewrite Z.div_1_r|]. split; [intros _; split; reflexivity | lia].
Qed.

Lemma tracks_step (M j : Z) (mrs : shr_record) :
  0 <= M -> 0 <= j -> tracks M j mrs -> tracks M (j + 1) (shr_1 mrs).
Proof.
  intros HM Hj (Hm & H0 & Hpos).
  assert (0 < 2 ^ j) as Hpj by (apply Z.pow_pos_nonneg; lia).
  assert (0 <= shr_m mrs) as Hm0 by (rewrite Hm; apply Z.div_pos; lia).
  split; [|split; [lia|intros _]].
  - rewrite shr_1_m by lia. rewrite Hm, Z.div_div by lia.
    rewrite Z.pow_add_r by lia. reflexivity.
  - replace (j + 1 - 1) with j by lia. split.
    + rewrite shr_1_r by lia. now rewrite Hm.
    + rewrite shr_1_s.
      destruct (Z.eq_dec j 0) as [->|Hne].
      * destruct (H0 eq_refl) as [-> ->]. cbn. now rewrite Z.mod_1_r.
      * destruct (Hpos ltac:(lia)) as [-> ->].
        pose proof (mod_pow2_succ M (j - 1) ltac:(lia)) as Hs.
        replace (j - 1 + 1) with j in Hs by lia. rewrite Hs.
        rewrite odd_bit.
        assert (0 < 2 ^ (j - 1)) as Hp1 by (apply Z.pow_pos_nonneg; lia).
        pose proof (Z.mod_pos_bound M (2 ^ (j - 1)) Hp1) as Hlow.
        pose proof (Z.mod_pos_bound (M / 2 ^ (j - 1)) 2 ltac:(lia)) as Hb.
        destruct (Z.eqb_spec ((M / 2 ^ (j - 1)) mod 2) 0) as [E|E];
          destruct (Z.eqb_spec (M mod 2 ^ (j - 1)) 0) as [E2|E2]; cbn [negb orb];
          symmetry; try (apply negb_true_iff, Z.eqb_neq; nia);
          apply negb_false_iff, Z.eqb_eq; nia.
Qed.

Lemma tracks_iter (p : positive) (M j : Z) (mrs : shr_record) :
  0 <= M -> 0 <= j -> tracks M j mrs ->
  tracks M (j + Zpos p) (SpecFloat.iter_pos shr_1 p mrs).
Proof.
  intros HM. revert j mrs.
  induction p as [p IH|p IH|]; intros j mrs Hj Ht; cbn [SpecFloat.iter_pos].
  - replace (j + Zpos p~1) with (j + 1 + Zpos p + Zpos p) by lia.
    apply IH; [lia|]. apply IH; [lia|]. now apply tracks_step.
  - replace (j + Zpos p~0) with (j + Zpos p + Zpos p) by lia.
    apply IH; [lia|]. now apply IH.
  - now apply tracks_step.
Qed.

(** Rounding a tracked record to nearest even is rounding the quotient
    [M / 2^k] half to even. *)
Lemma tracks_round (M k : Z) (mrs : shr_record) :
  0 <= M -> 0 <= k -> tracks M k mrs ->
  round_nearest_even (shr_m mrs) (loc_of_shr_record mrs) = round_half_even M (2 ^ k).
Proof.
  intros HM Hk (Hm & H0 & Hpos). unfold round_half_even.
  destruct (Z.eq_dec k 0) as [->|Hne].
  - destruct (H0 eq_refl) as [Hr Hs]. destruct mrs as [m r s]. cbn in *. subst.
    change (2 ^ 0) with 1. rewrite Z.mod_1_r, Z.div_1_r. reflexivity.
  - destruct (Hpos ltac:(lia)) as [Hr Hs]. clear H0 Hpos.
    assert (0 < 2 ^ (k - 1)) as Hp1 by (apply Z.pow_pos_nonneg; lia).
    assert (2 ^ k = 2 ^ (k - 1) * 2) as Hpk.
    { replace k with (k - 1 + 1) at 1 by lia. now rewrite Z.pow_add_r by lia. }
    pose proof (mod_pow2_succ M (k - 1) ltac:(lia)) as Hmod.
    replace (k - 1 + 1) with k in Hmod by lia.
    pose proof (Z.mod_pos_bound M (2 ^ (k - 1)) Hp1) as Hlow.
    pose proof (Z.mod_pos_bound (M / 2 ^ (k - 1)) 2 ltac:(lia)) as Hb.
    rewrite odd_bit in Hr.
    destruct mrs as [m r s]. cbn [shr_m shr_r shr_s] in *. subst m.
    remember (M mod 2 ^ (k - 1)) as low. remember ((M / 2 ^ (k - 1)) mod 2) as b.
    remember (2 ^ (k - 1)) as h. rewrite Hmod. rewrite Hpk.
    destruct (Z.eqb_spec b 0) as [Eb|Eb]; destruct (Z.eqb_spec low 0) as [El|El];
      cbn [negb] in Hr, Hs; subst r s; cbn [loc_of_shr_record round_nearest_even].
    + destruct (Z.compare_spec (2 * (low + h * b)) (h * 2)); nia.
    + destruct (Z.compare_spec (2 * (low + h * b)) (h * 2)); nia.
    + destruct (Z.compare_spec (2 * (low + h * b)) (h * 2)); first [reflexivity | nia].
    + destruct (Z.compare_spec (2 * (low + h * b)) (h * 2)); nia.
Qed.

(** The mantissa [shr_fexp] hands to the rounding, rounded. *)
Lemma shr_fexp_round (m e : Z) :
  0 <= m ->
  let r := shr_fexp prec emax m e loc_Exact in
  round_nearest_even (shr_m (fst r)) (loc_of_shr_record (fst r)) =
  round_half_even m (2 ^ (snd r - e)).
Proof.
  intros Hm. unfold shr_fexp, shr.
  destruct (fexp prec emax (Zdigits2 m + e) - e) as [|p|p] eqn:Hd; cbn [fst snd].
  - replace (e - e) with 0 by lia. apply tracks_round; [lia | lia | apply tracks_start].
  - replace (e + Zpos p - e) with (0 + Zpos p) by lia.
    apply tracks_round; [lia | lia |]. apply tracks_iter; [lia | lia | apply tracks_start].
  - replace (e - e) with 0 by lia. apply tracks_round; [lia | lia | apply tracks_start].
Qed.

End ShiftLocation.

Section Digits.

Lemma Zdigits2_lower (x : Z) : 0 < x -> 2 ^ (Zdigits2 x - 1) <= x.
Proof. destruct x as [|p|p]; try lia. intros _. apply digits_lower. Qed.

Lemma Zdigits2_pos (x : Z) : 0 < x -> 1 <= Zdigits2 x.
Proof. destruct x as [|p|p]; simpl; lia. Qed.

Lemma Zdigits2_unique (x d : Z) :
  0 < x -> 2 ^ (d - 1) <= x < 2 ^ d -> Zdigits2 x = d.
Proof.
  intros Hx [Hlo Hhi].
  pose proof (Zdigits2_lower x Hx) as Hl. pose proof (Zdigits2_upper x ltac:(lia)) as Hu.
  pose proof (Zdigits2_pos x Hx) as Hp.
  assert (0 <= d) as Hd.
  { destruct (Z_lt_le_dec d 0) as [Hneg|]; [|lia].
    rewrite (Z.pow_neg_r 2 d) in Hhi by lia. lia. }
  assert (Zdigits2 x - 1 < d).
  { apply (Z.pow_lt_mono_r_iff 2); [lia | lia | lia]. }
  assert (d - 1 < Zdigits2 x).
  { destruct (Z_lt_le_dec (d - 1) 0); [lia|].
    apply (Z.pow_lt_mono_r_iff 2); [lia | lia | lia]. }
  lia.
Qed.

Lemma Zdigits2_shift (m k : Z) :
  0 < m -> 0 <= k -> Zdigits2 (m * 2 ^ k) = Zdigits2 m + k.
Proof.
  intros Hm Hk. assert (0 < 2 ^ k) by (apply Z.pow_pos_nonneg; lia).
  pose proof (Zdigits2_lower m Hm) as Hl. pose proof (Zdigits2_upper m ltac:(lia)) as Hu.
  pose proof (Zdigits2_pos m Hm) as Hp.
  apply Zdigits2_unique; [nia|].
  replace (Zdigits2 m + k - 1) with (Zdigits2 m - 1 + k) by lia.
  rewrite !Z.pow_add_r by lia. nia.
Qed.

Lemma Zdigits2_mono (x y : Z) : 0 <= x <= y -> Zdigits2 x <= Zdigits2 y.
Proof.
  intros [Hx Hxy]. destruct (Z.eq_dec x 0) as [->|Hne].
  - apply Zdigits2_nonneg.
  - pose proof (Zdigits2_upper y ltac:(lia)) as Hu.
    apply Zdigits2_le; [lia | apply Zdigits2_nonneg | lia].
Qed.

End Digits.

Section RoundedValue.

Variable B : Z.
Hypothesis Bbig : 1074 <= B.

Lemma gamma_shift (m e : Z) :
  0 < m -> 0 <= e + B ->
  gamma B (m * 2 ^ (e + B)) = fexp prec emax (Zdigits2 m + e) + B.
Proof.
  intros Hm He. unfold gamma. rewrite Zdigits2_shift by lia. rewrite fexp_eq. lia.
Qed.

(** What the rounding of [m * 2^e] gives: a zero or a positive finite
    double, of the value nearest to [m * 2^e]. *)
Lemma binary_round_aux_sv (m e : Z) :
  0 < m -> 0 <= e + B -> Zdigits2 m + e <= 900 ->
  plain (binary_round_aux prec emax false m e loc_Exact) /\
  sv B (binary_round_aux prec emax false m e loc_Exact) = rho B (m * 2 ^ (e + B)).
Proof.
  intros Hm He Hsmall. unfold binary_round_aux.
  pose proof (shr_fexp_spec m e loc_Exact ltac:(lia)) as H1.
  pose proof (shr_fexp_round m e ltac:(lia)) as H1r. cbv zeta in H1, H1r.
  destruct (shr_fexp prec emax m e loc_Exact) as [mrs' e'] eqn:E1.
  cbn [fst snd] in H1, H1r. destruct H1 as [He' Hm'].
  pose proof (Zdigits2_pos m Hm) as Hd.
  rewrite fexp_eq in He'.
  assert (0 <= e' - e) as Hk by lia.
  assert (0 < 2 ^ (e' - e)) as Hpk by (apply Z.pow_pos_nonneg; lia).
  pose proof (Zdigits2_div_pow2 m (e' - e) ltac:(lia) Hk) as Hdm'. rewrite <- Hm' in Hdm'.
  assert (0 <= shr_m mrs') as Hm'0 by (rewrite Hm'; apply Z.div_pos; lia).
  assert (Zdigits2 (shr_m mrs') <= 53) as Hd53.
  { pose proof (Zdigits2_nonneg (shr_m mrs')). lia. }
  remember (round_nearest_even (shr_m mrs') (loc_of_shr_record mrs')) as m1 eqn:Em1.
  assert (0 <= m1 /\ m1 <= shr_m mrs' + 1) as [Hm1 Hm1u].
  { subst m1.
    destruct (round_nearest_even_cases (shr_m mrs') (loc_of_shr_record mrs')) as [->| ->]; lia. }
  assert (m1 <= 2 ^ 53) as Hm1b.
  { pose proof (Zdigits2_upper (shr_m mrs') Hm'0) as Hu.
    assert (2 ^ Zdigits2 (shr_m mrs') <= 2 ^ 53) by (apply Z.pow_le_mono_r; lia). lia. }
  pose proof (shr_fexp_spec m1 e' loc_Exact Hm1) as H2. cbv zeta in H2.
  destruct (shr_fexp prec emax m1 e' loc_Exact) as [mrs'' e''] eqn:E2.
  cbn [fst snd] in H2. destruct H2 as [He'' Hm''].
  rewrite fexp_eq in He''.
  assert (Zdigits2 m1 <= 54) as Hd1.
  { apply Zdigits2_le; [lia | lia |]. change (2 ^ 54) with (2 * 2 ^ 53). lia. }
  assert (shr_m mrs'' * 2 ^ (e'' - e') = m1 /\ e' <= e'' <= e' + 1) as [Hval He''r].
  { destruct (Z.eq_dec e'' e') as [->|Hne].
    - rewrite Hm''. replace (e' - e') with 0 by lia. rewrite Z.div_1_r. cbn. lia.
    - assert (Zdigits2 m1 = 54) as Hd54 by lia.
      assert (e'' = e' + 1) as -> by lia.
      assert (0 < m1) as Hm1p by (destruct m1; simpl in *; lia).
      pose proof (Zdigits2_lower m1 Hm1p) as Hl. rewrite Hd54 in Hl.
      replace (54 - 1) with 53 in Hl by lia.
      assert (m1 = 2 ^ 53) as Hm1e by lia.
      rewrite Hm''. replace (e' + 1 - e') with 1 by lia. rewrite Hm1e.
      split; [reflexivity | lia]. }
  assert (sv B match shr_m mrs'' with
               | 0 => S754_zero false
               | Zpos p => if e'' <=? emax - prec then S754_finite false p e''
                           else S754_infinity false
               | Zneg _ => S754_nan
               end = m1 * 2 ^ (e' + B) /\
          plain match shr_m mrs'' with
                | 0 => S754_zero false
                | Zpos p => if e'' <=? emax - prec then S754_finite false p e''
                            else S754_infinity false
                | Zneg _ => S754_nan
                end) as [Hsv Hplain].
  { assert (0 <= shr_m mrs'') as Hm''0.
    { rewrite Hm''. apply Z.div_pos; [lia | apply Z.pow_pos_nonneg; lia]. }
    assert ((e'' <=? emax - prec) = true) as Hfin
        by (apply Z.leb_le; change (emax - prec) with 971; lia).
    destruct (shr_m mrs'') as [|p|p] eqn:Em; [| |lia].
    - split; [|exact I]. cbn [sv]. rewrite <- Hval. lia.
    - rewrite Hfin. split; [|cbn [plain]; change (emax - prec) with 971 in Hfin;
                              apply Z.leb_le in Hfin; lia].
      cbn [sv]. rewrite <- Hval.
      replace (e'' + B) with (e'' - e' + (e' + B)) by lia.
      rewrite Z.pow_add_r by lia. lia. }
  split; [exact Hplain|]. rewrite Hsv. clear Hsv Hplain.
  rewrite H1r. unfold rho. rewrite gamma_shift by lia. rewrite fexp_eq.
  assert (0 < 2 ^ (e + B)) as Hpe by (apply Z.pow_pos_nonneg; lia).
  destruct (Z_le_gt_dec e (Z.max (Zdigits2 m + e - 53) (-1074))) as [Hle|Hgt].
  - assert (e' = Z.max (Zdigits2 m + e - 53) (-1074)) as He'F by lia.
    rewrite <- He'F.
    replace (2 ^ (e' + B)) with (2 ^ (e' - e) * 2 ^ (e + B))
      by (rewrite <- Z.pow_add_r by lia; f_equal; lia).
    now rewrite rhe_scale by lia.
  - assert (e' = e) as -> by lia. replace (e - e) with 0 by lia.
    change (2 ^ 0) with 1.
    replace m with (m * 1) at 1 by lia. rewrite rhe_multiple by lia.
    remember (Z.max (Zdigits2 m + e - 53) (-1074)) as F eqn:EF.
    assert (0 < 2 ^ (F + B)) as HpF by (apply Z.pow_pos_nonneg; lia).
    replace (m * 2 ^ (e + B)) with (m * 2 ^ (e - F) * 2 ^ (F + B)).
    + rewrite rhe_multiple by lia. reflexivity.
    + rewrite <- Z.mul_assoc, <- Z.pow_add_r by lia. do 2 f_equal. lia.
Qed.

End RoundedValue.

Section RoundedOrder.

Variable B : Z.
Hypothesis Bbig : 1119 <= B.

Lemma rhe_zero (D : Z) : 0 < D -> round_half_even 0 D = 0.
Proof. intros HD. replace 0 with (0 * D) at 1 by lia. now apply rhe_multiple. Qed.

Lemma rho_zero : rho B 0 = 0.
Proof.
  unfold rho. rewrite rhe_zero; [lia|]. apply Z.pow_pos_nonneg; [lia|].
  unfold gamma. lia.
Qed.

(** A power of two between [X] and [Y] is a double. *)
Lemma rho_pow2 (d : Z) : B - 1074 <= d -> rho B (2 ^ d) = 2 ^ d.
Proof.
  intros Hd. unfold rho.
  assert (Zdigits2 (2 ^ d) = 1 + d) as Hdig.
  { replace (2 ^ d) with (1 * 2 ^ d) by lia. rewrite Zdigits2_shift by lia. reflexivity. }
  assert (0 <= gamma B (2 ^ d) <= d) as Hg by (unfold gamma; rewrite Hdig; lia).
  remember (gamma B (2 ^ d)) as g.
  assert (0 < 2 ^ g) by (apply Z.pow_pos_nonneg; lia).
  replace (2 ^ d) with (2 ^ (d - g) * 2 ^ g) at 1
    by (rewrite <- Z.pow_add_r by lia; f_equal; lia).
  rewrite rhe_multiple by lia. rewrite <- Z.pow_add_r by lia. f_equal. lia.
Qed.

(** Rounding to the nearest double keeps the order. *)
Lemma rho_mono (X Y : Z) : 0 <= X <= Y -> rho B X <= rho B Y.
Proof.
  intros [HX HXY].
  pose proof (Zdigits2_mono X Y ltac:(lia)) as Hd.
  assert (gamma B X <= gamma B Y) as Hg by (unfold gamma; lia).
  assert (0 <= gamma B X) as HgX by (unfold gamma; lia).
  assert (0 < 2 ^ gamma B X) as HpX by (apply Z.pow_pos_nonneg; lia).
  assert (0 < 2 ^ gamma B Y) as HpY by (apply Z.pow_pos_nonneg; lia).
  destruct (Z.eq_dec (gamma B X) (gamma B Y)) as [Heq|Hne].
  - unfold rho. rewrite <- Heq.
    pose proof (rhe_mono _ HpX X Y HXY). nia.
  - assert (gamma B Y = Zdigits2 Y - 53 /\ Zdigits2 X < Zdigits2 Y) as [HgY Hlt]
        by (unfold gamma in *; lia).
    pose proof (Zdigits2_nonneg X) as HdX.
    assert (0 < Y) as HY by (destruct Y; simpl in *; lia).
    pose proof (Zdigits2_lower Y HY) as HlY.
    pose proof (Zdigits2_upper X HX) as HuX.
    assert (2 ^ Zdigits2 X <= 2 ^ (Zdigits2 Y - 1)) as Hpow
        by (apply Z.pow_le_mono_r; lia).
    remember (2 ^ (Zdigits2 Y - 1)) as T eqn:ET.
    assert (rho B T = T) as HT by (subst T; apply rho_pow2; unfold gamma in *; lia).
    assert (rho B X <= T) as H1.
    { unfold rho.
      assert (round_half_even T (2 ^ gamma B X) * 2 ^ gamma B X = T) as HTX.
      { subst T.
        replace (2 ^ (Zdigits2 Y - 1))
          with (2 ^ (Zdigits2 Y - 1 - gamma B X) * 2 ^ gamma B X) at 1
          by (rewrite <- Z.pow_add_r by lia; f_equal; lia).
        rewrite rhe_multiple by lia. rewrite <- Z.pow_add_r by lia. f_equal. lia. }
      pose proof (rhe_mono _ HpX X T ltac:(lia)). nia. }
    assert (T <= rho B Y) as H2.
    { unfold rho.
      assert (round_half_even T (2 ^ gamma B Y) * 2 ^ gamma B Y = T) as HTY.
      { subst T.
        replace (2 ^ (Zdigits2 Y - 1))
          with (2 ^ (Zdigits2 Y - 1 - gamma B Y) * 2 ^ gamma B Y) at 1
          by (rewrite <- Z.pow_add_r by lia; f_equal; lia).
        rewrite rhe_multiple by lia. rewrite <- Z.pow_add_r by lia. f_equal. lia. }
      pose proof (rhe_mono _ HpY T Y ltac:(lia)). nia. }
    lia.
Qed.

Lemma sv_nonneg (f : spec_float) : plain f -> 0 <= sv B f.
Proof.
  destruct f as [s|s| |s m e]; cbn; try lia. intros [-> He].
  assert (0 < 2 ^ (e + B)) by (apply Z.pow_pos_nonneg; lia). lia.
Qed.

(** [int()] of a plain double, from its scaled value. *)
Lemma floor_sv (x : spec_float) : plain x -> Qfloor (Spec.F2Q x) = sv B x / 2 ^ B.
Proof.
  assert (0 < 2 ^ B) as HpB by (apply Z.pow_pos_nonneg; lia).
  destruct x as [s|s| |s m e]; cbn [plain]; try contradiction.
  - intros _. change (Qfloor (Spec.F2Q (S754_zero s))) with 0. cbn [sv].
    now rewrite Z.div_0_l by lia.
  - intros [-> He]. unfold Spec.F2Q, cond_Zopp. cbn [sv].
    destruct e as [|p|p].
    + rewrite Qfloor_Z. rewrite Z.add_0_l. change (2 ^ 0) with 1.
      rewrite Z.div_mul by lia. lia.
    + rewrite Qfloor_Z. rewrite Z.pow_add_r by lia.
      rewrite Z.mul_assoc, Z.div_mul by lia. reflexivity.
    + unfold Qfloor. rewrite pos_pow_Z.
      assert (0 < 2 ^ Zpos p) by (apply Z.pow_pos_nonneg; lia).
      assert (0 < 2 ^ (Z.neg p + B)) by (apply Z.pow_pos_nonneg; lia).
      replace (2 ^ B) with (2 ^ Zpos p * 2 ^ (Z.neg p + B))
        by (rewrite <- Z.pow_add_r by lia; f_equal; lia).
      rewrite Z.div_mul_cancel_r by lia. reflexivity.
Qed.

Lemma in_unit_plain (c : spec_float) : Spec.in_unit c = true -> plain c.
Proof.
  intros Hc. destruct (in_unit_cases c Hc) as [[s ->]|(m & e & -> & Hd & He & _ & Hle)].
  - exact I.
  - split; [reflexivity | lia].
Qed.

(** The order of the values of two confidences, scaled. *)
Lemma sv_le (c1 c2 : spec_float) :
  Spec.in_unit c1 = true -> Spec.in_unit c2 = true ->
  (Spec.F2Q c1 <= Spec.F2Q c2)%Q -> sv B c1 <= sv B c2.
Proof.
  intros H1 H2 Hle.
  destruct (in_unit_cases c1 H1) as [[s1 ->]|(m1 & e1 & -> & _ & He1 & _ & _)].
  - apply (sv_nonneg c2), in_unit_plain, H2.
  - destruct (in_unit_cases c2 H2) as [[s2 ->]|(m2 & e2 & -> & _ & He2 & _ & _)].
    + exfalso. destruct e1 as [|p1|p1]; try lia.
      unfold Spec.F2Q, cond_Zopp, Qle in Hle. cbn [Qnum Qden] in Hle. lia.
    + destruct e1 as [|p1|p1]; try lia. destruct e2 as [|p2|p2]; try lia.
      unfold Spec.F2Q, cond_Zopp, Qle in Hle. cbn [Qnum Qden] in Hle.
      rewrite !pos_pow_Z in Hle. cbn [sv].
      assert (0 < 2 ^ Zpos p1) as Ha by (apply Z.pow_pos_nonneg; lia).
      assert (0 < 2 ^ Zpos p2) as Hb by (apply Z.pow_pos_nonneg; lia).
      assert (0 < 2 ^ (Z.neg p1 + B)) as Hu by (apply Z.pow_pos_nonneg; lia).
      assert (0 < 2 ^ (Z.neg p2 + B)) as Hv by (apply Z.pow_pos_nonneg; lia).
      assert (2 ^ Zpos p1 * 2 ^ (Z.neg p1 + B) = 2 ^ Zpos p2 * 2 ^ (Z.neg p2 + B)) as HW
          by (rewrite <- !Z.pow_add_r by lia; f_equal; lia).
      remember (2 ^ Zpos p1) as a. remember (2 ^ Zpos p2) as b.
      remember (2 ^ (Z.neg p1 + B)) as u. remember (2 ^ (Z.neg p2 + B)) as v.
      apply (Z.mul_le_mono_pos_r _ _ (a * b)); [nia|].
      replace (Zpos m1 * u * (a * b)) with (Zpos m1 * b * (a * u)) by ring.
      replace (Zpos m2 * v * (a * b)) with (Zpos m2 * a * (b * v)) by ring.
      rewrite HW. apply Z.mul_le_mono_nonneg_r; nia.
Qed.

(** [255 * x] on a plain double: the double nearest to the product. *)
Lemma fmul_255_sv (K : Z) (x : spec_float) :
  plain x -> small false K x -> K <= 800 ->
  plain (fmul f255 x) /\ sv B (fmul f255 x) = rho B (255 * sv B x).
Proof.
  intros Hp Hs HK. destruct x as [s|s| |s m e]; cbn [plain small] in *; try contradiction.
  - split; [exact I|]. cbn [sv]. now rewrite Z.mul_0_r, rho_zero.
  - destruct Hp as [-> He]. destruct Hs as [_ Hd].
    unfold fmul, SFmul, f255. cbn [xorb].
    pose proof (Zdigits2_mul 8972014882652160 m) as Hmul.
    change (Zpos (digits2_pos 8972014882652160)) with 53 in Hmul.
    destruct (binary_round_aux_sv B ltac:(lia) (Zpos (8972014882652160 * m)) (-45 + e))
      as [Hpl Hsv]; [lia | lia | cbn [Zdigits2]; lia |].
    split; [exact Hpl|]. rewrite Hsv. f_equal. cbn [sv].
    rewrite Pos2Z.inj_mul. change (Zpos 8972014882652160) with (255 * 2 ^ 45).
    replace (e + B) with (45 + (-45 + e + B)) by lia.
    rewrite (Z.pow_add_r 2 45) by lia. ring.
Qed.

(** [1 - c] on a confidence: the double nearest to the difference. *)
Lemma fsub_one_sv (c : spec_float) :
  Spec.in_unit c = true ->
  plain (fsub f1 c) /\ sv B (fsub f1 c) = rho B (2 ^ B - sv B c).
Proof.
  intros Hc. destruct (in_unit_cases c Hc) as [[s ->]|(m & e & -> & Hd & He & _ & Hle)].
  - unfold fsub, SFsub, f1. split; [cbn; lia|]. cbn [sv]. rewrite Z.sub_0_r.
    rewrite rho_pow2 by lia. rewrite <- pow2_52. rewrite <- Z.pow_add_r by lia.
    f_equal. lia.
  - unfold fsub, SFsub, f1.
    replace (Z.min (-52) e) with e by lia.
    pose proof (shl_align_spec 4503599627370496 (-52) e) as H1.
    pose proof (shl_align_spec m e e) as H2. cbv zeta in H1, H2.
    destruct H1 as [H1s H1m], H2 as [H2s H2m].
    rewrite H1m, H2m, H1s, H2s.
    replace (Z.min (-52) e) with e by lia. replace (Z.min e e) with e by lia.
    replace (e - e) with 0 by lia. rewrite Z.mul_1_r.
    unfold cond_Zopp.
    assert (4503599627370496 * 2 ^ (-52 - e) = 2 ^ (- e)) as ->.
    { rewrite <- pow2_52. rewrite <- Z.pow_add_r by lia. f_equal. lia. }
    assert (0 < 2 ^ (- e)) as Hpe by (apply Z.pow_pos_nonneg; lia).
    assert (0 < 2 ^ (e + B)) as HpB by (apply Z.pow_pos_nonneg; lia).
    assert (2 ^ B - sv B (S754_finite false m e) = (2 ^ (- e) - Zpos m) * 2 ^ (e + B)) as ->.
    { cbn [sv]. rewrite Z.mul_sub_distr_r. rewrite <- Z.pow_add_r by lia.
      f_equal. f_equal. lia. }
    destruct (2 ^ (- e) - Zpos m) as [|z|z] eqn:Hz; [| |lia].
    + split; [exact I|]. cbn [binary_normalize sv]. now rewrite Z.mul_0_l, rho_zero.
    + cbn [binary_normalize]. unfold binary_round.
      pose proof (shl_align_spec z e (fexp prec emax (Zpos (digits2_pos z) + e))) as H.
      cbv zeta in H.
      destruct (shl_align z e (fexp prec emax (Zpos (digits2_pos z) + e))) as [mz ez].
      cbn [fst snd] in H. destruct H as [Hez Hmz]. rewrite fexp_eq in Hez.
      assert (Zdigits2 (Zpos z) <= - e + 1) as Hdz.
      { apply Zdigits2_le; [lia | lia |].
        rewrite Z.pow_add_r by lia. change (2 ^ 1) with 2. lia. }
      assert (0 < 2 ^ (e - ez)) by (apply Z.pow_pos_nonneg; lia).
      destruct (binary_round_aux_sv B ltac:(lia) (Zpos mz) ez) as [Hpl Hsv];
        [lia | lia | |].
      * rewrite Hmz. rewrite Zdigits2_shift by lia. lia.
      * split; [exact Hpl|]. rewrite Hsv. f_equal. rewrite Hmz.
        rewrite <- Z.mul_assoc, <- Z.pow_add_r by lia. do 2 f_equal. lia.
Qed.

(** The two components of the colour grow and shrink with the
    confidence. *)
Lemma rgb_floor_mono (c1 c2 : spec_float) :
  Spec.in_unit c1 = true -> Spec.in_unit c2 = true ->
  (Spec.F2Q c1 <= Spec.F2Q c2)%Q ->
  snd (fst (Spec.rgb_floor c1)) <= snd (fst (Spec.rgb_floor c2)) /\
  fst (fst (Spec.rgb_floor c2)) <= fst (fst (Spec.rgb_floor c1)).
Proof.
  intros H1 H2 Hle. unfold Spec.rgb_floor. cbn [fst snd].
  pose proof (sv_le c1 c2 H1 H2 Hle) as Hsv.
  pose proof (sv_nonneg c1 (in_unit_plain c1 H1)) as Hn1.
  assert (0 < 2 ^ B) as HpB by (apply Z.pow_pos_nonneg; lia).
  destruct (fmul_255_sv 1 c1 (in_unit_plain c1 H1) (in_unit_small c1 H1) ltac:(lia))
    as [Pg1 Sg1].
  destruct (fmul_255_sv 1 c2 (in_unit_plain c2 H2) (in_unit_small c2 H2) ltac:(lia))
    as [Pg2 Sg2].
  destruct (fsub_one_sv c1 H1) as [Ps1 Ss1]. destruct (fsub_one_sv c2 H2) as [Ps2 Ss2].
  destruct (fmul_255_sv 2 _ Ps1 (fsub_one_small c1 H1) ltac:(lia)) as [Pr1 Sr1].
  destruct (fmul_255_sv 2 _ Ps2 (fsub_one_small c2 H2) ltac:(lia)) as [Pr2 Sr2].
  rewrite !floor_sv by assumption. split.
  - apply Z.div_le_mono; [lia|]. rewrite Sg1, Sg2. apply rho_mono. lia.
  - apply Z.div_le_mono; [lia|]. rewrite Sr1, Sr2, Ss1, Ss2.
    pose proof (sv_nonneg _ Ps2) as Hn2. rewrite Ss2 in Hn2.
    apply rho_mono. split; [lia|]. apply Z.mul_le_mono_nonneg_l; [lia|].
    assert (0 <= 2 ^ B - sv B c2 \/ 2 ^ B - sv B c2 < 0) as [Hpos|Hneg] by lia.
    + apply rho_mono. lia.
    + exfalso. revert Hneg. apply Z.le_ngt.
      destruct (in_unit_cases c2 H2) as [[s ->]|(m & e & -> & _ & He & _ & Hm)];
        cbn [sv]; [lia|].
      assert (0 < 2 ^ (e + B)) by (apply Z.pow_pos_nonneg; lia).
      replace (2 ^ B) with (2 ^ (- e) * 2 ^ (e + B))
        by (rewrite <- Z.pow_add_r by lia; f_equal; lia).
      nia.
Qed.

End RoundedOrder.

Section TwoDecimals.

(** Half-even rounding is within one half of the quotient. *)
Lemma rhe_near (a D : Z) :
  0 < D -> 2 * Z.abs (round_half_even a D * D - a) <= D.
Proof.
  intros HD. unfold round_half_even.
  pose proof (Z.div_mod a D ltac:(lia)) as Ha.
  pose proof (Z.mod_pos_bound a D HD) as Hr.
  destruct (Z.compare_spec (2 * (a mod D)) D); [destruct (Z.even (a / D))| |]; nia.
Qed.

Lemma length_append (a b : string) :
  String.length (a +:+ b) = (String.length a + String.length b)%nat.
Proof.
  induction a as [|x a IH]; [reflexivity|]. rewrite append_cons. cbn. now rewrite IH.
Qed.

Lemma two_digits_length (n : Z) : 0 <= n < 100 -> String.length (two_digits n) = 2%nat.
Proof.
  intros Hn.
  assert (forallb (fun k => Nat.eqb (String.length (two_digits (Z.of_nat k))) 2)
                  (seq 0 100) = true) as Hall by (vm_compute; reflexivity).
  rewrite forallb_forall in Hall.
  specialize (Hall (Z.to_nat n)). rewrite Z2Nat.id in Hall by lia.
  apply Nat.eqb_eq, Hall, in_seq. lia.
Qed.

(** The hundredths of a confidence: between 0 and 100. *)
Lemma hundredths_unit (m : positive) (e : Z) :
  e < 0 -> Zpos m <= 2 ^ (- e) -> 0 <= hundredths m e <= 100.
Proof.
  intros He Hm. destruct e as [|p|p]; try lia. unfold hundredths.
  change (- Z.neg p) with (Zpos p) in Hm.
  assert (0 < 2 ^ Zpos p) as Hp by (apply Z.pow_pos_nonneg; lia).
  split; [apply rhe_nonneg; lia|].
  pose proof (rhe_mono _ Hp (Zpos m * 100) (100 * 2 ^ Zpos p) ltac:(lia)) as H.
  now rewrite rhe_multiple in H by lia.
Qed.

(** The two decimals shown for a confidence. *)
Lemma format_2f_unit (c : spec_float) :
  Spec.in_unit c = true -> c <> S754_zero true ->
  exists h,
    0 <= h <= 100 /\
    format_2f c = str_of_Z (h / 100) +:+ "." +:+ two_digits (h mod 100) /\
    String.length (format_2f c) = 4%nat /\
    (Qabs (inject_Z h - 100 * Spec.F2Q c) <= 1 # 2)%Q.
Proof.
  intros Hc Hnz.
  destruct (in_unit_cases c Hc) as [[s ->]|(m & e & -> & Hd & He & _ & Hle)].
  - destruct s; [congruence|]. exists 0. split; [lia|]. split; [reflexivity|].
    split; [reflexivity|]. vm_compute. discriminate.
  - pose proof (hundredths_unit m e ltac:(lia) Hle) as Hh.
    exists (hundredths m e). split; [exact Hh|].
    assert (format_2f (S754_finite false m e) =
            str_of_Z (hundredths m e / 100) +:+ "." +:+
            two_digits (hundredths m e mod 100)) as Hf by reflexivity.
    split; [exact Hf|]. split.
    + rewrite Hf, !length_append.
      rewrite two_digits_length by (apply Z.mod_pos_bound; lia).
      assert (hundredths m e / 100 = 0 \/ hundredths m e / 100 = 1) as [-> | ->].
      { assert (0 <= hundredths m e / 100 <= 1); [|lia].
        split; [apply Z.div_pos; lia|].
        apply Z.div_le_upper_bound; lia. }
      * reflexivity.
      * reflexivity.
    + destruct e as [|p|p]; try lia. unfold hundredths, Spec.F2Q, cond_Zopp.
      assert (0 < 2 ^ Zpos p) as Hp by (apply Z.pow_pos_nonneg; lia).
      pose proof (rhe_near (Zpos m * 100) (2 ^ Zpos p) Hp) as Hn.
      remember (round_half_even (Zpos m * 100) (2 ^ Zpos p)) as h.
      unfold Qle, Qabs, Qminus, Qplus, Qopp, Qmult, inject_Z. cbn [Qnum Qden].
      rewrite !Pos.mul_1_l, !Z.mul_1_r. rewrite pos_pow_Z.
      replace (h * 2 ^ Zpos p + - (100 * Zpos m))
        with (h * 2 ^ Zpos p - Zpos m * 100) by lia.
      lia.
Qed.

End TwoDecimals.

(* ===================================================================== *)
(** * The claims *)
(* ===================================================================== *)

(** C1, as the code has it: for every confidence [c] in [[0,1]] the
    background colour of both versions has red = the floor of the double
    product [255 * (1 - c)], green = the floor of the double product
    [255 * c], and blue = 0: [int()] truncates, it does not round. *)
Theorem C1_rgb_floor (c : spec_float) :
  Spec.in_unit c = true ->
  Demo.rgb (PFloat c) = Ok (Spec.rgb_floor c) /\
  Demo2.rgb c = Ok (Spec.rgb_floor c) /\
  snd (Spec.rgb_floor c) = 0.
Proof.
  intros Hc. split; [now apply rgb_floor_number|].
  split; [now apply rgb_floor_double | reflexivity].
Qed.

(** At the confidence 0.92. *)
Lemma C1_rgb_floor_witness :
  Spec.in_unit Sample.c092 = true /\
  (Demo.rgb (PFloat Sample.c092) = Ok (Spec.rgb_floor Sample.c092) /\
   Demo2.rgb Sample.c092 = Ok (Spec.rgb_floor Sample.c092) /\
   snd (Spec.rgb_floor Sample.c092) = 0).
Proof.
  split; [vm_compute; reflexivity | apply (C1_rgb_floor Sample.c092); vm_compute; reflexivity].
Defined.

(** C1 as stated fails at [c = 0.92]: both versions compute green = 234 (and
    red = 20), where [round(255 * c)] is 235, with the product taken exactly
    or in double arithmetic. *)
Lemma C1_rounding_fails :
  Spec.in_unit Sample.c092 = true /\
  Demo.rgb (PFloat Sample.c092) = Ok (20, 234, 0) /\
  Demo2.rgb Sample.c092 = Ok (20, 234, 0) /\
  Spec.rgb_rounded Sample.c092 = (20, 235, 0) /\
  Spec.rgb_rounded_double Sample.c092 = (20, 235, 0).
Proof. repeat split; vm_compute; reflexivity. Qed.

(** C2, as the code has it: in demo.py the text shown for a word is the
    word's text, followed by [" (" + confidence to 2 decimals + ")"] when
    numeric confidence is shown, and the word's fragment is that text on
    the word's colours; in demo2.py the text shown is the token of the
    sentence text at the word's position (not the word's own text), with
    the same suffix, on the colours of the word at that position. *)
Theorem C2_display_text (rt : runtime) (show_confidence : bool)
        (w : Spec.TranscriptWord) (v : json)
        (words : list Demo2.Word) (word_obj : Demo2.Word)
        (token html : string) (word_count : nat) :
  Spec.json_word w v -> Spec.in_unit (Spec.confidence w) = true ->
  words !! word_count = Some word_obj ->
  Spec.in_unit (Demo2.confidence word_obj) = true ->
  Demo.display_text rt show_confidence v (PFloat (Spec.confidence w)) =
    Ok (Spec.display_text show_confidence (Spec.text w) (Spec.confidence w)) /\
  Demo.word_span rt show_confidence v =
    Ok (Spec.fragment show_confidence (Spec.text w) (Spec.confidence w)) /\
  Demo2.display_text show_confidence token (Demo2.confidence word_obj) =
    Spec.display_text show_confidence token (Demo2.confidence word_obj) /\
  Demo2.token_span show_confidence words token html word_count =
    Ok (html +:+ Spec.fragment show_confidence token (Demo2.confidence word_obj),
        S word_count).
Proof.
  intros Hv Hu Hl Hu2. split; [|split; [|split]].
  - destruct Hv as (o & -> & Hw & _).
    unfold Demo.display_text, Spec.display_text, getitem. rewrite Hw.
    destruct show_confidence; reflexivity.
  - now apply word_span_ok.
  - reflexivity.
  - now apply token_span_ok.
Qed.

(** At the word hello (0.92), shown with its confidence, and at the
    sentence token "Hello,". *)
Lemma C2_display_text_witness :
  Demo.display_text Sample.rt true (Sample.word_json Sample.hello) (PFloat Sample.c092) =
    Ok "hello (0.92)" /\
  Demo2.token_span true (Demo2.words Sample.alternative_hello) "Hello," "" 0 =
    Ok ("" +:+ Spec.fragment true "Hello," Sample.c092, 1%nat).
Proof.
  pose proof (C2_display_text Sample.rt true Sample.hello (Sample.word_json Sample.hello)
                (Demo2.words Sample.alternative_hello) (Sample.word_sdk Sample.hello)
                "Hello," "" 0) as H.
  destruct H as (H1 & _ & _ & H4).
  - eexists. split; [reflexivity|]. split; vm_compute; reflexivity.
  - vm_compute; reflexivity.
  - reflexivity.
  - vm_compute; reflexivity.
  - split; [exact H1 | exact H4].
Defined.

(** C2 as stated fails in demo2.py: for the sentence ["Hello, world."] over
    the words "hello" and "world" the page shows the fragments "Hello," and
    "world.", which are not the words' texts. *)
Lemma C2_sentence_tokens_shown :
  page (snd (Demo2.display_transcription Sample.response_hello false Sample.start)) =
  [Markdown "### Transcription Result:" false;
   Markdown ("<div style=" +:+ dq +:+ "margin-bottom: 10px;" +:+ dq +:+
             "><span style=" +:+ dq +:+ "font-weight: bold;" +:+ dq +:+
             ">Sentence: </span>" +:+
             span 20 234 0 "black" "Hello," +:+ span 175 79 0 "white" "world." +:+
             "</div>") true;
   DownloadButton "Download Transcript (Text)" "hello world" "transcript.txt" "text/plain";
   DownloadButton "Download Detailed Transcript (with confidence scores)"
                  ("hello (0.92)" +:+ nl +:+ "world (0.31)")
                  "detailed_transcript.txt" "text/plain"] /\
  Demo2.word <$> Demo2.words Sample.alternative_hello = ["hello"; "world"] /\
  "Hello," <> "hello".
Proof. split; [vm_compute; reflexivity | split; [reflexivity | discriminate]]. Qed.

(** C3, as the code has it: for every sequence of words the plain export of
    both versions is the word texts joined by single spaces in the original
    order; when the sequence is not empty and no text holds a space,
    splitting the export on spaces gives back the texts. *)
Theorem C3_plain_text (ws : list Spec.TranscriptWord) (items : list json)
        (words : list Demo2.Word) :
  Forall2 Spec.json_word ws items -> Forall2 Spec.sdk_word ws words ->
  Demo.plain_text (JArr items) = Ok (str_join " " (Spec.text <$> ws)) /\
  Demo2.plain_text words = str_join " " (Spec.text <$> ws) /\
  (ws <> [] ->
   Forall (fun w => Spec.contains " " (Spec.text w) = false) ws ->
   str_split " " (str_join " " (Spec.text <$> ws)) = Spec.text <$> ws).
Proof.
  intros Hj Hs. split; [now apply plain_text_ok|]. split.
  - unfold Demo2.plain_text. now rewrite (sdk_words_texts _ _ Hs).
  - intros Hne Hall. apply (str_split_join " ").
    + destruct ws; [congruence | discriminate].
    + now apply Forall_fmap.
Qed.

(** At the words hello and world. *)
Lemma C3_plain_text_witness :
  Demo.plain_text (JArr [Sample.word_json Sample.hello; Sample.word_json Sample.world_]) =
    Ok "hello world" /\
  Demo2.plain_text [Sample.word_sdk Sample.hello; Sample.word_sdk Sample.world_] =
    "hello world" /\
  str_split " " "hello world" = ["hello"; "world"].
Proof.
  pose proof (C3_plain_text [Sample.hello; Sample.world_]
                [Sample.word_json Sample.hello; Sample.word_json Sample.world_]
                [Sample.word_sdk Sample.hello; Sample.word_sdk Sample.world_]) as H.
  destruct H as (H1 & H2 & H3).
  - repeat constructor; eexists; (split; [reflexivity|]); split; vm_compute; reflexivity.
  - repeat constructor.
  - split; [exact H1|]. split; [exact H2|].
    apply H3; [discriminate | repeat constructor].
Defined.

(** C3 as stated fails on the empty sequence: its plain export is the empty
    string, and splitting the empty string on spaces gives one empty piece,
    not the empty sequence of texts. *)
Lemma C3_empty_sequence :
  Demo.plain_text (JArr []) = Ok "" /\
  Demo2.plain_text [] = "" /\
  str_split " " "" = [""] /\
  str_split " " "" <> Spec.text <$> [].
Proof. repeat split; try reflexivity. discriminate. Qed.

(** C4, as the code has it: for every sequence of words the detailed export
    of both versions is the lines [word + " (" + confidence to 2 decimals +
    ")"], one per word in the original order, joined by newlines; when no
    word text holds a newline these are the lines of the export, so that
    its line count is the word count. *)
Theorem C4_detailed_text (rt : runtime) (ws : list Spec.TranscriptWord)
        (items : list json) (words : list Demo2.Word) :
  Forall2 Spec.json_word ws items -> Forall2 Spec.sdk_word ws words ->
  Demo.detailed_text rt (JArr items) = Ok (str_join nl (Spec.line <$> ws)) /\
  Demo2.detailed_text words = str_join nl (Spec.line <$> ws) /\
  (Forall (fun w => Spec.contains (ascii_of_nat 10) (Spec.text w) = false) ws ->
   Spec.lines (str_join nl (Spec.line <$> ws)) = Spec.line <$> ws /\
   length (Spec.lines (str_join nl (Spec.line <$> ws))) = length ws).
Proof.
  intros Hj Hs. split; [now apply detailed_text_ok|]. split.
  - unfold Demo2.detailed_text. now rewrite (sdk_words_lines _ _ Hs).
  - intros Hall. rewrite (lines_detailed ws Hall). split; [reflexivity|]. apply length_fmap.
Qed.

(** At the words hello (0.92) and world (0.31). *)
Lemma C4_detailed_text_witness :
  Demo.detailed_text Sample.rt
    (JArr [Sample.word_json Sample.hello; Sample.word_json Sample.world_]) =
    Ok (str_join nl (Spec.line <$> [Sample.hello; Sample.world_])) /\
  Demo2.detailed_text [Sample.word_sdk Sample.hello; Sample.word_sdk Sample.world_] =
    str_join nl (Spec.line <$> [Sample.hello; Sample.world_]) /\
  length (Spec.lines (str_join nl (Spec.line <$> [Sample.hello; Sample.world_]))) = 2%nat.
Proof.
  pose proof (C4_detailed_text Sample.rt [Sample.hello; Sample.world_]
                [Sample.word_json Sample.hello; Sample.word_json Sample.world_]
                [Sample.word_sdk Sample.hello; Sample.word_sdk Sample.world_]) as H.
  destruct H as (H1 & H2 & H3).
  - repeat constructor; eexists; (split; [reflexivity|]); split; vm_compute; reflexivity.
  - repeat constructor.
  - split; [exact H1|]. split; [exact H2|]. apply H3. repeat constructor.
Defined.

(** C4 as stated fails for a word whose text holds a newline: the export of
    the one word ["a\nb"] has two lines. *)
Lemma C4_newline_in_word :
  Demo.detailed_text Sample.rt (JArr [Sample.word_json Sample.two_lines]) =
    Ok ("a" +:+ nl +:+ "b (0.50)") /\
  Demo2.detailed_text [Sample.word_sdk Sample.two_lines] = "a" +:+ nl +:+ "b (0.50)" /\
  length (Spec.lines ("a" +:+ nl +:+ "b (0.50)")) = 2%nat /\
  length [Sample.two_lines] = 1%nat.
Proof. repeat split; vm_compute; reflexivity. Qed.

(** C5 fails in demo.py, whose renderer catches [KeyError] only.  On the
    decoded result [{"results": {"channels": []}}], which holds no word
    list, the subscript [[0]] raises [IndexError]: the exception leaves the
    renderer with nothing drawn, no message of the renderer and no raw
    payload.  On a result whose word list is [null] the loop raises
    [TypeError] after the heading, in the same way.  The renderer of
    demo2.py catches every exception: it reports the empty list of channels
    of an SDK response with its own message and shows the payload. *)
Theorem C5_empty_channels_not_reported (rt : runtime) (show_confidence : bool)
        (w : world) :
  Demo.display_transcription rt Sample.results_no_channels show_confidence w =
    (Raise (Exn IndexError "list index out of range"), w) /\
  Demo.display_transcription rt (Sample.results_of JNull) show_confidence w =
    (Raise (Exn TypeError "'NoneType' object is not iterable"),
     shown [Markdown "### Transcription Result:" false] w) /\
  Demo2.display_transcription
    (Sample.response_of (Some {| Demo2.channels := Some [] |})) show_confidence w =
    (Ok tt, shown [Markdown "### Transcription Result:" false;
                   Spec.parse_error "list index out of range";
                   Json Sample.results_hello] w).
Proof.
  split; [|split].
  - apply display_empty_list. left. vm_compute; reflexivity.
  - unfold Demo.display_transcription, try_except, bind, lift.
    rewrite (words_of_resolve (Sample.results_of JNull) JNull) by (vm_compute; reflexivity).
    draw. reflexivity.
  - unfold Demo2.display_transcription. rewrite try_except_all.
    unfold bind, lift. draw. cbn [Demo2.alternative0 Demo2.results Sample.response_of
      Demo2.channels Demo2.index0 rbind exn_str Demo2.to_dict]. draw. reflexivity.
Qed.

(** C6, as the code has it.  In the transcribe flow of demo.py a transport
    failure and a body that does not decode end in the flow's error message
    on the page, with the run ending normally and the temporary file gone.
    A body that decodes is drawn as a whole page exactly when it has the
    word-list shape; a decoded body that lacks it is reported, by the
    renderer's own message with the payload or by the flow's message.  So
    for an answer of any status an error message is on the page exactly
    when its body does not decode or lacks the word-list shape.  In
    demo2.py any exception of the SDK call is reported, wrapped as
    "Deepgram transcription error: ...".  The status of the response is not
    looked at: for two providers whose answers differ in the status only,
    demo.py's client returns the same and the flow draws the same page. *)
Theorem C6_failures_reported (rt : runtime)
        (provider provider' : Demo.http_request -> Demo.http_outcome)
        (sdk : Demo2.sdk_call -> result Demo2.PrerecordedResponse)
        (tmp_stem : string) (i : inputs) (f : UploadedFile) (w : world) :
  Spec.ready i f -> files w !! Spec.tmp_path tmp_stem f = None ->
  (forall e,
     provider (Flow.the_request (getvalue f) (api_key i)) = Demo.TransportError e ->
     Demo.main rt provider tmp_stem i w =
     (Ok tt, World (page w ++ Spec.flow_head ++
                    [Error ("An error occurred during transcription: " +:+ exn_str e)])
                   (files w) (S (provider_calls w)))) /\
  (forall status data e,
     provider (Flow.the_request (getvalue f) (api_key i)) = Demo.Response status data ->
     json_loads rt data = Raise e ->
     Demo.main rt provider tmp_stem i w =
     (Ok tt, World (page w ++ Spec.flow_head ++
                    [Error ("An error occurred during transcription: " +:+ exn_str e)])
                   (files w) (S (provider_calls w)))) /\
  (forall status data j,
     provider (Flow.the_request (getvalue f) (api_key i)) = Demo.Response status data ->
     json_loads rt data = Ok j ->
     exists added,
       Demo.main rt provider tmp_stem i w =
       (Ok tt, World (page w ++ Spec.flow_head ++ added) (files w) (S (provider_calls w))) /\
       Expected.shows_error added = negb (Spec.word_list_shape j) /\
       (Spec.word_list_shape j = true ->
        exists html plain detailed,
          added =
          ([Markdown "### Transcription Result:" false; Markdown html true;
            DownloadButton "Download Transcript (Text)" plain
                           "transcript.txt" "text/plain";
            DownloadButton "Download Detailed Transcript (with confidence scores)"
                           detailed "detailed_transcript.txt" "text/plain"] ++
           Expected.raw_response j)%list) /\
       (Spec.word_list_shape j = false ->
        (exists before msg,
           (before = [] \/ before = [Markdown "### Transcription Result:" false]) /\
           added = (before ++ [Spec.parse_error msg; Json j] ++
                    Expected.raw_response j)%list) \/
        (exists before e,
           Expected.shows_error before = false /\
           added = (before ++ [Expected.flow_error (exn_str e)])%list))) /\
  (forall status data,
     provider (Flow.the_request (getvalue f) (api_key i)) = Demo.Response status data ->
     exists added,
       Demo.main rt provider tmp_stem i w =
       (Ok tt, World (page w ++ Spec.flow_head ++ added) (files w) (S (provider_calls w))) /\
       (Expected.shows_error added = true <->
        (exists e, json_loads rt data = Raise e) \/
        (exists j, json_loads rt data = Ok j /\ Spec.word_list_shape j = false))) /\
  (forall e,
     sdk (Flow.the_call (getvalue f) (api_key i)) = Raise e ->
     Demo2.main sdk tmp_stem i w =
     (Ok tt, World (page w ++ Spec.flow_head ++
                    [Error ("An error occurred during transcription: " +:+
                            ("Deepgram transcription error: " +:+ exn_str e))])
                   (files w) (S (provider_calls w)))) /\
  ((forall req, Spec.same_but_status (provider req) (provider' req)) ->
   (forall path key w0,
      Demo.transcribe_audio rt provider path key w0 =
      Demo.transcribe_audio rt provider' path key w0) /\
   Demo.main rt provider tmp_stem i w = Demo.main rt provider' tmp_stem i w).
Proof.
  intros Hr Hfresh.
  assert (forall status data e,
            provider (Flow.the_request (getvalue f) (api_key i)) =
              Demo.Response status data ->
            json_loads rt data = Raise e ->
            Demo.main rt provider tmp_stem i w =
            (Ok tt, World (page w ++ Spec.flow_head ++
                           [Error ("An error occurred during transcription: " +:+
                                   exn_str e)])
                          (files w) (S (provider_calls w)))) as Hdecode.
  { intros status data e Hp Hj.
    apply (main_client_fails rt provider tmp_stem i f w e Hr Hfresh).
    rewrite (transcribe_audio_run rt provider _ _ _ _ (staged_lookup _ f w)).
    now rewrite Hp, Hj. }
  split; [|split; [exact Hdecode|split; [|split; [|split]]]].
  - intros e Hp. apply (main_client_fails rt provider tmp_stem i f w e Hr Hfresh).
    rewrite (transcribe_audio_run rt provider _ _ _ _ (staged_lookup _ f w)).
    now rewrite Hp.
  - intros status data j Hp Hj.
    exact (main_by_shape rt provider tmp_stem i f w status data j Hr Hfresh Hp Hj).
  - intros status data Hp. destruct (json_loads rt data) as [j|e] eqn:Hj.
    + destruct (main_by_shape rt provider tmp_stem i f w status data j Hr Hfresh Hp Hj)
        as (added & Hm & Hs & _).
      exists added. split; [exact Hm|]. rewrite Hs. split.
      * intros H. right. exists j. split; [reflexivity|].
        now destruct (Spec.word_list_shape j).
      * intros [[e He]|(j' & Hj' & H')]; [discriminate|].
        injection Hj' as <-. now rewrite H'.
    + eexists. split; [exact (Hdecode status data e Hp Hj)|]. split; [eauto|reflexivity].
  - intros e Hs. exact (main2_sdk_fails sdk tmp_stem i f w e Hr Hfresh Hs).
  - intros Hsame. split.
    + intros path key w0. now apply transcribe_audio_status.
    + now apply (main_status rt provider provider' tmp_stem i f w).
Qed.

(** At a provider that refuses the connection, at an empty body, at a body
    without channels, and at an SDK call that fails. *)
Lemma C6_failures_reported_witness :
  Demo.main Sample.rt Sample.unreachable Sample.stem Sample.ready_inputs Sample.start =
    (Ok tt, World (Spec.flow_head ++
                   [Error ("An error occurred during transcription: " +:+
                           "[Errno 111] Connection refused")]) ∅ 1) /\
  Demo.main Sample.rt (Sample.answers 200 Sample.body_garbled) Sample.stem
            Sample.ready_inputs Sample.start =
    (Ok tt, World (Spec.flow_head ++
                   [Error ("An error occurred during transcription: " +:+
                           "Expecting value: line 1 column 1 (char 0)")]) ∅ 1) /\
  (exists added,
     Demo.main Sample.rt (Sample.answers 200 Sample.body_no_channels) Sample.stem
               Sample.ready_inputs Sample.start =
     (Ok tt, World (Spec.flow_head ++ added) ∅ 1) /\
     Expected.shows_error added = true) /\
  Demo2.main Sample.sdk_refuses Sample.stem Sample.ready_inputs Sample.start =
    (Ok tt, World (Spec.flow_head ++
                   [Error ("An error occurred during transcription: " +:+
                           ("Deepgram transcription error: " +:+
                            "[Errno 111] Connection refused"))]) ∅ 1).
Proof.
  assert (Spec.ready Sample.ready_inputs Sample.upload) as Hr
      by (repeat split; reflexivity).
  assert (files Sample.start !! Spec.tmp_path Sample.stem Sample.upload = None) as Hf
      by (vm_compute; reflexivity).
  split; [|split; [|split]].
  - exact (proj1 (C6_failures_reported Sample.rt Sample.unreachable Sample.unreachable
             Sample.sdk_refuses Sample.stem _ _ _ Hr Hf) Sample.refused eq_refl).
  - exact (proj1 (proj2 (C6_failures_reported Sample.rt
             (Sample.answers 200 Sample.body_garbled) Sample.unreachable
             Sample.sdk_refuses Sample.stem _ _ _ Hr Hf)) 200 Sample.body_garbled
             _ eq_refl eq_refl).
  - destruct (proj1 (proj2 (proj2 (C6_failures_reported Sample.rt
             (Sample.answers 200 Sample.body_no_channels) Sample.unreachable
             Sample.sdk_refuses Sample.stem _ _ _ Hr Hf))) 200 Sample.body_no_channels
             Sample.results_no_channels eq_refl eq_refl) as (added & Hm & Hs & _).
    exists added. split; [exact Hm | exact Hs].
  - exact (proj1 (proj2 (proj2 (proj2 (proj2 (C6_failures_reported Sample.rt
             Sample.unreachable Sample.unreachable Sample.sdk_refuses Sample.stem
             _ _ _ Hr Hf))))) Sample.refused eq_refl).
Defined.

(** C6 as stated fails in demo.py: a response with status 500 whose body
    decodes to a well-formed result is rendered as a success; no error
    message is put on the page. *)
Lemma C6_status_not_reported :
  Demo.main Sample.rt (Sample.answers 500 Sample.body_ok) Sample.stem
            Sample.ready_inputs Sample.start =
  (Ok tt, World (Spec.flow_head ++
                 Spec.transcript_page false [Sample.hello; Sample.world_] ++
                 [Expander "View Raw API Response"; Json Sample.results_hello]) ∅ 1) /\
  Forall (fun x => match x with Error _ => False | _ => True end)
         (page (snd (Demo.main Sample.rt (Sample.answers 500 Sample.body_ok) Sample.stem
                               Sample.ready_inputs Sample.start))).
Proof.
  split; [vm_compute; reflexivity|].
  vm_compute. repeat constructor.
Qed.

(** C7: in every run in which the temporary file is created (a file is
    chosen, a credential is entered, the button was pressed, and the name is
    free), the guarded part of the flow starts with the upload in the
    temporary file, the flow ends normally, and afterwards the files are as
    they were before the run: the temporary file is gone, whether the call
    and the rendering succeeded or raised, in both versions. *)
Theorem C7_temp_file_deleted (rt : runtime)
        (provider : Demo.http_request -> Demo.http_outcome)
        (sdk : Demo2.sdk_call -> result Demo2.PrerecordedResponse)
        (tmp_stem : string) (i : inputs) (f : UploadedFile) (w : world) :
  Spec.ready i f -> files w !! Spec.tmp_path tmp_stem f = None ->
  let path := Spec.tmp_path tmp_stem f in
  files (Flow.staged path f w) !! path = Some (getvalue f) /\
  (Demo.main rt provider tmp_stem i w =
     (Ok tt, Flow.after_flow (Flow.body rt provider i path) path (Flow.staged path f w)) /\
   files (snd (Demo.main rt provider tmp_stem i w)) = files w /\
   files (snd (Demo.main rt provider tmp_stem i w)) !! path = None) /\
  (Demo2.main sdk tmp_stem i w =
     (Ok tt, Flow.after_flow (Flow.body2 sdk i path) path (Flow.staged path f w)) /\
   files (snd (Demo2.main sdk tmp_stem i w)) = files w /\
   files (snd (Demo2.main sdk tmp_stem i w)) !! path = None).
Proof.
  intros Hr Hfresh path. split; [apply staged_lookup|]. split.
  - destruct (main_cleans rt provider tmp_stem i f w Hr Hfresh) as (w' & Hm & Hf).
    split; [now apply main_ready|]. rewrite Hm. cbn [snd]. rewrite Hf. auto.
  - destruct (main2_cleans sdk tmp_stem i f w Hr Hfresh) as (w' & Hm & Hf).
    split; [now apply main2_ready|]. rewrite Hm. cbn [snd]. rewrite Hf. auto.
Qed.

(** At a run that succeeds and at a run whose provider refuses the
    connection, on an empty disk. *)
Lemma C7_temp_file_deleted_witness :
  files (snd (Demo.main Sample.rt (Sample.answers 200 Sample.body_ok) Sample.stem
                        Sample.ready_inputs Sample.start)) = files Sample.start /\
  files (snd (Demo.main Sample.rt Sample.unreachable Sample.stem
                        Sample.ready_inputs Sample.start)) = files Sample.start /\
  files (snd (Demo2.main (Sample.sdk_answers Sample.response_hello) Sample.stem
                         Sample.ready_inputs Sample.start)) = files Sample.start.
Proof.
  assert (Spec.ready Sample.ready_inputs Sample.upload) as Hr
      by (repeat split; reflexivity).
  assert (files Sample.start !! Spec.tmp_path Sample.stem Sample.upload = None) as Hf
      by (vm_compute; reflexivity).
  split; [|split].
  - exact (proj1 (proj2 (proj1 (proj2 (C7_temp_file_deleted Sample.rt
             (Sample.answers 200 Sample.body_ok) (Sample.sdk_answers Sample.response_hello)
             Sample.stem _ _ _ Hr Hf))))).
  - exact (proj1 (proj2 (proj1 (proj2 (C7_temp_file_deleted Sample.rt
             Sample.unreachable (Sample.sdk_answers Sample.response_hello)
             Sample.stem _ _ _ Hr Hf))))).
  - exact (proj1 (proj2 (proj2 (proj2 (C7_temp_file_deleted Sample.rt
             Sample.unreachable (Sample.sdk_answers Sample.response_hello)
             Sample.stem _ _ _ Hr Hf))))).
Defined.

(** C8: whenever the credential is empty, with or without a file chosen, the
    flow of both versions only shows a prompt (the warning "Please enter
    your Deepgram API key to proceed." when a file is chosen) and makes no
    call to the provider: the call count is unchanged. *)
Theorem C8_no_credential (rt : runtime)
        (provider : Demo.http_request -> Demo.http_outcome)
        (sdk : Demo2.sdk_call -> result Demo2.PrerecordedResponse)
        (tmp_stem : string) (i : inputs) (w : world) :
  api_key i = "" ->
  Demo.main rt provider tmp_stem i w = (Ok tt, shown [Spec.prompt i] w) /\
  Demo2.main sdk tmp_stem i w = (Ok tt, shown [Spec.prompt i] w) /\
  provider_calls (snd (Demo.main rt provider tmp_stem i w)) = provider_calls w /\
  provider_calls (snd (Demo2.main sdk tmp_stem i w)) = provider_calls w /\
  (forall f, uploaded_file i = Some f ->
             Spec.prompt i = Warning "Please enter your Deepgram API key to proceed.").
Proof.
  intros Hk.
  rewrite (main_no_key rt provider tmp_stem i w Hk), (main2_no_key sdk tmp_stem i w Hk).
  repeat split. intros f Hf. unfold Spec.prompt. now rewrite Hf.
Qed.

(** At a run with a file chosen and no credential: no call is made. *)
Lemma C8_no_credential_witness :
  Demo.main Sample.rt Sample.unreachable Sample.stem Sample.no_key_inputs Sample.start =
    (Ok tt, shown [Spec.prompt Sample.no_key_inputs] Sample.start) /\
  provider_calls (snd (Demo.main Sample.rt Sample.unreachable Sample.stem
                                 Sample.no_key_inputs Sample.start)) = 0%nat.
Proof.
  pose proof (C8_no_credential Sample.rt Sample.unreachable Sample.sdk_refuses Sample.stem
                Sample.no_key_inputs Sample.start eq_refl) as (H1 & _ & H3 & _).
  split; [exact H1 | exact H3].
Defined.

(** C9: for every confidence [c] in [[0,1]] the text colour of both versions
    is "white" when the value of [c] is below one half and "black" when it
    is one half or more; at exactly 0.5 it is "black". *)
Theorem C9_text_color (c : spec_float) :
  Spec.in_unit c = true ->
  ((Spec.F2Q c < 1 # 2)%Q ->
   Demo.text_color (PFloat c) = "white" /\ Demo2.text_color c = "white") /\
  ((1 # 2 <= Spec.F2Q c)%Q ->
   Demo.text_color (PFloat c) = "black" /\ Demo2.text_color c = "black") /\
  Demo.text_color (PFloat f0_5) = "black" /\ Demo2.text_color f0_5 = "black".
Proof.
  intros Hc. rewrite (text_color_number c Hc), (text_color_double c Hc).
  unfold Spec.text_color. split; [|split; [|split; reflexivity]].
  - intros H. apply Qltb_lt in H. now rewrite H.
  - intros H. apply Qltb_ge in H. now rewrite H.
Qed.

(** At the confidence 0.31: light text. *)
Lemma C9_text_color_witness :
  Spec.in_unit Sample.c031 = true /\
  Demo.text_color (PFloat Sample.c031) = "white" /\ Demo2.text_color Sample.c031 = "white".
Proof.
  split; [vm_compute; reflexivity|].
  apply (C9_text_color Sample.c031); vm_compute; reflexivity.
Defined.

(** C10: for every word list, held as JSON entries by demo.py and as SDK
    words by demo2.py, the plain and the detailed export strings the two
    versions compute are the same. *)
Theorem C10_exports_agree (rt : runtime) (ws : list Spec.TranscriptWord)
        (items : list json) (words : list Demo2.Word) :
  Forall2 Spec.json_word ws items -> Forall2 Spec.sdk_word ws words ->
  Demo.plain_text (JArr items) = Ok (Demo2.plain_text words) /\
  Demo.detailed_text rt (JArr items) = Ok (Demo2.detailed_text words).
Proof.
  intros Hj Hs. unfold Demo2.plain_text, Demo2.detailed_text.
  rewrite (sdk_words_texts _ _ Hs), (sdk_words_lines _ _ Hs).
  split; [now apply plain_text_ok | now apply detailed_text_ok].
Qed.

(** At the words hello (0.92) and world (0.31). *)
Lemma C10_exports_agree_witness :
  Demo.plain_text (JArr [Sample.word_json Sample.hello; Sample.word_json Sample.world_]) =
    Ok (Demo2.plain_text (Demo2.words Sample.alternative_hello)) /\
  Demo.detailed_text Sample.rt
    (JArr [Sample.word_json Sample.hello; Sample.word_json Sample.world_]) =
    Ok (Demo2.detailed_text (Demo2.words Sample.alternative_hello)).
Proof.
  apply (C10_exports_agree Sample.rt [Sample.hello; Sample.world_]).
  - repeat constructor; eexists; (split; [reflexivity|]); split; vm_compute; reflexivity.
  - repeat constructor.
Defined.

(* ===================================================================== *)
(** * Further properties of the two scripts *)
(* ===================================================================== *)

(** X1: for a decoded result whose word list holds words with confidences in
    [[0,1]], demo.py's renderer ends normally and puts on the page exactly
    the heading, the transcript of coloured fragments in the original order
    and the two download buttons with the plain and the detailed export. *)
Theorem X1_rendered_page (rt : runtime) (results : json) (items : list json)
        (ws : list Spec.TranscriptWord) (show_confidence : bool) (w : world) :
  Spec.resolve Spec.word_list_path results = Some (JArr items) ->
  Forall2 Spec.json_word ws items ->
  Forall (fun w => Spec.in_unit (Spec.confidence w) = true) ws ->
  Demo.display_transcription rt results show_confidence w =
  (Ok tt, shown (Spec.transcript_page show_confidence ws) w).
Proof. apply display_transcription_ok. Qed.

(** At the words hello (0.92) and world (0.31). *)
Lemma X1_rendered_page_witness :
  Demo.display_transcription Sample.rt Sample.results_hello false Sample.start =
  (Ok tt, shown (Spec.transcript_page false [Sample.hello; Sample.world_]) Sample.start).
Proof.
  apply (X1_rendered_page Sample.rt Sample.results_hello
           [Sample.word_json Sample.hello; Sample.word_json Sample.world_]).
  - vm_compute; reflexivity.
  - repeat constructor; eexists; (split; [reflexivity|]); split; vm_compute; reflexivity.
  - repeat constructor.
Defined.

(** X2: for a result whose word list has nothing to iterate over (an empty
    list, or an empty string or an empty object in its place), demo.py's
    renderer reports no error: it shows the heading and an empty
    transcript, and both exports are the empty string. *)
Theorem X2_empty_word_list (rt : runtime) (results v : json) (show_confidence : bool)
        (w : world) :
  Spec.resolve Spec.word_list_path results = Some v -> iter v = Ok [] ->
  Demo.display_transcription rt results show_confidence w =
  (Ok tt, shown [Markdown "### Transcription Result:" false;
                 Markdown ("<div style=" +:+ dq +:+ "line-height: 2.5;" +:+ dq +:+ ">" +:+
                           "</div>") true;
                 DownloadButton "Download Transcript (Text)" "" "transcript.txt"
                                "text/plain";
                 DownloadButton "Download Detailed Transcript (with confidence scores)"
                                "" "detailed_transcript.txt" "text/plain"] w).
Proof.
  intros Hres Hv. now rewrite (display_nothing rt results v show_confidence w Hres Hv).
Qed.

(** At a result with an empty object in the place of the word list. *)
Lemma X2_empty_word_list_witness :
  fst (Demo.display_transcription Sample.rt (Sample.results_of (Sample.obj [])) true
                                  Sample.start)
  = Ok tt.
Proof.
  rewrite (X2_empty_word_list Sample.rt (Sample.results_of (Sample.obj [])) (Sample.obj [])
             true Sample.start); [reflexivity | vm_compute; reflexivity | reflexivity].
Defined.

(** X3: demo.py's renderer catches [KeyError] only.  For every result
    whose list of channels, or whose first channel's list of alternatives,
    is empty, the subscript [[0]] raises [IndexError], which leaves the
    renderer with nothing drawn; the flow reports it with its own message
    and the raw payload is not shown. *)
Theorem X3_empty_channels_escape (rt : runtime)
        (provider : Demo.http_request -> Demo.http_outcome)
        (tmp_stem : string) (i : inputs) (f : UploadedFile) (w : world)
        (status : Z) (data : bytes) (j : json) :
  Spec.resolve [Spec.Key "results"; Spec.Key "channels"] j = Some (JArr []) \/
  Spec.resolve [Spec.Key "results"; Spec.Key "channels"; Spec.First;
                Spec.Key "alternatives"] j = Some (JArr []) ->
  (forall show_confidence w0,
     Demo.display_transcription rt j show_confidence w0 =
     (Raise (Exn IndexError "list index out of range"), w0)) /\
  (Spec.ready i f -> files w !! Spec.tmp_path tmp_stem f = None ->
   provider (Flow.the_request (getvalue f) (api_key i)) = Demo.Response status data ->
   json_loads rt data = Ok j ->
   Demo.main rt provider tmp_stem i w =
   (Ok tt, World (page w ++ Spec.flow_head ++
                  [Error "An error occurred during transcription: list index out of range"])
                 (files w) (S (provider_calls w)))).
Proof.
  intros H. split; [intros; now apply display_empty_list|].
  intros Hr Hfresh Hp Hj.
  apply (main_displayed rt provider tmp_stem i f w status data j
           (Raise (Exn IndexError "list index out of range")) [] Hr Hfresh Hp Hj).
  rewrite shown_nil. now apply display_empty_list.
Qed.

(** At the answer 200 with an empty list of channels. *)
Lemma X3_empty_channels_escape_witness :
  Demo.display_transcription Sample.rt Sample.results_no_channels false Sample.start =
    (Raise (Exn IndexError "list index out of range"), Sample.start) /\
  Demo.main Sample.rt (Sample.answers 200 Sample.body_no_channels) Sample.stem
            Sample.ready_inputs Sample.start =
    (Ok tt, World (Spec.flow_head ++
                   [Error "An error occurred during transcription: list index out of range"])
                  ∅ 1).
Proof.
  pose proof (X3_empty_channels_escape Sample.rt
                (Sample.answers 200 Sample.body_no_channels) Sample.stem
                Sample.ready_inputs Sample.upload Sample.start 200 Sample.body_no_channels
                Sample.results_no_channels (or_introl eq_refl)) as [H1 H2].
  split; [apply H1|]. apply H2.
  - repeat split; reflexivity.
  - vm_compute; reflexivity.
  - reflexivity.
  - reflexivity.
Defined.

(** X4: what demo2.py's renderer can do.  On every response it ends
    normally, whatever is raised inside it being caught and reported, and it
    draws the same in every state.  When the path to the first alternative
    or to its paragraphs raises, the page gets the heading, the renderer's
    message and the raw payload, and no sentence.  Otherwise the sentences
    of all paragraphs are gone through in order, one element being drawn
    for each, with the markup the token loop gave for it: either for all of
    them, followed by the two downloads with the exports of the
    alternative's words; or up to the first sentence whose token loop raises
    (a confidence that is NaN, or infinite or too large), followed by the
    renderer's message for that exception and the raw payload. *)
Theorem X4_sdk_renderer_outcomes (response : Demo2.PrerecordedResponse)
        (show_confidence : bool) :
  (exists e,
     (Demo2.alternative0 (Demo2.results response) = Raise e \/
      exists a, Demo2.alternative0 (Demo2.results response) = Ok a /\
                Demo2.paragraphs_of a = Raise e) /\
     forall w,
       Demo2.display_transcription response show_confidence w =
       (Ok tt, shown (Markdown "### Transcription Result:" false ::
                      Expected.report (exn_str e) (Demo2.to_dict response)) w)) \/
  (exists a ps done rest sentences k,
     Demo2.alternative0 (Demo2.results response) = Ok a /\
     Demo2.paragraphs_of a = Ok ps /\
     Expected.all_sentences ps = (done ++ rest)%list /\
     Expected.drawn show_confidence (Demo2.words a) 0 done sentences k /\
     ((rest = [] /\
       forall w,
         Demo2.display_transcription response show_confidence w =
         (Ok tt, shown (Markdown "### Transcription Result:" false ::
                        sentences ++ Expected.sdk_downloads (Demo2.words a)) w)) \/
      (exists s rest' e,
         rest = s :: rest' /\
         Demo2.tokens_html show_confidence (Demo2.words a)
                           (str_split " " (Demo2.text s)) Expected.sentence_open k =
           Raise e /\
         Expected.colour_error e /\
         forall w,
           Demo2.display_transcription response show_confidence w =
           (Ok tt, shown (Markdown "### Transcription Result:" false ::
                          sentences ++
                          Expected.report (exn_str e) (Demo2.to_dict response)) w)))).
Proof. apply display2_classified. Qed.

(** X5: for every confidence in [[0,1]] the three components of the
    background colour computed by both versions are integers between 0 and
    255 (blue being 0): a valid CSS colour. *)
Theorem X5_rgb_in_range (c : spec_float) :
  Spec.in_unit c = true ->
  exists r g, Demo.rgb (PFloat c) = Ok (r, g, 0) /\ Demo2.rgb c = Ok (r, g, 0) /\
              0 <= r <= 255 /\ 0 <= g <= 255.
Proof.
  intros Hc. pose proof (rgb_floor_range c Hc) as [Hr Hg].
  exists (fst (fst (Spec.rgb_floor c))), (snd (fst (Spec.rgb_floor c))).
  rewrite (rgb_floor_number c Hc), (rgb_floor_double c Hc). repeat split; try lia.
Qed.

(** At the confidence 1.0. *)
Lemma X5_rgb_in_range_witness :
  exists r g, Demo.rgb (PFloat f1) = Ok (r, g, 0) /\ Demo2.rgb f1 = Ok (r, g, 0) /\
              0 <= r <= 255 /\ 0 <= g <= 255.
Proof. apply (X5_rgb_in_range f1). vm_compute; reflexivity. Defined.

(** X6: the flow of demo.py on a well-formed answer.  Whatever the status,
    when the body decodes to a result whose word list holds words with
    confidences in [[0,1]], the run ends normally and the page gets the
    button, the spinner, the transcript with its two downloads and the raw
    response in its expander; the files are as before and one call was
    made. *)
Theorem X6_flow_success (rt : runtime) (provider : Demo.http_request -> Demo.http_outcome)
        (tmp_stem : string) (i : inputs) (f : UploadedFile) (w : world)
        (status : Z) (data : bytes) (j : json) (items : list json)
        (ws : list Spec.TranscriptWord) :
  Spec.ready i f -> files w !! Spec.tmp_path tmp_stem f = None ->
  provider (Flow.the_request (getvalue f) (api_key i)) = Demo.Response status data ->
  json_loads rt data = Ok j ->
  Spec.resolve Spec.word_list_path j = Some (JArr items) ->
  Forall2 Spec.json_word ws items ->
  Forall (fun w => Spec.in_unit (Spec.confidence w) = true) ws ->
  Demo.main rt provider tmp_stem i w =
  (Ok tt, World (page w ++ Spec.flow_head ++
                 Spec.transcript_page (show_confidence i) ws ++
                 Expected.raw_response j)
                (files w) (S (provider_calls w))).
Proof.
  intros Hr Hfresh Hp Hj Hres Hws Hall.
  apply (main_displayed rt provider tmp_stem i f w status data j (Ok tt) _ Hr Hfresh Hp Hj).
  now apply display_transcription_ok with items.
Qed.

(** At the answer 200 with the words hello and world. *)
Lemma X6_flow_success_witness :
  Demo.main Sample.rt (Sample.answers 200 Sample.body_ok) Sample.stem
            Sample.ready_inputs Sample.start =
  (Ok tt, World (page Sample.start ++ Spec.flow_head ++
                 Spec.transcript_page false [Sample.hello; Sample.world_] ++
                 Expected.raw_response Sample.results_hello)
                (files Sample.start) 1).
Proof.
  apply (X6_flow_success Sample.rt (Sample.answers 200 Sample.body_ok) Sample.stem
           Sample.ready_inputs Sample.upload Sample.start 200 Sample.body_ok
           Sample.results_hello
           [Sample.word_json Sample.hello; Sample.word_json Sample.world_]).
  - repeat split; reflexivity.
  - vm_compute; reflexivity.
  - reflexivity.
  - reflexivity.
  - vm_compute; reflexivity.
  - repeat constructor; eexists; (split; [reflexivity|]); split; vm_compute; reflexivity.
  - repeat constructor.
Defined.

(** X7: the flow of demo.py on a body that decodes to an object without
    [results] (as the provider's error bodies are).  The renderer reports
    the missing key by name and shows the payload; the flow then shows
    the payload again in its expander, and not its own error message. *)
Theorem X7_error_body (rt : runtime) (provider : Demo.http_request -> Demo.http_outcome)
        (tmp_stem : string) (i : inputs) (f : UploadedFile) (w : world)
        (status : Z) (data : bytes) (o : gmap string json) :
  Spec.ready i f -> files w !! Spec.tmp_path tmp_stem f = None ->
  provider (Flow.the_request (getvalue f) (api_key i)) = Demo.Response status data ->
  json_loads rt data = Ok (JObj o) -> o !! "results" = None ->
  Demo.main rt provider tmp_stem i w =
  (Ok tt, World (page w ++ Spec.flow_head ++
                 [Error "Error parsing transcription result: 'results'"; Json (JObj o)] ++
                 Expected.raw_response (JObj o))
                (files w) (S (provider_calls w))).
Proof.
  intros Hr Hfresh Hp Hj Ho.
  apply (main_displayed rt provider tmp_stem i f w status data (JObj o) (Ok tt) _
           Hr Hfresh Hp Hj).
  now apply display_no_results.
Qed.

(** At the answer 401 with the provider's error object. *)
Lemma X7_error_body_witness :
  Demo.main Sample.rt (Sample.answers 401 Sample.body_error) Sample.stem
            Sample.ready_inputs Sample.start =
  (Ok tt, World (page Sample.start ++ Spec.flow_head ++
                 [Error "Error parsing transcription result: 'results'";
                  Json Sample.results_error] ++
                 Expected.raw_response Sample.results_error)
                (files Sample.start) 1).
Proof.
  apply (X7_error_body Sample.rt (Sample.answers 401 Sample.body_error) Sample.stem
           Sample.ready_inputs Sample.upload Sample.start 401 Sample.body_error).
  - repeat split; reflexivity.
  - vm_compute; reflexivity.
  - reflexivity.
  - reflexivity.
  - vm_compute; reflexivity.
Defined.

(** X8: a run in which the flow does not start (no file is chosen, or no
    credential is entered, or the button was not pressed) ends normally
    with exactly one element added to the page: the button when only the
    click is missing, the prompt for what is missing otherwise.  No file
    is created and no call is made, in both versions. *)
Theorem X8_idle_run (rt : runtime) (provider : Demo.http_request -> Demo.http_outcome)
        (sdk : Demo2.sdk_call -> result Demo2.PrerecordedResponse)
        (tmp_stem : string) (i : inputs) (w : world) :
  transcribe_clicked i = false \/ uploaded_file i = None \/ api_key i = "" ->
  Demo.main rt provider tmp_stem i w =
    (Ok tt, World (page w ++ [Expected.idle i]) (files w) (provider_calls w)) /\
  Demo2.main sdk tmp_stem i w =
    (Ok tt, World (page w ++ [Expected.idle i]) (files w) (provider_calls w)).
Proof.
  intros H. split; [now apply main_idle | now apply main2_idle].
Qed.

(** At a run with a file and a credential, the button not pressed. *)
Lemma X8_idle_run_witness :
  Demo.main Sample.rt Sample.unreachable Sample.stem Sample.waiting_inputs Sample.start =
    (Ok tt, World [Button "Transcribe Audio"] ∅ 0) /\
  Demo2.main Sample.sdk_refuses Sample.stem Sample.waiting_inputs Sample.start =
    (Ok tt, World [Button "Transcribe Audio"] ∅ 0).
Proof.
  apply (X8_idle_run Sample.rt Sample.unreachable Sample.sdk_refuses Sample.stem
           Sample.waiting_inputs Sample.start).
  left. reflexivity.
Defined.

(** X9: a run of the flow makes exactly one call, whatever its outcome, and
    asks the provider nothing but its answer to the upload: the POST of the
    uploaded bytes to [/v1/listen] on [api.deepgram.com] with the
    credential in the [Authorization] header (demo.py), the SDK call with
    the credential, the uploaded bytes and the options nova-3, smart
    format, diarize (demo2.py).  Two providers that agree on it give the
    same run. *)
Theorem X9_one_request (rt : runtime)
        (provider provider' : Demo.http_request -> Demo.http_outcome)
        (sdk sdk' : Demo2.sdk_call -> result Demo2.PrerecordedResponse)
        (tmp_stem : string) (i : inputs) (f : UploadedFile) (w : world) :
  Spec.ready i f -> files w !! Spec.tmp_path tmp_stem f = None ->
  provider_calls (snd (Demo.main rt provider tmp_stem i w)) = S (provider_calls w) /\
  provider_calls (snd (Demo2.main sdk tmp_stem i w)) = S (provider_calls w) /\
  (provider (Flow.the_request (getvalue f) (api_key i)) =
   provider' (Flow.the_request (getvalue f) (api_key i)) ->
   Demo.main rt provider tmp_stem i w = Demo.main rt provider' tmp_stem i w) /\
  (sdk (Flow.the_call (getvalue f) (api_key i)) =
   sdk' (Flow.the_call (getvalue f) (api_key i)) ->
   Demo2.main sdk tmp_stem i w = Demo2.main sdk' tmp_stem i w).
Proof.
  intros Hr Hfresh. split; [now apply main_calls with f|].
  split; [now apply main2_calls with f|].
  split; intros H; [now apply main_one_request with f | now apply main2_one_call with f].
Qed.

(** At a run that succeeds: one call. *)
Lemma X9_one_request_witness :
  provider_calls (snd (Demo.main Sample.rt (Sample.answers 200 Sample.body_ok) Sample.stem
                                 Sample.ready_inputs Sample.start)) = 1%nat /\
  provider_calls (snd (Demo2.main (Sample.sdk_answers Sample.response_hello) Sample.stem
                                  Sample.ready_inputs Sample.start)) = 1%nat.
Proof.
  assert (Spec.ready Sample.ready_inputs Sample.upload) as Hr
      by (repeat split; reflexivity).
  assert (files Sample.start !! Spec.tmp_path Sample.stem Sample.upload = None) as Hf
      by (vm_compute; reflexivity).
  pose proof (X9_one_request Sample.rt (Sample.answers 200 Sample.body_ok)
                (Sample.answers 200 Sample.body_ok)
                (Sample.sdk_answers Sample.response_hello)
                (Sample.sdk_answers Sample.response_hello)
                Sample.stem Sample.ready_inputs Sample.upload Sample.start Hr Hf)
    as (H1 & H2 & _).
  split; [exact H1 | exact H2].
Defined.

(** X10: the temporary file of the flow is named by the system's stem, a
    dot and the extension of the upload's name: what follows the last dot
    of the name, so that the extension holds no dot itself; a name without
    a dot is its own extension.  This is the path the guarded part of both
    versions reads and the flow removes. *)
Theorem X10_temp_suffix (rt : runtime) (provider : Demo.http_request -> Demo.http_outcome)
        (sdk : Demo2.sdk_call -> result Demo2.PrerecordedResponse)
        (stem : string) (i : inputs) (f : UploadedFile) (w : world) :
  Spec.ready i f -> files w !! (stem +:+ "." +:+ Expected.extension (name f)) = None ->
  let path := stem +:+ "." +:+ Expected.extension (name f) in
  Demo.main rt provider stem i w =
    (Ok tt, Flow.after_flow (Flow.body rt provider i path) path (Flow.staged path f w)) /\
  Demo2.main sdk stem i w =
    (Ok tt, Flow.after_flow (Flow.body2 sdk i path) path (Flow.staged path f w)) /\
  Spec.contains "." (Expected.extension (name f)) = false /\
  (Spec.contains "." (name f) = false -> Expected.extension (name f) = name f) /\
  (Spec.contains "." (name f) = true ->
   exists pre, name f = pre +:+ "." +:+ Expected.extension (name f)).
Proof.
  intros Hr Hfresh path.
  split; [exact (main_ready rt provider stem i f w Hr Hfresh)|].
  split; [exact (main2_ready sdk stem i f w Hr Hfresh)|].
  apply extension_spec.
Qed.

(** At the upload named talk.final.wav: the extension is wav. *)
Lemma X10_temp_suffix_witness :
  Expected.extension (name Sample.upload) = "wav" /\
  Demo.main Sample.rt Sample.unreachable Sample.stem Sample.ready_inputs Sample.start =
    (Ok tt, Flow.after_flow
              (Flow.body Sample.rt Sample.unreachable Sample.ready_inputs "/tmp/tmpk3x9.wav")
              "/tmp/tmpk3x9.wav" (Flow.staged "/tmp/tmpk3x9.wav" Sample.upload Sample.start)).
Proof.
  split; [reflexivity|].
  apply (X10_temp_suffix Sample.rt Sample.unreachable Sample.sdk_refuses Sample.stem
           Sample.ready_inputs Sample.upload Sample.start).
  - repeat split; reflexivity.
  - vm_compute; reflexivity.
Defined.

(** X11: on a file that is not there neither client calls the provider
    (the credential being one the flow lets through: not empty).  demo.py's
    client raises the [open] error as it is; demo2.py's client raises it
    wrapped as "Deepgram transcription error: ...".  The state is
    unchanged. *)
Theorem X11_missing_file (rt : runtime) (provider : Demo.http_request -> Demo.http_outcome)
        (sdk : Demo2.sdk_call -> result Demo2.PrerecordedResponse)
        (path api_key : string) (w : world) :
  truthy api_key = true -> files w !! path = None ->
  Demo.transcribe_audio rt provider path api_key w =
    (Raise (Exn OSError ("[Errno 2] No such file or directory: '" +:+ path +:+ "'")), w) /\
  Demo2.transcribe_audio sdk path api_key w =
    (Raise (Exn Exception_ ("Deepgram transcription error: " +:+
                            "[Errno 2] No such file or directory: '" +:+ path +:+ "'")), w).
Proof.
  intros _ Hf. split.
  - unfold Demo.transcribe_audio, bind, read. now rewrite Hf.
  - unfold Demo2.transcribe_audio. rewrite try_except_all.
    unfold bind, read. now rewrite Hf.
Qed.

(** At a path on an empty disk. *)
Lemma X11_missing_file_witness :
  Demo.transcribe_audio Sample.rt (Sample.answers 200 Sample.body_ok)
                        "/tmp/gone.wav" "secret" Sample.start =
    (Raise (Exn OSError "[Errno 2] No such file or directory: '/tmp/gone.wav'"),
     Sample.start) /\
  Demo2.transcribe_audio (Sample.sdk_answers Sample.response_hello)
                         "/tmp/gone.wav" "secret" Sample.start =
    (Raise (Exn Exception_ ("Deepgram transcription error: " +:+
                            "[Errno 2] No such file or directory: '/tmp/gone.wav'")),
     Sample.start).
Proof.
  apply (X11_missing_file Sample.rt (Sample.answers 200 Sample.body_ok)
           (Sample.sdk_answers Sample.response_hello) "/tmp/gone.wav" "secret" Sample.start).
  - reflexivity.
  - reflexivity.
Defined.

(** X12: demo2.py's client, called with a credential that is not empty,
    returns the SDK's response as it is, and raises nothing but an
    [Exception] whose text is "Deepgram transcription error: " followed by
    the text of what was raised inside it: a failure of the SDK call or of
    reading the file. *)
Theorem X12_sdk_client (sdk : Demo2.sdk_call -> result Demo2.PrerecordedResponse)
        (path api_key : string) (w : world) :
  truthy api_key = true ->
  match fst (Demo2.transcribe_audio sdk path api_key w) with
  | Ok response =>
      exists data, files w !! path = Some data /\
                   sdk (Flow.the_call data api_key) = Ok response
  | Raise e =>
      exn_cls e = Exception_ /\
      exists e0, exn_str e = "Deepgram transcription error: " +:+ exn_str e0 /\
                 (files w !! path = None \/
                  exists data, files w !! path = Some data /\
                               sdk (Flow.the_call data api_key) = Raise e0)
  end.
Proof.
  intros _. destruct (files w !! path) as [data|] eqn:Hf.
  - rewrite (transcribe_audio2_run sdk path api_key data w Hf).
    destruct (sdk (Flow.the_call data api_key)) as [r|e0] eqn:Hs; cbn [fst].
    + eauto.
    + split; [reflexivity|]. exists e0. split; [reflexivity|]. right. eauto.
  - unfold Demo2.transcribe_audio. rewrite try_except_all.
    unfold bind, read. rewrite Hf. cbn [fst no_such_file raise].
    split; [reflexivity|]. eexists (Exn OSError _). split; [reflexivity|]. now left.
Qed.

(** At an SDK that refuses the connection, for a file that is there. *)
Lemma X12_sdk_client_witness :
  match fst (Demo2.transcribe_audio Sample.sdk_refuses "/tmp/a.wav" "secret"
               Sample.one_file) with
  | Ok response =>
      exists data, files Sample.one_file !! "/tmp/a.wav" = Some data /\
                   Sample.sdk_refuses (Flow.the_call data "secret") = Ok response
  | Raise e =>
      exn_cls e = Exception_ /\
      exists e0, exn_str e = "Deepgram transcription error: " +:+ exn_str e0 /\
                 (files Sample.one_file !! "/tmp/a.wav" = None \/
                  exists data, files Sample.one_file !! "/tmp/a.wav" = Some data /\
                               Sample.sdk_refuses (Flow.the_call data "secret") = Raise e0)
  end.
Proof.
  apply (X12_sdk_client Sample.sdk_refuses "/tmp/a.wav" "secret" Sample.one_file).
  reflexivity.
Defined.

(** X13: the loop over the tokens of a sentence in demo2.py pairs tokens
    and words by position.  Started with the counter at [k], it draws the
    token at position [k + j] on the colours of the word at that position
    (and plainly, as [<span>token</span>], when there is no such word), and
    it leaves the counter at [k] plus the number of tokens, stopped at the
    number of words. *)
Theorem X13_tokens_paired (show_confidence : bool) (words : list Demo2.Word)
        (tokens : list string) (html : string) (k : nat) :
  Forall (fun x => Spec.in_unit (Demo2.confidence x) = true) words ->
  (k <= length words)%nat ->
  Demo2.tokens_html show_confidence words tokens html k =
  Ok (html +:+ Expected.tokens_markup show_confidence words k tokens,
      Nat.min (k + length tokens) (length words)).
Proof.
  intros Hall Hk. rewrite <- (tokens_html_ok show_confidence words Hall tokens html k).
  now rewrite Nat.min_l.
Qed.

(** At three tokens over the two words hello and world: the third token is
    drawn plainly and the counter stops at two. *)
Lemma X13_tokens_paired_witness :
  Demo2.tokens_html false [Sample.word_sdk Sample.hello; Sample.word_sdk Sample.world_]
                    ["Hello,"; "world."; "Bye."] "" 0 =
  Ok ("" +:+ (span 20 234 0 "black" "Hello," +:+ span 175 79 0 "white" "world." +:+
              "<span>Bye.</span> "), 2%nat).
Proof.
  rewrite (X13_tokens_paired false [Sample.word_sdk Sample.hello; Sample.word_sdk Sample.world_]
             ["Hello,"; "world."; "Bye."] "" 0).
  - vm_compute; reflexivity.
  - repeat constructor.
  - cbn; lia.
Defined.

(** X14: the page of demo2.py for a response with its first alternative
    and paragraphs, when the confidences are in [[0,1]]: the heading, one
    element per sentence in the order of the paragraphs, the tokens of all
    sentences being counted through, and the two downloads with the
    exports of the words. *)
Theorem X14_sdk_page (response : Demo2.PrerecordedResponse) (a : Demo2.Alternative)
        (ps : list Demo2.Paragraph) (show_confidence : bool) (w : world) :
  Expected.sdk_answer response a ps ->
  Forall (fun x => Spec.in_unit (Demo2.confidence x) = true) (Demo2.words a) ->
  Demo2.display_transcription response show_confidence w =
  (Ok tt, shown (Expected.sdk_page show_confidence (Demo2.words a) ps) w).
Proof.
  intros Ha Hall. now apply (display2_ok show_confidence (Demo2.words a) Hall response a).
Qed.

(** At the response for the sentence "Hello, world.". *)
Lemma X14_sdk_page_witness :
  Demo2.display_transcription Sample.response_hello false Sample.start =
  (Ok tt, shown (Expected.sdk_page false (Demo2.words Sample.alternative_hello)
                   [{| Demo2.sentences := [{| Demo2.text := "Hello, world." |}] |}])
                Sample.start).
Proof.
  apply (X14_sdk_page Sample.response_hello Sample.alternative_hello).
  - do 5 eexists. repeat split; reflexivity.
  - repeat constructor.
Defined.

(** X15: the flow of demo2.py once the SDK has returned a response.  The
    run ends normally, the page gets the button, the spinner, what the
    renderer draws for the response and the raw response in its expander;
    the flow's own error message is not among them, whatever the response
    holds, since the renderer reports what it meets itself.  For a response
    as in X14 the renderer drew the page of X14. *)
Theorem X15_sdk_flow (sdk : Demo2.sdk_call -> result Demo2.PrerecordedResponse)
        (tmp_stem : string) (i : inputs) (f : UploadedFile) (w : world)
        (response : Demo2.PrerecordedResponse) :
  Spec.ready i f -> files w !! Spec.tmp_path tmp_stem f = None ->
  sdk (Flow.the_call (getvalue f) (api_key i)) = Ok response ->
  (exists els,
     (forall w0, Demo2.display_transcription response (show_confidence i) w0 =
                 (Ok tt, shown els w0)) /\
     Demo2.main sdk tmp_stem i w =
     (Ok tt, World (page w ++ Spec.flow_head ++ els ++
                    Expected.raw_response (Demo2.to_dict response))
                   (files w) (S (provider_calls w))) /\
     Forall (fun x => forall msg, x <> Expected.flow_error msg)
            (Spec.flow_head ++ els ++ Expected.raw_response (Demo2.to_dict response))) /\
  (forall a ps,
     Expected.sdk_answer response a ps ->
     Forall (fun x => Spec.in_unit (Demo2.confidence x) = true) (Demo2.words a) ->
     Demo2.main sdk tmp_stem i w =
     (Ok tt, World (page w ++ Spec.flow_head ++
                    Expected.sdk_page (show_confidence i) (Demo2.words a) ps ++
                    Expected.raw_response (Demo2.to_dict response))
                   (files w) (S (provider_calls w)))).
Proof.
  intros Hr Hfresh Hs. split.
  - destruct (display2_fixed response (show_confidence i)) as (els & Hels & Hno).
    exists els. split; [exact Hels|]. split.
    + now apply (main2_displayed sdk tmp_stem i f w response els).
    + apply Forall_app. split; [repeat constructor; intros msg; discriminate|].
      apply Forall_app. split; [exact Hno|].
      repeat constructor; intros msg; discriminate.
  - intros a ps Ha Hall.
    apply (main2_displayed sdk tmp_stem i f w response _ Hr Hfresh Hs).
    now apply (display2_ok (show_confidence i) (Demo2.words a) Hall response a).
Qed.

(** At the response for the sentence "Hello, world.". *)
Lemma X15_sdk_flow_witness :
  Demo2.main (Sample.sdk_answers Sample.response_hello) Sample.stem
             Sample.ready_inputs Sample.start =
  (Ok tt, World (page Sample.start ++ Spec.flow_head ++
                 Expected.sdk_page false (Demo2.words Sample.alternative_hello)
                   [{| Demo2.sentences := [{| Demo2.text := "Hello, world." |}] |}] ++
                 Expected.raw_response Sample.results_hello)
                (files Sample.start) 1).
Proof.
  apply (proj2 (X15_sdk_flow (Sample.sdk_answers Sample.response_hello) Sample.stem
                  Sample.ready_inputs Sample.upload Sample.start Sample.response_hello
                  ltac:(repeat split; reflexivity) ltac:(vm_compute; reflexivity) eq_refl)
               Sample.alternative_hello).
  - do 5 eexists. repeat split; reflexivity.
  - repeat constructor.
Defined.

(** X16: a word entry of demo.py whose confidence is not a finite number
    (a value that is no number, NaN, or an infinity), after entries that
    are well formed.  [1 - confidence] or [int(...)] raises a [TypeError],
    a [ValueError] or an [OverflowError]; it passes the renderer's
    [KeyError] handler, with the heading drawn and nothing else: no
    transcript, no renderer message, no payload. *)
Theorem X16_confidence_not_a_number (rt : runtime) (results : json)
        (ws : list Spec.TranscriptWord) (good : list json) (o : gmap string json)
        (rest : list json) (v : json) (e : exn) (show_confidence : bool) (w : world) :
  Spec.resolve Spec.word_list_path results = Some (JArr (good ++ JObj o :: rest)) ->
  Forall2 Spec.json_word ws good ->
  Forall (fun w => Spec.in_unit (Spec.confidence w) = true) ws ->
  o !! "confidence" = Some v -> Expected.confidence_error v = Some e ->
  Demo.display_transcription rt results show_confidence w =
    (Raise e, shown [Markdown "### Transcription Result:" false] w) /\
  is_KeyError e = false.
Proof.
  intros Hres Hws Hall Ho He. split.
  - now apply (display_unusable rt results ws good o rest v e).
  - now apply (word_span_unusable rt show_confidence o v e).
Qed.

(** At the word hello followed by an entry whose confidence is NaN. *)
Lemma X16_confidence_not_a_number_witness :
  Demo.display_transcription Sample.rt
    (Sample.results_of (JArr [Sample.word_json Sample.hello;
                              Sample.entry "world" (JFloat S754_nan)]))
    false Sample.start =
    (Raise (Exn ValueError "cannot convert float NaN to integer"),
     shown [Markdown "### Transcription Result:" false] Sample.start) /\
  is_KeyError (Exn ValueError "cannot convert float NaN to integer") = false.
Proof.
  apply (X16_confidence_not_a_number Sample.rt _ [Sample.hello]
           [Sample.word_json Sample.hello]
           (list_to_map [("word", JStr "world"); ("confidence", JFloat S754_nan)])
           [] (JFloat S754_nan)).
  - vm_compute; reflexivity.
  - repeat constructor; eexists; (split; [reflexivity|]); split; vm_compute; reflexivity.
  - repeat constructor.
  - vm_compute; reflexivity.
  - reflexivity.
Defined.

(** X17: a word entry of demo.py whose confidence is the JSON integer 0 or
    1 (or a boolean) instead of a float is rendered and exported as the
    float 0.0 or 1.0 is: the same colours, the same text colour and the
    same two decimals. *)
Theorem X17_integer_confidence (rt : runtime) (show_confidence : bool)
        (o : gmap string json) (t : string) (v : json) (z : Z) :
  o !! "word" = Some (JStr t) -> o !! "confidence" = Some v ->
  as_number v = Some (PInt z) -> 0 <= z <= 1 ->
  Demo.word_span rt show_confidence (JObj o) =
    Ok (Spec.fragment show_confidence t (float_of_Z z)) /\
  Demo.detailed_line rt (JObj o) = Ok (t +:+ " (" +:+ format_2f (float_of_Z z) +:+ ")").
Proof. apply word_span_integer. Qed.

(** At the entry world with the confidence 1. *)
Lemma X17_integer_confidence_witness :
  Demo.word_span Sample.rt true (Sample.entry "world" (JInt 1)) =
    Ok (span 0 255 0 "black" "world (1.00)") /\
  Demo.detailed_line Sample.rt (Sample.entry "world" (JInt 1)) = Ok "world (1.00)".
Proof.
  apply (X17_integer_confidence Sample.rt true
           (list_to_map [("word", JStr "world"); ("confidence", JInt 1)])
           "world" (JInt 1) 1).
  - vm_compute; reflexivity.
  - vm_compute; reflexivity.
  - reflexivity.
  - lia.
Defined.

(** X18: what demo.py's renderer can do, on every decoded result.  Either
    it ends normally with the whole page (heading, transcript, both
    downloads); or it ends normally with its own report of a [KeyError] and
    the raw payload, which then come first or right after the heading, never
    below a transcript; or it raises an exception that is no [KeyError],
    with the part of the page drawn so far.  Nothing else in the state
    changes. *)
Theorem X18_renderer_outcomes (rt : runtime) (results : json) (show_confidence : bool)
        (w : world) :
  (exists html plain detailed,
     Demo.display_transcription rt results show_confidence w =
     (Ok tt, shown [Markdown "### Transcription Result:" false; Markdown html true;
                    DownloadButton "Download Transcript (Text)" plain
                                   "transcript.txt" "text/plain";
                    DownloadButton "Download Detailed Transcript (with confidence scores)"
                                   detailed "detailed_transcript.txt" "text/plain"] w)) \/
  (exists msg before,
     (before = [] \/ before = [Markdown "### Transcription Result:" false]) /\
     Demo.display_transcription rt results show_confidence w =
     (Ok tt, shown (before ++ [Spec.parse_error msg; Json results]) w)) \/
  (exists e before,
     is_KeyError e = false /\
     Demo.display_transcription rt results show_confidence w = (Raise e, shown before w) /\
     (before = [] \/
      before = [Markdown "### Transcription Result:" false] \/
      (exists html, before = [Markdown "### Transcription Result:" false;
                              Markdown html true]) \/
      (exists html plain,
         before = [Markdown "### Transcription Result:" false; Markdown html true;
                   DownloadButton "Download Transcript (Text)" plain
                                  "transcript.txt" "text/plain"]))).
Proof. apply display_outcomes. Qed.

(** X19: the colour follows the confidence.  Of two confidences in
    [[0,1]], the one of the greater value has at least as much green and at
    most as much red, in both versions: the rounding of the two products
    and of [1 - c] to doubles and the truncation by [int()] keep the
    order. *)
Theorem X19_greener_with_confidence (c1 c2 : spec_float) :
  Spec.in_unit c1 = true -> Spec.in_unit c2 = true ->
  (Spec.F2Q c1 <= Spec.F2Q c2)%Q ->
  exists r1 g1 r2 g2,
    Demo.rgb (PFloat c1) = Ok (r1, g1, 0) /\ Demo2.rgb c1 = Ok (r1, g1, 0) /\
    Demo.rgb (PFloat c2) = Ok (r2, g2, 0) /\ Demo2.rgb c2 = Ok (r2, g2, 0) /\
    g1 <= g2 /\ r2 <= r1.
Proof.
  intros H1 H2 Hle.
  pose proof (rgb_floor_mono 1119 ltac:(lia) c1 c2 H1 H2 Hle) as [Hg Hr].
  exists (fst (fst (Spec.rgb_floor c1))), (snd (fst (Spec.rgb_floor c1))),
         (fst (fst (Spec.rgb_floor c2))), (snd (fst (Spec.rgb_floor c2))).
  rewrite (rgb_floor_number c1 H1), (rgb_floor_double c1 H1),
          (rgb_floor_number c2 H2), (rgb_floor_double c2 H2).
  repeat split; assumption.
Qed.

(** At the confidences 0.31 and 0.92. *)
Lemma X19_greener_with_confidence_witness :
  exists r1 g1 r2 g2,
    Demo.rgb (PFloat Sample.c031) = Ok (r1, g1, 0) /\ Demo2.rgb Sample.c031 = Ok (r1, g1, 0) /\
    Demo.rgb (PFloat Sample.c092) = Ok (r2, g2, 0) /\ Demo2.rgb Sample.c092 = Ok (r2, g2, 0) /\
    g1 <= g2 /\ r2 <= r1.
Proof.
  apply (X19_greener_with_confidence Sample.c031 Sample.c092).
  - vm_compute; reflexivity.
  - vm_compute; reflexivity.
  - vm_compute. discriminate.
Defined.

(** X20: the text colour goes with the background.  For a confidence in
    [[0,1]], light text ("white") is drawn on a background with at most 127
    of green and at least 127 of red, dark text ("black") on one with at
    least 127 of green and at most 127 of red; the confidence 0 is drawn on
    pure red, the confidence 1 on pure green. *)
Theorem X20_text_on_background (c : spec_float) :
  Spec.in_unit c = true ->
  exists r g,
    Demo.rgb (PFloat c) = Ok (r, g, 0) /\ Demo2.rgb c = Ok (r, g, 0) /\
    (Demo.text_color (PFloat c) = "white" -> Demo2.text_color c = "white" /\
                                             g <= 127 <= r) /\
    (Demo.text_color (PFloat c) = "black" -> Demo2.text_color c = "black" /\
                                             r <= 127 <= g) /\
    Demo2.rgb f0 = Ok (255, 0, 0) /\ Demo2.rgb f1 = Ok (0, 255, 0).
Proof.
  intros Hc.
  exists (fst (fst (Spec.rgb_floor c))), (snd (fst (Spec.rgb_floor c))).
  rewrite (rgb_floor_number c Hc), (rgb_floor_double c Hc).
  rewrite (text_color_number c Hc), (text_color_double c Hc).
  assert (Spec.in_unit f0_5 = true) as Hh by (vm_compute; reflexivity).
  assert (Spec.rgb_floor f0_5 = (127, 127, 0)) as Eh by (vm_compute; reflexivity).
  assert (1 # 2 <= Spec.F2Q f0_5)%Q as Hlo by (vm_compute; discriminate).
  assert (Spec.F2Q f0_5 <= 1 # 2)%Q as Hhi by (vm_compute; discriminate).
  split; [reflexivity|]. split; [reflexivity|].
  unfold Spec.text_color.
  destruct (Spec.Qltb (Spec.F2Q c) (1 # 2)) eqn:E.
  - apply Qltb_lt in E.
    pose proof (rgb_floor_mono 1119 ltac:(lia) c f0_5 Hc Hh) as Hm.
    rewrite Eh in Hm. cbn [fst snd] in Hm.
    destruct Hm as [Hg Hr];
      [apply Qle_trans with (1 # 2); [apply Qlt_le_weak; exact E | exact Hlo]|].
    split; [intros _; split; [reflexivity | lia]|].
    split; [discriminate|]. split; vm_compute; reflexivity.
  - apply Qltb_ge in E.
    pose proof (rgb_floor_mono 1119 ltac:(lia) f0_5 c Hh Hc) as Hm.
    rewrite Eh in Hm. cbn [fst snd] in Hm.
    destruct Hm as [Hg Hr];
      [apply Qle_trans with (1 # 2); [exact Hhi | exact E]|].
    split; [discriminate|].
    split; [intros _; split; [reflexivity | lia]|]. split; vm_compute; reflexivity.
Qed.

(** At the confidence 0.31: light text on rgb(175, 79, 0). *)
Lemma X20_text_on_background_witness :
  exists r g,
    Demo.rgb (PFloat Sample.c031) = Ok (r, g, 0) /\ Demo2.rgb Sample.c031 = Ok (r, g, 0) /\
    (Demo.text_color (PFloat Sample.c031) = "white" ->
     Demo2.text_color Sample.c031 = "white" /\ g <= 127 <= r) /\
    (Demo.text_color (PFloat Sample.c031) = "black" ->
     Demo2.text_color Sample.c031 = "black" /\ r <= 127 <= g) /\
    Demo2.rgb f0 = Ok (255, 0, 0) /\ Demo2.rgb f1 = Ok (0, 255, 0).
Proof.
  apply (X20_text_on_background Sample.c031). vm_compute; reflexivity.
Defined.

(** X21: the number shown for a confidence.  For a confidence in [[0,1]]
    (other than the negative zero) the two decimals that both versions put
    between the parentheses are one digit, a dot and two digits, from 0.00
    to 1.00: the hundredths [h] nearest to the value, within one half of
    [100 * c].  A negative zero is shown with its sign, as -0.00. *)
Theorem X21_two_decimals (rt : runtime) (c : spec_float) (t : string) :
  Spec.in_unit c = true -> c <> S754_zero true ->
  exists h,
    0 <= h <= 100 /\
    (Qabs (inject_Z h - 100 * Spec.F2Q c) <= 1 # 2)%Q /\
    String.length (str_of_Z (h / 100) +:+ "." +:+ two_digits (h mod 100)) = 4%nat /\
    Demo2.display_text true t c =
      t +:+ " (" +:+ (str_of_Z (h / 100) +:+ "." +:+ two_digits (h mod 100)) +:+ ")" /\
    Demo2.detailed_line {| Demo2.word := t; Demo2.confidence := c |} =
      t +:+ " (" +:+ (str_of_Z (h / 100) +:+ "." +:+ two_digits (h mod 100)) +:+ ")" /\
    (forall o, o !! "word" = Some (JStr t) -> o !! "confidence" = Some (JFloat c) ->
               Demo.detailed_line rt (JObj o) =
               Ok (t +:+ " (" +:+ (str_of_Z (h / 100) +:+ "." +:+
                                   two_digits (h mod 100)) +:+ ")")) /\
    Demo2.display_text true t (S754_zero true) = t +:+ " (-0.00)".
Proof.
  intros Hc Hnz. destruct (format_2f_unit c Hc Hnz) as (h & Hh & Hf & Hl & Hq).
  exists h. split; [exact Hh|]. split; [exact Hq|].
  split; [now rewrite <- Hf|].
  unfold Demo2.display_text, Demo2.detailed_line. cbn [Demo2.word Demo2.confidence].
  rewrite <- Hf. split; [reflexivity|]. split; [reflexivity|].
  split; [|reflexivity].
  intros o Hw Hco. unfold Demo.detailed_line, getitem. rewrite Hw, Hco. reflexivity.
Qed.

(** At the confidence 0.92. *)
Lemma X21_two_decimals_witness :
  exists h,
    0 <= h <= 100 /\
    (Qabs (inject_Z h - 100 * Spec.F2Q Sample.c092) <= 1 # 2)%Q /\
    String.length (str_of_Z (h / 100) +:+ "." +:+ two_digits (h mod 100)) = 4%nat /\
    Demo2.display_text true "hello" Sample.c092 =
      "hello" +:+ " (" +:+ (str_of_Z (h / 100) +:+ "." +:+ two_digits (h mod 100)) +:+ ")" /\
    Demo2.detailed_line {| Demo2.word := "hello"; Demo2.confidence := Sample.c092 |} =
      "hello" +:+ " (" +:+ (str_of_Z (h / 100) +:+ "." +:+ two_digits (h mod 100)) +:+ ")" /\
    (forall o, o !! "word" = Some (JStr "hello") ->
               o !! "confidence" = Some (JFloat Sample.c092) ->
               Demo.detailed_line Sample.rt (JObj o) =
               Ok ("hello" +:+ " (" +:+ (str_of_Z (h / 100) +:+ "." +:+
                                         two_digits (h mod 100)) +:+ ")")) /\
    Demo2.display_text true "hello" (S754_zero true) = "hello" +:+ " (-0.00)".
Proof.
  apply (X21_two_decimals Sample.rt Sample.c092 "hello").
  - vm_compute; reflexivity.
  - vm_compute; discriminate.
Defined.


